(** * OSSM configuration tool: the J1939 protocol engine

    A shallow embedding of [src/protocol/j1939.c], of the transport
    wrappers of [src/can/socketcan.c] it calls, and of the declarations
    of [src/types.h] and [src/can/socketcan.h] they use; then of what
    [src/main.c] and [src/ui/ui.c] do with them: the receive step of the
    main loop, the display of a reading and the dialogs.

    Conventions.
    - A C unsigned integer of width [w] is a [Z]; every conversion to a
      narrower unsigned type is written out as [wrap w].
    - A C [float] is an IEEE-754 binary32 value: [spec_float] with
      precision 24 and exponent bound 128, rounded to nearest even (the
      operations of [SpecFloat]), every operation rounded to binary32.
    - A byte buffer is a [list Z]; reads use [nth] with default 0.
    - The socket and the clock are an explicit world, see [Transport]. *)

From Stdlib Require Import ZArith List Bool Lia.
From Stdlib Require Import Floats.SpecFloat.
From Stdlib Require String.
From Equations Require Import Equations.
Import ListNotations.
Import String.StringSyntax.
Delimit Scope string_scope with string.

Local Open Scope Z_scope.

(** ** Machine integers *)

Definition wrap (w : Z) (x : Z) : Z := x mod 2 ^ w.

Definition u8 : Z -> Z := wrap 8.
Definition u16 : Z -> Z := wrap 16.
Definition u32 : Z -> Z := wrap 32.

(** ** Constants of [types.h] *)

Definition OSSM_SOURCE_ADDRESS : Z := 0x95.

Definition PGN_OSSM_COMMAND : Z := 0xFF00.
Definition PGN_OSSM_RESPONSE : Z := 0xFF01.

Definition PGN_AMBIENT_CONDITIONS : Z := 0xFEF5.
Definition PGN_INLET_EXHAUST : Z := 0xFEF6.
Definition PGN_ENGINE_TEMP : Z := 0xFEEE.
Definition PGN_ENGINE_FLUID_PRESS : Z := 0xFEEF.
Definition PGN_ENGINE_TEMP_2 : Z := 0xFE69.
Definition PGN_ENGINE_TEMP_3 : Z := 0xFE95.
Definition PGN_TURBO_PRESS : Z := 0xFE96.

(** The eighth [case] label of [j1939_parse_message] is the literal
    65164; it has no macro in [types.h]. *)
Definition PGN_SUPPLY_PRESSURE : Z := 65164.

(** [EOssmCommand] *)
Definition CMD_ENABLE_SPN : Z := 0x01.
Definition CMD_SET_NTC_PARAM : Z := 0x02.
Definition CMD_SET_PRESSURE_RANGE : Z := 0x03.
Definition CMD_SET_TC_TYPE : Z := 0x04.
Definition CMD_QUERY : Z := 0x05.
Definition CMD_SAVE : Z := 0x06.
Definition CMD_RESET : Z := 0x07.
Definition CMD_NTC_PRESET : Z := 0x08.
Definition CMD_PRESSURE_PRESET : Z := 0x09.

(** ** Identifier codec *)

Definition j1939_get_pgn (can_id : Z) : Z :=
  let pf := u8 (Z.land (Z.shiftr can_id 16) 0xFF) in
  if pf <? 240 then
    u32 (Z.shiftl pf 8)
  else
    let ps := u8 (Z.land (Z.shiftr can_id 8) 0xFF) in
    u32 (Z.lor (Z.shiftl pf 8) ps).

Definition j1939_get_source (can_id : Z) : Z :=
  u8 (Z.land can_id 0xFF).

Definition j1939_build_id (pgn priority source : Z) : Z :=
  u32 (Z.lor (Z.lor (u32 (Z.shiftl (u32 (Z.land priority 0x07)) 26))
                    (u32 (Z.shiftl (Z.land pgn 0x3FFFF) 8)))
             source).

(** The fields of an identifier: PDU Format (bits 16-23), PDU Specific
    (bits 8-15) and priority (bits 26-28), as the comments of
    [j1939_get_pgn] and [j1939_build_id] lay them out. *)
Definition pdu_format (can_id : Z) : Z := Z.land (Z.shiftr can_id 16) 0xFF.
Definition pdu_specific (can_id : Z) : Z := Z.land (Z.shiftr can_id 8) 0xFF.
Definition id_priority (can_id : Z) : Z := Z.land (Z.shiftr can_id 26) 0x07.

(** ** Single-precision arithmetic

    [float] is binary32.  Integer-to-float conversion and the literals
    are correctly rounded; [f32_lit m e] is the binary32 value nearest to
    [m * 2 ^ e]. *)

Definition float32 : Type := spec_float.

Definition f32_prec : Z := 24.
Definition f32_emax : Z := 128.

Definition f32_lit (m e : Z) : float32 :=
  binary_normalize f32_prec f32_emax m e false.

Definition f32_of_Z (z : Z) : float32 := f32_lit z 0.

Definition f32_mul : float32 -> float32 -> float32 := SFmul f32_prec f32_emax.
Definition f32_sub : float32 -> float32 -> float32 := SFsub f32_prec f32_emax.
Definition f32_div : float32 -> float32 -> float32 := SFdiv f32_prec f32_emax.
Definition f32_neg : float32 -> float32 := SFopp.

(** The literals of [j1939.c]. *)
Definition f32_999 : float32 := f32_of_Z 999.
Definition f32_40 : float32 := f32_of_Z 40.
Definition f32_273 : float32 := f32_of_Z 273.
Definition f32_2 : float32 := f32_of_Z 2.
Definition f32_4 : float32 := f32_of_Z 4.
Definition f32_0_5 : float32 := f32_lit 1 (-1).
Definition f32_0_125 : float32 := f32_lit 1 (-3).
Definition f32_0_03125 : float32 := f32_lit 1 (-5).
(** [0.4f] is 0x3ECCCCCD, that is 13421773 * 2^-25. *)
Definition f32_0_4 : float32 := f32_lit 13421773 (-25).

(** [-999.0f], the "not available" reading. *)
Definition NOT_AVAILABLE : float32 := f32_neg f32_999.

(** ** Data model of [types.h] and [socketcan.h] *)

(** [TCanFrame].  The members are [id], [len], [data] and [extended];
    they carry the prefix [f_] here because [id] and [data] are taken.
    [data] is an array of 8 bytes. *)
Record TCanFrame := mkCanFrame {
  f_id : Z;
  f_len : Z;
  f_data : list Z;
  f_extended : bool
}.

Record TSensorData := mkSensorData {
  oilTemperatureC : float32;
  coolantTemperatureC : float32;
  fuelTemperatureC : float32;
  boostTemperatureC : float32;
  cacInletTemperatureC : float32;
  transferPipeTemperatureC : float32;
  airInletTemperatureC : float32;
  engineBayTemperatureC : float32;
  ambientTemperatureC : float32;
  egtTemperatureC : float32;
  oilPressurekPa : float32;
  coolantPressurekPa : float32;
  fuelPressurekPa : float32;
  boostPressurekPa : float32;
  airInletPressurekPa : float32;
  cacInletPressurekPa : float32;
  transferPipePressurekPa : float32;
  absoluteBarometricPressurekPa : float32;
  humidity : float32;
  lastUpdateMs : Z
}.

(** Field assignment [data->f = v], one function per member. *)
Definition set_oilTemperatureC (v : float32) (d : TSensorData) : TSensorData :=
  mkSensorData v (coolantTemperatureC d) (fuelTemperatureC d)
    (boostTemperatureC d) (cacInletTemperatureC d)
    (transferPipeTemperatureC d) (airInletTemperatureC d)
    (engineBayTemperatureC d) (ambientTemperatureC d) (egtTemperatureC d)
    (oilPressurekPa d) (coolantPressurekPa d) (fuelPressurekPa d)
    (boostPressurekPa d) (airInletPressurekPa d) (cacInletPressurekPa d)
    (transferPipePressurekPa d) (absoluteBarometricPressurekPa d)
    (humidity d) (lastUpdateMs d).

Definition set_coolantTemperatureC (v : float32) (d : TSensorData) : TSensorData :=
  mkSensorData (oilTemperatureC d) v (fuelTemperatureC d)
    (boostTemperatureC d) (cacInletTemperatureC d)
    (transferPipeTemperatureC d) (airInletTemperatureC d)
    (engineBayTemperatureC d) (ambientTemperatureC d) (egtTemperatureC d)
    (oilPressurekPa d) (coolantPressurekPa d) (fuelPressurekPa d)
    (boostPressurekPa d) (airInletPressurekPa d) (cacInletPressurekPa d)
    (transferPipePressurekPa d) (absoluteBarometricPressurekPa d)
    (humidity d) (lastUpdateMs d).

Definition set_fuelTemperatureC (v : float32) (d : TSensorData) : TSensorData :=
  mkSensorData (oilTemperatureC d) (coolantTemperatureC d) v
    (boostTemperatureC d) (cacInletTemperatureC d)
    (transferPipeTemperatureC d) (airInletTemperatureC d)
    (engineBayTemperatureC d) (ambientTemperatureC d) (egtTemperatureC d)
    (oilPressurekPa d) (coolantPressurekPa d) (fuelPressurekPa d)
    (boostPressurekPa d) (airInletPressurekPa d) (cacInletPressurekPa d)
    (transferPipePressurekPa d) (absoluteBarometricPressurekPa d)
    (humidity d) (lastUpdateMs d).

Definition set_boostTemperatureC (v : float32) (d : TSensorData) : TSensorData :=
  mkSensorData (oilTemperatureC d) (coolantTemperatureC d)
    (fuelTemperatureC d) v (cacInletTemperatureC d)
    (transferPipeTemperatureC d) (airInletTemperatureC d)
    (engineBayTemperatureC d) (ambientTemperatureC d) (egtTemperatureC d)
    (oilPressurekPa d) (coolantPressurekPa d) (fuelPressurekPa d)
    (boostPressurekPa d) (airInletPressurekPa d) (cacInletPressurekPa d)
    (transferPipePressurekPa d) (absoluteBarometricPressurekPa d)
    (humidity d) (lastUpdateMs d).

Definition set_cacInletTemperatureC (v : float32) (d : TSensorData) : TSensorData :=
  mkSensorData (oilTemperatureC d) (coolantTemperatureC d)
    (fuelTemperatureC d) (boostTemperatureC d) v (transferPipeTemperatureC
    d) (airInletTemperatureC d) (engineBayTemperatureC d)
    (ambientTemperatureC d) (egtTemperatureC d) (oilPressurekPa d)
    (coolantPressurekPa d) (fuelPressurekPa d) (boostPressurekPa d)
    (airInletPressurekPa d) (cacInletPressurekPa d)
    (transferPipePressurekPa d) (absoluteBarometricPressurekPa d)
    (humidity d) (lastUpdateMs d).

Definition set_transferPipeTemperatureC (v : float32) (d : TSensorData) : TSensorData :=
  mkSensorData (oilTemperatureC d) (coolantTemperatureC d)
    (fuelTemperatureC d) (boostTemperatureC d) (cacInletTemperatureC d) v
    (airInletTemperatureC d) (engineBayTemperatureC d)
    (ambientTemperatureC d) (egtTemperatureC d) (oilPressurekPa d)
    (coolantPressurekPa d) (fuelPressurekPa d) (boostPressurekPa d)
    (airInletPressurekPa d) (cacInletPressurekPa d)
    (transferPipePressurekPa d) (absoluteBarometricPressurekPa d)
    (humidity d) (lastUpdateMs d).

Definition set_airInletTemperatureC (v : float32) (d : TSensorData) : TSensorData :=
  mkSensorData (oilTemperatureC d) (coolantTemperatureC d)
    (fuelTemperatureC d) (boostTemperatureC d) (cacInletTemperatureC d)
    (transferPipeTemperatureC d) v (engineBayTemperatureC d)
    (ambientTemperatureC d) (egtTemperatureC d) (oilPressurekPa d)
    (coolantPressurekPa d) (fuelPressurekPa d) (boostPressurekPa d)
    (airInletPressurekPa d) (cacInletPressurekPa d)
    (transferPipePressurekPa d) (absoluteBarometricPressurekPa d)
    (humidity d) (lastUpdateMs d).

Definition set_engineBayTemperatureC (v : float32) (d : TSensorData) : TSensorData :=
  mkSensorData (oilTemperatureC d) (coolantTemperatureC d)
    (fuelTemperatureC d) (boostTemperatureC d) (cacInletTemperatureC d)
    (transferPipeTemperatureC d) (airInletTemperatureC d) v
    (ambientTemperatureC d) (egtTemperatureC d) (oilPressurekPa d)
    (coolantPressurekPa d) (fuelPressurekPa d) (boostPressurekPa d)
    (airInletPressurekPa d) (cacInletPressurekPa d)
    (transferPipePressurekPa d) (absoluteBarometricPressurekPa d)
    (humidity d) (lastUpdateMs d).

Definition set_ambientTemperatureC (v : float32) (d : TSensorData) : TSensorData :=
  mkSensorData (oilTemperatureC d) (coolantTemperatureC d)
    (fuelTemperatureC d) (boostTemperatureC d) (cacInletTemperatureC d)
    (transferPipeTemperatureC d) (airInletTemperatureC d)
    (engineBayTemperatureC d) v (egtTemperatureC d) (oilPressurekPa d)
    (coolantPressurekPa d) (fuelPressurekPa d) (boostPressurekPa d)
    (airInletPressurekPa d) (cacInletPressurekPa d)
    (transferPipePressurekPa d) (absoluteBarometricPressurekPa d)
    (humidity d) (lastUpdateMs d).

Definition set_egtTemperatureC (v : float32) (d : TSensorData) : TSensorData :=
  mkSensorData (oilTemperatureC d) (coolantTemperatureC d)
    (fuelTemperatureC d) (boostTemperatureC d) (cacInletTemperatureC d)
    (transferPipeTemperatureC d) (airInletTemperatureC d)
    (engineBayTemperatureC d) (ambientTemperatureC d) v (oilPressurekPa d)
    (coolantPressurekPa d) (fuelPressurekPa d) (boostPressurekPa d)
    (airInletPressurekPa d) (cacInletPressurekPa d)
    (transferPipePressurekPa d) (absoluteBarometricPressurekPa d)
    (humidity d) (lastUpdateMs d).

Definition set_oilPressurekPa (v : float32) (d : TSensorData) : TSensorData :=
  mkSensorData (oilTemperatureC d) (coolantTemperatureC d)
    (fuelTemperatureC d) (boostTemperatureC d) (cacInletTemperatureC d)
    (transferPipeTemperatureC d) (airInletTemperatureC d)
    (engineBayTemperatureC d) (ambientTemperatureC d) (egtTemperatureC d)
    v (coolantPressurekPa d) (fuelPressurekPa d) (boostPressurekPa d)
    (airInletPressurekPa d) (cacInletPressurekPa d)
    (transferPipePressurekPa d) (absoluteBarometricPressurekPa d)
    (humidity d) (lastUpdateMs d).

Definition set_coolantPressurekPa (v : float32) (d : TSensorData) : TSensorData :=
  mkSensorData (oilTemperatureC d) (coolantTemperatureC d)
    (fuelTemperatureC d) (boostTemperatureC d) (cacInletTemperatureC d)
    (transferPipeTemperatureC d) (airInletTemperatureC d)
    (engineBayTemperatureC d) (ambientTemperatureC d) (egtTemperatureC d)
    (oilPressurekPa d) v (fuelPressurekPa d) (boostPressurekPa d)
    (airInletPressurekPa d) (cacInletPressurekPa d)
    (transferPipePressurekPa d) (absoluteBarometricPressurekPa d)
    (humidity d) (lastUpdateMs d).

Definition set_fuelPressurekPa (v : float32) (d : TSensorData) : TSensorData :=
  mkSensorData (oilTemperatureC d) (coolantTemperatureC d)
    (fuelTemperatureC d) (boostTemperatureC d) (cacInletTemperatureC d)
    (transferPipeTemperatureC d) (airInletTemperatureC d)
    (engineBayTemperatureC d) (ambientTemperatureC d) (egtTemperatureC d)
    (oilPressurekPa d) (coolantPressurekPa d) v (boostPressurekPa d)
    (airInletPressurekPa d) (cacInletPressurekPa d)
    (transferPipePressurekPa d) (absoluteBarometricPressurekPa d)
    (humidity d) (lastUpdateMs d).

Definition set_boostPressurekPa (v : float32) (d : TSensorData) : TSensorData :=
  mkSensorData (oilTemperatureC d) (coolantTemperatureC d)
    (fuelTemperatureC d) (boostTemperatureC d) (cacInletTemperatureC d)
    (transferPipeTemperatureC d) (airInletTemperatureC d)
    (engineBayTemperatureC d) (ambientTemperatureC d) (egtTemperatureC d)
    (oilPressurekPa d) (coolantPressurekPa d) (fuelPressurekPa d) v
    (airInletPressurekPa d) (cacInletPressurekPa d)
    (transferPipePressurekPa d) (absoluteBarometricPressurekPa d)
    (humidity d) (lastUpdateMs d).

Definition set_airInletPressurekPa (v : float32) (d : TSensorData) : TSensorData :=
  mkSensorData (oilTemperatureC d) (coolantTemperatureC d)
    (fuelTemperatureC d) (boostTemperatureC d) (cacInletTemperatureC d)
    (transferPipeTemperatureC d) (airInletTemperatureC d)
    (engineBayTemperatureC d) (ambientTemperatureC d) (egtTemperatureC d)
    (oilPressurekPa d) (coolantPressurekPa d) (fuelPressurekPa d)
    (boostPressurekPa d) v (cacInletPressurekPa d)
    (transferPipePressurekPa d) (absoluteBarometricPressurekPa d)
    (humidity d) (lastUpdateMs d).

Definition set_cacInletPressurekPa (v : float32) (d : TSensorData) : TSensorData :=
  mkSensorData (oilTemperatureC d) (coolantTemperatureC d)
    (fuelTemperatureC d) (boostTemperatureC d) (cacInletTemperatureC d)
    (transferPipeTemperatureC d) (airInletTemperatureC d)
    (engineBayTemperatureC d) (ambientTemperatureC d) (egtTemperatureC d)
    (oilPressurekPa d) (coolantPressurekPa d) (fuelPressurekPa d)
    (boostPressurekPa d) (airInletPressurekPa d) v
    (transferPipePressurekPa d) (absoluteBarometricPressurekPa d)
    (humidity d) (lastUpdateMs d).

Definition set_transferPipePressurekPa (v : float32) (d : TSensorData) : TSensorData :=
  mkSensorData (oilTemperatureC d) (coolantTemperatureC d)
    (fuelTemperatureC d) (boostTemperatureC d) (cacInletTemperatureC d)
    (transferPipeTemperatureC d) (airInletTemperatureC d)
    (engineBayTemperatureC d) (ambientTemperatureC d) (egtTemperatureC d)
    (oilPressurekPa d) (coolantPressurekPa d) (fuelPressurekPa d)
    (boostPressurekPa d) (airInletPressurekPa d) (cacInletPressurekPa d) v
    (absoluteBarometricPressurekPa d) (humidity d) (lastUpdateMs d).

Definition set_absoluteBarometricPressurekPa (v : float32) (d : TSensorData) : TSensorData :=
  mkSensorData (oilTemperatureC d) (coolantTemperatureC d)
    (fuelTemperatureC d) (boostTemperatureC d) (cacInletTemperatureC d)
    (transferPipeTemperatureC d) (airInletTemperatureC d)
    (engineBayTemperatureC d) (ambientTemperatureC d) (egtTemperatureC d)
    (oilPressurekPa d) (coolantPressurekPa d) (fuelPressurekPa d)
    (boostPressurekPa d) (airInletPressurekPa d) (cacInletPressurekPa d)
    (transferPipePressurekPa d) v (humidity d) (lastUpdateMs d).

Definition set_humidity (v : float32) (d : TSensorData) : TSensorData :=
  mkSensorData (oilTemperatureC d) (coolantTemperatureC d)
    (fuelTemperatureC d) (boostTemperatureC d) (cacInletTemperatureC d)
    (transferPipeTemperatureC d) (airInletTemperatureC d)
    (engineBayTemperatureC d) (ambientTemperatureC d) (egtTemperatureC d)
    (oilPressurekPa d) (coolantPressurekPa d) (fuelPressurekPa d)
    (boostPressurekPa d) (airInletPressurekPa d) (cacInletPressurekPa d)
    (transferPipePressurekPa d) (absoluteBarometricPressurekPa d) v
    (lastUpdateMs d).

Definition set_lastUpdateMs (v : Z) (d : TSensorData) : TSensorData :=
  mkSensorData (oilTemperatureC d) (coolantTemperatureC d)
    (fuelTemperatureC d) (boostTemperatureC d) (cacInletTemperatureC d)
    (transferPipeTemperatureC d) (airInletTemperatureC d)
    (engineBayTemperatureC d) (ambientTemperatureC d) (egtTemperatureC d)
    (oilPressurekPa d) (coolantPressurekPa d) (fuelPressurekPa d)
    (boostPressurekPa d) (airInletPressurekPa d) (cacInletPressurekPa d)
    (transferPipePressurekPa d) (absoluteBarometricPressurekPa d)
    (humidity d) v.

(** The nineteen readings, as names. *)
Inductive SensorField : Type :=
| F_oilTemperatureC
| F_coolantTemperatureC
| F_fuelTemperatureC
| F_boostTemperatureC
| F_cacInletTemperatureC
| F_transferPipeTemperatureC
| F_airInletTemperatureC
| F_engineBayTemperatureC
| F_ambientTemperatureC
| F_egtTemperatureC
| F_oilPressurekPa
| F_coolantPressurekPa
| F_fuelPressurekPa
| F_boostPressurekPa
| F_airInletPressurekPa
| F_cacInletPressurekPa
| F_transferPipePressurekPa
| F_absoluteBarometricPressurekPa
| F_humidity.

Definition reading (f : SensorField) (d : TSensorData) : float32 :=
  match f with
  | F_oilTemperatureC => oilTemperatureC d
  | F_coolantTemperatureC => coolantTemperatureC d
  | F_fuelTemperatureC => fuelTemperatureC d
  | F_boostTemperatureC => boostTemperatureC d
  | F_cacInletTemperatureC => cacInletTemperatureC d
  | F_transferPipeTemperatureC => transferPipeTemperatureC d
  | F_airInletTemperatureC => airInletTemperatureC d
  | F_engineBayTemperatureC => engineBayTemperatureC d
  | F_ambientTemperatureC => ambientTemperatureC d
  | F_egtTemperatureC => egtTemperatureC d
  | F_oilPressurekPa => oilPressurekPa d
  | F_coolantPressurekPa => coolantPressurekPa d
  | F_fuelPressurekPa => fuelPressurekPa d
  | F_boostPressurekPa => boostPressurekPa d
  | F_airInletPressurekPa => airInletPressurekPa d
  | F_cacInletPressurekPa => cacInletPressurekPa d
  | F_transferPipePressurekPa => transferPipePressurekPa d
  | F_absoluteBarometricPressurekPa => absoluteBarometricPressurekPa d
  | F_humidity => humidity d
  end.

(** [TConfigState] *)
Record TConfigState := mkConfigState {
  tempCount : Z;
  pressureCount : Z;
  egtEnabled : bool;
  bme280Enabled : bool;
  sourceAddress : Z;
  thermocoupleType : Z
}.

(** [TSpnAssignments] of [j1939.h]: arrays of 8 and of 7 [uint16_t]. *)
Record TSpnAssignments := mkSpnAssignments {
  tempSpns : list Z;
  presSpns : list Z
}.

(** The snapshot [main] builds before its loop: [memset] to zero, then
    every reading set to [-999.0f]. *)
Definition initial_sensor_data : TSensorData :=
  mkSensorData NOT_AVAILABLE NOT_AVAILABLE NOT_AVAILABLE NOT_AVAILABLE
    NOT_AVAILABLE NOT_AVAILABLE NOT_AVAILABLE NOT_AVAILABLE NOT_AVAILABLE
    NOT_AVAILABLE NOT_AVAILABLE NOT_AVAILABLE NOT_AVAILABLE NOT_AVAILABLE
    NOT_AVAILABLE NOT_AVAILABLE NOT_AVAILABLE NOT_AVAILABLE NOT_AVAILABLE 0.

(** ** Telemetry decoder *)

(** Convert J1939 temperature byte to Celsius (1 degree/bit, +40 offset). *)
Definition decode_temp_byte (byte : Z) : float32 :=
  if byte =? 0xFF then NOT_AVAILABLE
  else f32_sub (f32_of_Z byte) f32_40.

(** 16-bit temperature, low byte first (0.03125 degree/bit, -273 offset). *)
Definition decode_temp_16bit_le (low high : Z) : float32 :=
  if (high =? 0xFF) && (low =? 0xFF) then NOT_AVAILABLE
  else
    let val := u16 (Z.lor (Z.shiftl (u16 high) 8) low) in
    f32_sub (f32_mul (f32_of_Z val) f32_0_03125) f32_273.

Definition decode_pressure_2kpa (byte : Z) : float32 :=
  if byte =? 0xFF then NOT_AVAILABLE
  else f32_mul (f32_of_Z byte) f32_2.

Definition decode_pressure_4kpa (byte : Z) : float32 :=
  if byte =? 0xFF then NOT_AVAILABLE
  else f32_mul (f32_of_Z byte) f32_4.

Definition decode_baro_pressure (byte : Z) : float32 :=
  if byte =? 0xFF then NOT_AVAILABLE
  else f32_mul (f32_of_Z byte) f32_0_5.

Definition decode_humidity (byte : Z) : float32 :=
  if byte =? 0xFF then NOT_AVAILABLE
  else f32_mul (f32_of_Z byte) f32_0_4.

(** A reading of [CLOCK_MONOTONIC]. *)
Record timespec := mkTimespec {
  tv_sec : Z;
  tv_nsec : Z
}.

(** [get_time_ms]; [ts] is what [clock_gettime] stores. *)
Definition get_time_ms (ts : timespec) : Z :=
  u32 (tv_sec ts * 1000 + Z.quot (tv_nsec ts) 1000000).

(** [j1939_parse_message(frame, data)]: the result is the returned flag
    and the contents of [*data] afterwards.  [ts] is the clock reading
    [get_time_ms] obtains when it is called. *)
Definition j1939_parse_message (ts : timespec) (frame : TCanFrame)
    (data : TSensorData) : bool * TSensorData :=
  if negb (f_extended frame) then (false, data)
  else
    let source := j1939_get_source (f_id frame) in
    if negb (source =? OSSM_SOURCE_ADDRESS) then (false, data)
    else
      let pgn := j1939_get_pgn (f_id frame) in
      let d := fun i : nat => nth i (f_data frame) 0 in
      let '(updated, data) :=
        if pgn =? PGN_AMBIENT_CONDITIONS then
          let data := set_absoluteBarometricPressurekPa
                        (decode_baro_pressure (d 0%nat)) data in
          let data := set_ambientTemperatureC
                        (decode_temp_16bit_le (d 3%nat) (d 4%nat)) data in
          let data := set_airInletTemperatureC
                        (decode_temp_byte (d 5%nat)) data in
          (true, data)
        else if pgn =? PGN_INLET_EXHAUST then
          let data := set_boostPressurekPa
                        (decode_pressure_2kpa (d 1%nat)) data in
          let data := set_boostTemperatureC
                        (decode_temp_byte (d 2%nat)) data in
          let data := set_airInletPressurekPa
                        (decode_pressure_2kpa (d 3%nat)) data in
          let data := set_egtTemperatureC
                        (decode_temp_16bit_le (d 5%nat) (d 6%nat)) data in
          (true, data)
        else if pgn =? PGN_ENGINE_TEMP then
          let data := set_coolantTemperatureC
                        (decode_temp_byte (d 0%nat)) data in
          let data := set_fuelTemperatureC
                        (decode_temp_byte (d 1%nat)) data in
          let data := set_oilTemperatureC
                        (decode_temp_16bit_le (d 2%nat) (d 3%nat)) data in
          (true, data)
        else if pgn =? PGN_ENGINE_FLUID_PRESS then
          let data := set_fuelPressurekPa
                        (decode_pressure_4kpa (d 0%nat)) data in
          let data := set_oilPressurekPa
                        (decode_pressure_4kpa (d 3%nat)) data in
          let data := set_coolantPressurekPa
                        (decode_pressure_2kpa (d 6%nat)) data in
          (true, data)
        else if pgn =? PGN_ENGINE_TEMP_2 then
          (true, data)
        else if pgn =? PGN_ENGINE_TEMP_3 then
          let data := set_cacInletTemperatureC
                        (decode_temp_byte (d 0%nat)) data in
          let data := set_transferPipeTemperatureC
                        (decode_temp_byte (d 1%nat)) data in
          (true, data)
        else if pgn =? PGN_TURBO_PRESS then
          let data :=
            if negb (d 0%nat =? 0xFF) || negb (d 1%nat =? 0xFF) then
              let val := u16 (Z.lor (Z.shiftl (u16 (d 1%nat)) 8) (d 0%nat)) in
              set_cacInletPressurekPa (f32_mul (f32_of_Z val) f32_0_125) data
            else data in
          let data :=
            if negb (d 2%nat =? 0xFF) || negb (d 3%nat =? 0xFF) then
              let val := u16 (Z.lor (Z.shiftl (u16 (d 3%nat)) 8) (d 2%nat)) in
              set_transferPipePressurekPa
                (f32_mul (f32_of_Z val) f32_0_125) data
            else data in
          (true, data)
        else if pgn =? 65164 then
          let data := set_engineBayTemperatureC
                        (decode_temp_byte (d 0%nat)) data in
          let data := set_humidity (decode_humidity (d 6%nat)) data in
          (true, data)
        else (false, data) in
      if updated then (true, set_lastUpdateMs (get_time_ms ts) data)
      else (false, data).

(** The seven data PGNs that [types.h] names ("Data PGNs we receive"). *)
Definition named_data_pgns : list Z :=
  [PGN_AMBIENT_CONDITIONS; PGN_INLET_EXHAUST; PGN_ENGINE_TEMP;
   PGN_ENGINE_FLUID_PRESS; PGN_ENGINE_TEMP_2; PGN_ENGINE_TEMP_3;
   PGN_TURBO_PRESS].

(** The [case] labels of the [switch] in [j1939_parse_message]: the seven
    named PGNs and the literal 65164. *)
Definition dispatched_pgns : list Z := named_data_pgns ++ [PGN_SUPPLY_PRESSURE].

(** The readings each [case] assigns. *)
Definition fields_of_pgn (pgn : Z) : list SensorField :=
  if pgn =? PGN_AMBIENT_CONDITIONS then
    [F_absoluteBarometricPressurekPa; F_ambientTemperatureC;
     F_airInletTemperatureC]
  else if pgn =? PGN_INLET_EXHAUST then
    [F_boostPressurekPa; F_boostTemperatureC; F_airInletPressurekPa;
     F_egtTemperatureC]
  else if pgn =? PGN_ENGINE_TEMP then
    [F_coolantTemperatureC; F_fuelTemperatureC; F_oilTemperatureC]
  else if pgn =? PGN_ENGINE_FLUID_PRESS then
    [F_fuelPressurekPa; F_oilPressurekPa; F_coolantPressurekPa]
  else if pgn =? PGN_ENGINE_TEMP_2 then []
  else if pgn =? PGN_ENGINE_TEMP_3 then
    [F_cacInletTemperatureC; F_transferPipeTemperatureC]
  else if pgn =? PGN_TURBO_PRESS then
    [F_cacInletPressurekPa; F_transferPipePressurekPa]
  else if pgn =? PGN_SUPPLY_PRESSURE then
    [F_engineBayTemperatureC; F_humidity]
  else [].

(** A payload of eight 0xFF bytes. *)
Definition all_FF : list Z := repeat 0xFF 8.

(** A frame that passes the two guards at the head of
    [j1939_parse_message]. *)
Definition from_module (frame : TCanFrame) : Prop :=
  f_extended frame = true /\
  j1939_get_source (f_id frame) = OSSM_SOURCE_ADDRESS.

(** Two snapshots used as examples: the module reported 5.0 kPa on the
    first 0.125 kPa/bit channel, and a frame on PGN 0xFE96 whose
    payload is all ones. *)
Definition snapshot_5kPa : TSensorData :=
  set_cacInletPressurekPa (f32_of_Z 5) initial_sensor_data.

Definition frame_of (pgn : Z) (payload : list Z) : TCanFrame :=
  mkCanFrame (j1939_build_id pgn 6 OSSM_SOURCE_ADDRESS) 8 payload true.

Definition noon : timespec := mkTimespec 43200 250000000.

(** A later clock reading, and the snapshot [main] holds once a frame on
    PGN 0xFE96 has reported 5.0 kPa on the first channel (bytes 0x28
    0x00) and nothing on the second. *)
Definition ten_past_noon : timespec := mkTimespec 43800 0.

Definition first_channel_5kPa : TSensorData :=
  snd (j1939_parse_message noon
         (frame_of PGN_TURBO_PRESS [0x28; 0; 0xFF; 0xFF; 0xFF; 0xFF; 0xFF; 0xFF])
         initial_sensor_data).
(** ** Transport: [socketcan.c] over an explicit world

    The kernel side of the socket is an oracle: the outcome of the k-th
    [write] and of the k-th [read] of a run.  Storage that the C code
    leaves uninitialised (the local [frame] of [j1939_check_response],
    the locals [response] and [len] of the query functions) holds
    whatever the environment says. *)

(** [struct can_frame] of <linux/can.h>. *)
Record can_frame := mkRawFrame {
  can_id : Z;
  can_dlc : Z;
  raw_data : list Z
}.

Definition CAN_EFF_FLAG : Z := 0x80000000.
Definition CAN_EFF_MASK : Z := 0x1FFFFFFF.

Inductive ReadOutcome : Type :=
| ReadFrame (cf : can_frame)  (* [read] returned [sizeof(cf)] *)
| ReadWouldBlock              (* -1 with [EAGAIN] or [EWOULDBLOCK] *)
| ReadFailed                  (* -1 with any other [errno] *)
| ReadShort.                  (* fewer than [sizeof(cf)] bytes *)

Record Env := mkEnv {
  write_ok : nat -> bool;            (* the k-th [write] is complete *)
  read_outcome : nat -> ReadOutcome; (* what the k-th [read] gives *)
  stack_frame : nat -> TCanFrame;
  stack_response : nat -> list Z;
  stack_len : nat -> Z
}.

Record World := mkWorld {
  written : list can_frame;  (* frames handed to [write], oldest first *)
  reads : nat;               (* number of [read] calls so far *)
  slept_us : Z               (* total of the [usleep] arguments *)
}.

(** State passing: a computation maps a world to a result and a world. *)
Definition M (A : Type) : Type := World -> A * World.

Definition ret {A : Type} (a : A) : M A := fun w => (a, w).

Definition bind {A B : Type} (m : M A) (k : A -> M B) : M B :=
  fun w => let (a, w') := m w in k a w'.

Declare Scope world_scope.
Delimit Scope world_scope with world.
Notation "x <- c ;; k" := (bind c (fun x => k))
  (at level 61, c at next level, right associativity) : world_scope.
Notation "c ;; k" := (bind c (fun _ => k))
  (at level 61, right associativity) : world_scope.

(** [memcpy(dst + off, src, n)] for regions that lie inside both arrays. *)
Definition memcpy (dst : list Z) (off : nat) (src : list Z) (n : nat) : list Z :=
  firstn off dst ++ firstn n src ++ skipn (off + n) dst.

(** [a[i] = v] for [i] inside the array. *)
Definition store (a : list Z) (i : nat) (v : Z) : list Z :=
  firstn i a ++ v :: skipn (S i) a.

(** A loop body either makes the function return ([Return r]) or hands
    the updated locals to the next turn ([Next s]). *)
Inductive Flow (S : Type) : Type :=
| Return (r : Z) (s : S)
| Next (s : S).
Arguments Return {S} r s.
Arguments Next {S} s.

Section Engine.

Variable env : Env.

Definition sys_write (cf : can_frame) : M bool :=
  fun w => (write_ok env (length (written w)),
            mkWorld (written w ++ [cf]) (reads w) (slept_us w)).

Definition sys_read : M ReadOutcome :=
  fun w => (read_outcome env (reads w),
            mkWorld (written w) (S (reads w)) (slept_us w)).

Definition usleep (us : Z) : M unit :=
  fun w => (tt, mkWorld (written w) (reads w) (slept_us w + us)).

(** The [struct can_frame] that [socketcan_send] fills in. *)
Definition to_can_frame (frame : TCanFrame) : can_frame :=
  let cf_id := f_id frame in
  let cf_id := if f_extended frame then u32 (Z.lor cf_id CAN_EFF_FLAG)
               else cf_id in
  mkRawFrame cf_id (f_len frame)
    (memcpy (repeat 0 8) 0 (f_data frame) (Z.to_nat (f_len frame))).

Definition socketcan_send (frame : TCanFrame) : M Z :=
  (complete <- sys_write (to_can_frame frame) ;;
   if negb complete then ret (-1) else ret 0)%world.

(** [socketcan_receive(sock, frame)] after its [read]: the returned code
    and the contents of [*frame] afterwards.  Only the first [can_dlc]
    payload bytes of [*frame] are overwritten, and nothing is on a
    failed or empty read. *)
Definition receive_into (r : ReadOutcome) (frame : TCanFrame) : Z * TCanFrame :=
  match r with
  | ReadWouldBlock => (0, frame)
  | ReadFailed => (-1, frame)
  | ReadShort => (-1, frame)
  | ReadFrame cf =>
      (1, mkCanFrame
            (Z.land (can_id cf) CAN_EFF_MASK)
            (can_dlc cf)
            (memcpy (f_data frame) 0 (raw_data cf) (Z.to_nat (can_dlc cf)))
            (negb (Z.land (can_id cf) CAN_EFF_FLAG =? 0)))
  end.

Definition socketcan_receive (frame : TCanFrame) : M (Z * TCanFrame) :=
  (r <- sys_read ;; ret (receive_into r frame))%world.

(** ** Command/response engine *)

(** [j1939_send_command(sock, cmd, params, param_len)]; [params] is
    [None] for a null pointer. *)
Definition j1939_send_command (cmd : Z) (params : option (list Z))
    (param_len : Z) : M Z :=
  let data := repeat 0xFF 8 in
  let data := store data 0 (u8 cmd) in
  let data :=
    match params with
    | Some p =>
        if 0 <? param_len then
          let param_len := if 7 <? param_len then 7 else param_len in
          memcpy data 1 p (Z.to_nat param_len)
        else data
    | None => data
    end in
  socketcan_send
    (mkCanFrame (j1939_build_id PGN_OSSM_COMMAND 6 0x00) 8 data true).

Definition timeout_ms : Z := 1000.

(** What is left of the polling window, the measure of the loop. *)
Definition polls_budget (elapsed : Z) : nat := Z.to_nat (timeout_ms - elapsed).

(** What [j1939_check_response] hands back: the returned [int] and the
    contents of [*response_data] and [*response_len] ([None] for a null
    pointer). *)
Definition Reply : Type := Z * option (list Z) * option Z.

(** One turn of the [while] loop of [j1939_check_response]: either the
    function returns ([inl]), or the loop goes on with the received
    frame left in the local [frame] ([inr]). *)
Definition poll_once (expected_cmd : Z) (response_data : option (list Z))
    (response_len : option Z) (frame : TCanFrame) : M (Reply + TCanFrame) :=
  fun w =>
    let '((result, frame), w) := socketcan_receive frame w in
    let go_on := let '(_, w) := usleep 5000 w in (inr frame, w) in
    if 0 <? result then
      let pgn := j1939_get_pgn (f_id frame) in
      let source := j1939_get_source (f_id frame) in
      if (pgn =? PGN_OSSM_RESPONSE) && (source =? OSSM_SOURCE_ADDRESS) then
        if nth 0 (f_data frame) 0 =? expected_cmd then
          let error := u8 (nth 1 (f_data frame) 0) in
          match response_data, response_len with
          | Some buf, Some _ =>
              (inl (error,
                    Some (memcpy buf 0 (skipn 2 (f_data frame)) 6),
                    Some 6), w)
          | _, _ => (inl (error, response_data, response_len), w)
          end
        else go_on
      else go_on
    else go_on.

Opaque polls_budget.

(** The loop itself: [while (elapsed < timeout_ms) { ...; elapsed += 5; }]
    and the [return -1] after it. *)
Equations? poll_loop (expected_cmd : Z) (response_data : option (list Z))
    (response_len : option Z) (frame : TCanFrame) (elapsed : Z) (w : World)
    : Reply * World by wf (polls_budget elapsed) lt :=
  poll_loop expected_cmd response_data response_len frame elapsed w
    with Z_lt_dec elapsed timeout_ms := {
    | left _ with poll_once expected_cmd response_data response_len frame w := {
      | (inl reply, w') => (reply, w')
      | (inr frame', w') =>
          poll_loop expected_cmd response_data response_len frame'
            (elapsed + 5) w' }
    | right _ => ((-1, response_data, response_len), w) }.
Proof.
  with_strategy transparent [polls_budget] (unfold polls_budget, timeout_ms in *).
  lia.
Qed.

Transparent polls_budget.

Definition j1939_check_response (expected_cmd : Z)
    (response_data : option (list Z)) (response_len : option Z) : M Reply :=
  fun w =>
    let frame := stack_frame env (reads w) in
    let '(_, w) := usleep 50000 w in
    poll_loop expected_cmd response_data response_len frame 0 w.

(** ** High-level commands *)

Local Open Scope world_scope.

Definition j1939_enable_spn (spn : Z) (enable : bool) (input : Z) : M Z :=
  let params :=
    [u8 (Z.land (Z.shiftr spn 8) 0xFF);
     u8 (Z.land spn 0xFF);
     if enable then 1 else 0;
     input] in
  r <- j1939_send_command CMD_ENABLE_SPN (Some params) 4 ;;
  if r <? 0 then ret (-1)
  else
    reply <- j1939_check_response CMD_ENABLE_SPN None None ;;
    ret (fst (fst reply)).

Definition j1939_set_ntc_preset (input preset : Z) : M Z :=
  let params := [input; u8 preset] in
  r <- j1939_send_command CMD_NTC_PRESET (Some params) 2 ;;
  if r <? 0 then ret (-1)
  else
    reply <- j1939_check_response CMD_NTC_PRESET None None ;;
    ret (fst (fst reply)).

Definition j1939_set_pressure_preset (input preset : Z) : M Z :=
  let params := [input; u8 preset] in
  r <- j1939_send_command CMD_PRESSURE_PRESET (Some params) 2 ;;
  if r <? 0 then ret (-1)
  else
    reply <- j1939_check_response CMD_PRESSURE_PRESET None None ;;
    ret (fst (fst reply)).

Definition j1939_set_tc_type (type : Z) : M Z :=
  let params := [type] in
  r <- j1939_send_command CMD_SET_TC_TYPE (Some params) 1 ;;
  if r <? 0 then ret (-1)
  else
    reply <- j1939_check_response CMD_SET_TC_TYPE None None ;;
    ret (fst (fst reply)).

(** [j1939_query_config(sock, state)]: the returned [int] and the
    contents of [*state] afterwards ([None] for a null pointer). *)
Definition j1939_query_config (state : option TConfigState)
    : M (Z * option TConfigState) :=
  fun w =>
    let params := [0] in
    let response := stack_response env (reads w) in
    let len := stack_len env (reads w) in
    let '(r, w) := j1939_send_command CMD_QUERY (Some params) 1 w in
    if r <? 0 then ((-1, state), w)
    else
      let '((result, response, len), w) :=
        j1939_check_response CMD_QUERY (Some response) (Some len) w in
      match state, response with
      | Some st, Some response =>
          if result =? 0 then
            let st := mkConfigState (nth 0 response 0) (pressureCount st)
                        (egtEnabled st) (bme280Enabled st)
                        (sourceAddress st) (thermocoupleType st) in
            let st := mkConfigState (tempCount st) (nth 1 response 0)
                        (egtEnabled st) (bme280Enabled st)
                        (sourceAddress st) (thermocoupleType st) in
            let st := mkConfigState (tempCount st) (pressureCount st)
                        (negb (nth 2 response 0 =? 0)) (bme280Enabled st)
                        (sourceAddress st) (thermocoupleType st) in
            let st := mkConfigState (tempCount st) (pressureCount st)
                        (egtEnabled st) (negb (nth 3 response 0 =? 0))
                        (sourceAddress st) (thermocoupleType st) in
            ((result, Some st), w)
          else ((result, state), w)
      | _, _ => ((result, state), w)
      end.

(** The body of the inner [for (uint8_t i = 0; i < 3; i++)] loops of
    [j1939_query_spn_assignments]: [limit] is 8 for [tempSpns] and 7 for
    [presSpns]. *)
Definition store_spn (limit subQuery : Z) (response : list Z)
    (table : list Z) (i : Z) : list Z :=
  let idx := u8 (subQuery * 3 + i) in
  if idx <? limit then
    let spn := u16 (Z.lor (Z.shiftl (u16 (nth (Z.to_nat (i * 2)) response 0)) 8)
                          (nth (Z.to_nat (i * 2 + 1)) response 0)) in
    if negb (spn =? 0xFFFF) then store table (Z.to_nat idx) spn
    else table
  else table.

Definition store_spns (limit subQuery : Z) (response : list Z)
    (table : list Z) : list Z :=
  fold_left (store_spn limit subQuery response) [0; 1; 2] table.

(** [for (uint8_t subQuery = 0; subQuery < 3; subQuery++)], as the list
    of the values [subQuery] takes. *)
Fixpoint for_each {S : Type} (body : Z -> S -> M (Flow S)) (indices : list Z)
    (s : S) : M (Flow S) :=
  match indices with
  | [] => ret (Next s)
  | i :: rest =>
      f <- body i s ;;
      match f with
      | Return r s' => ret (Return r s')
      | Next s' => for_each body rest s'
      end
  end.

(** The locals and the out-parameter that the two outer loops carry:
    [response] and [*assignments]. *)
Definition temp_sub_query (subQuery : Z) (s : list Z * TSpnAssignments)
    : M (Flow (list Z * TSpnAssignments)) :=
  fun w =>
    let '(response, assignments) := s in
    let len := stack_len env (reads w) in
    let params := [1; subQuery] in
    let '(r, w) := j1939_send_command CMD_QUERY (Some params) 2 w in
    if r <? 0 then (Return (-1) (response, assignments), w)
    else
      let '((result, response', _), w) :=
        j1939_check_response CMD_QUERY (Some response) (Some len) w in
      let response := match response' with Some b => b | None => response end in
      if negb (result =? 0) then (Return result (response, assignments), w)
      else
        (Next (response,
               mkSpnAssignments
                 (store_spns 8 subQuery response (tempSpns assignments))
                 (presSpns assignments)), w).

Definition pres_sub_query (subQuery : Z) (s : list Z * TSpnAssignments)
    : M (Flow (list Z * TSpnAssignments)) :=
  fun w =>
    let '(response, assignments) := s in
    let len := stack_len env (reads w) in
    let params := [2; subQuery] in
    let '(r, w) := j1939_send_command CMD_QUERY (Some params) 2 w in
    if r <? 0 then (Return (-1) (response, assignments), w)
    else
      let '((result, response', _), w) :=
        j1939_check_response CMD_QUERY (Some response) (Some len) w in
      let response := match response' with Some b => b | None => response end in
      if negb (result =? 0) then (Return result (response, assignments), w)
      else
        (Next (response,
               mkSpnAssignments
                 (tempSpns assignments)
                 (store_spns 7 subQuery response (presSpns assignments))), w).

(** [j1939_query_spn_assignments(sock, assignments)]: the returned [int]
    and the contents of [*assignments] afterwards. *)
Definition j1939_query_spn_assignments (assignments : TSpnAssignments)
    : M (Z * TSpnAssignments) :=
  fun w =>
    let response := stack_response env (reads w) in
    let assignments := mkSpnAssignments (repeat 0 8) (repeat 0 7) in
    let '(f, w) := for_each temp_sub_query [0; 1; 2] (response, assignments) w in
    match f with
    | Return r (_, assignments) => ((r, assignments), w)
    | Next s =>
        let '(f, w) := for_each pres_sub_query [0; 1; 2] s w in
        match f with
        | Return r (_, assignments) => ((r, assignments), w)
        | Next (_, assignments) => ((0, assignments), w)
        end
    end.

Definition j1939_save_config : M Z :=
  r <- j1939_send_command CMD_SAVE None 0 ;;
  if r <? 0 then ret (-1)
  else
    reply <- j1939_check_response CMD_SAVE None None ;;
    ret (fst (fst reply)).

Definition j1939_reset_config : M Z :=
  r <- j1939_send_command CMD_RESET None 0 ;;
  if r <? 0 then ret (-1)
  else
    reply <- j1939_check_response CMD_RESET None None ;;
    ret (fst (fst reply)).

End Engine.

(** ** The polling window, by poll number

    [j1939_check_response] called in a world where [start] reads have
    been made polls with the reads [start], [start + 1], ...  The local
    [frame] starts as [stack_frame env start] and is handed from one
    poll to the next. *)

(** Contents of the local [frame] when poll [k] begins. *)
Fixpoint frame_before (env : Env) (start k : nat) : TCanFrame :=
  match k with
  | O => stack_frame env start
  | S j =>
      snd (receive_into (read_outcome env (start + j)%nat)
                        (frame_before env start j))
  end.

(** Poll [k]: the code [socketcan_receive] returns and the frame it
    leaves in the local [frame]. *)
Definition poll (env : Env) (start k : nat) : Z * TCanFrame :=
  receive_into (read_outcome env (start + k)%nat) (frame_before env start k).

(** The acceptance test, in words: a frame was received, its PGN is
    0xFF01, its source is 0x95 and its first payload byte is the
    command waited for. *)
Definition accepted (expected_cmd : Z) (p : Z * TCanFrame) : Prop :=
  0 < fst p /\
  j1939_get_pgn (f_id (snd p)) = 0xFF01 /\
  j1939_get_source (f_id (snd p)) = 0x95 /\
  nth 0 (f_data (snd p)) 0 = expected_cmd.

Definition acceptedb (expected_cmd : Z) (p : Z * TCanFrame) : bool :=
  (0 <? fst p)
  && (j1939_get_pgn (f_id (snd p)) =? 0xFF01)
  && (j1939_get_source (f_id (snd p)) =? 0x95)
  && (nth 0 (f_data (snd p)) 0 =? expected_cmd).

(** The least [k] with [from <= k < from + count] that [test] accepts. *)
Fixpoint first_match (test : nat -> bool) (from count : nat) : option nat :=
  match count with
  | O => None
  | S c => if test from then Some from else first_match test (S from) c
  end.

(** Number of polls in the window: 1000 ms at 5 ms a poll. *)
Definition MAX_POLLS : nat := 200.

(** A payload of bytes. *)
Definition is_byte (b : Z) : Prop := 0 <= b < 256.

(** ** Environments used as examples *)

(** Nothing is ever received, every write succeeds. *)
Definition silent_env : Env :=
  mkEnv (fun _ => true) (fun _ => ReadWouldBlock)
        (fun _ => mkCanFrame 0 0 (repeat 0 8) false)
        (fun _ => repeat 0 6) (fun _ => 0).

(** Every write fails. *)
Definition dead_env : Env :=
  mkEnv (fun _ => false) (fun _ => ReadWouldBlock)
        (fun _ => mkCanFrame 0 0 (repeat 0 8) false)
        (fun _ => repeat 0 6) (fun _ => 0).

(** The raw frame of a response from the module. *)
Definition response_frame (payload : list Z) : can_frame :=
  mkRawFrame (Z.lor (j1939_build_id PGN_OSSM_RESPONSE 6 OSSM_SOURCE_ADDRESS)
                    CAN_EFF_FLAG)
             8 payload.

(** The reads of a run, as a script: read [k] gives the k-th entry, and
    nothing once the script is over. *)
Definition scripted_env (script : list ReadOutcome) : Env :=
  mkEnv (fun _ => true) (fun k => nth k script ReadWouldBlock)
        (fun _ => mkCanFrame 0 0 (repeat 0 8) false)
        (fun _ => repeat 0 6) (fun _ => 0).

Definition fresh_world : World := mkWorld [] 0 0.

(** What a matching frame gives the caller: payload byte 1 as the
    returned code and, when both out-pointers are set, payload bytes 2
    to 7 in [*response_data] and 6 in [*response_len]. *)
Definition reply_of (response_data : option (list Z)) (response_len : option Z)
    (frame : TCanFrame) : Reply :=
  match response_data, response_len with
  | Some buf, Some _ =>
      (u8 (nth 1 (f_data frame) 0),
       Some (memcpy buf 0 (skipn 2 (f_data frame)) 6),
       Some 6)
  | _, _ => (u8 (nth 1 (f_data frame) 0), response_data, response_len)
  end.

(** A poll script for the examples: nothing, then a telemetry frame,
    then the response to a save command, then the response to a query
    with code 0 and the result block 3 2 1 0 0xFF 0xFF. *)
Definition busy_script : list ReadOutcome :=
  [ReadWouldBlock;
   ReadFrame (mkRawFrame 0x98FEF695 8 [0xFF; 0x32; 0x46; 0x32; 0xFF; 0xFF; 0xFF; 0xFF]);
   ReadFrame (response_frame [0x06; 0; 0xFF; 0xFF; 0xFF; 0xFF; 0xFF; 0xFF]);
   ReadFrame (response_frame [0x05; 0; 3; 2; 1; 0; 0xFF; 0xFF])].

(** The command frame for [payload], as [socketcan_send] writes it. *)
Definition command_frame (payload : list Z) : TCanFrame :=
  mkCanFrame (j1939_build_id 0xFF00 6 0) 8 payload true.

(** The frame of sub-query [sq] of query type [kind]. *)
Definition query_frame (kind sq : Z) : can_frame :=
  to_can_frame (command_frame [0x05; kind; sq; 0xFF; 0xFF; 0xFF; 0xFF; 0xFF]).

(** The first write succeeds and the later ones fail; the one response
    read carries the SPNs 175, 110 and 174. *)
Definition flaky_env : Env :=
  mkEnv (fun k => (k <? 1)%nat)
        (fun k => nth k [ReadFrame (response_frame
                                      [0x05; 0; 0x00; 0xAF; 0x00; 0x6E; 0x00; 0xAE])]
                        ReadWouldBlock)
        (fun _ => mkCanFrame 0 0 (repeat 0 8) false)
        (fun _ => repeat 0 6) (fun _ => 0).

(** A configuration state as [main] could hold it. *)
Definition some_config : TConfigState := mkConfigState 3 2 true false 0x95 1.

(** One round trip of a sub-query of [j1939_query_spn_assignments], seen
    from outside: [sub_query_fails env kind sq response w r] says that
    sub-query [sq] of query type [kind], begun in world [w] with
    [response] in the local buffer, fails with code [r]: either the send
    fails and [r] is -1, or the send succeeds and the wait for the
    response gives [r], which is not 0 (-1 on a timeout, the module's
    error code otherwise). *)
Definition sub_query_fails (env : Env) (kind sq : Z) (response : list Z)
    (w : World) (r : Z) : Prop :=
  let sent := j1939_send_command env CMD_QUERY (Some [kind; sq]) 2 w in
  (fst sent < 0 /\ r = -1) \/
  (0 <= fst sent /\
   r = fst (fst (fst (j1939_check_response env CMD_QUERY (Some response)
                        (Some (stack_len env (reads w))) (snd sent)))) /\
   r <> 0).

(** The world in which that sub-query ends. *)
Definition sub_query_end (env : Env) (kind sq : Z) (response : list Z)
    (w : World) : World :=
  let sent := j1939_send_command env CMD_QUERY (Some [kind; sq]) 2 w in
  if fst sent <? 0 then snd sent
  else snd (j1939_check_response env CMD_QUERY (Some response)
              (Some (stack_len env (reads w))) (snd sent)).

(** ** The commands as [main] issues them

    The six commands that are one send and one wait, as values, so that
    what they share can be stated once.  [run_command] is the call
    [main] makes for each. *)

Inductive Command : Type :=
| EnableSpn (spn : Z) (enable : bool) (input : Z)
| NtcPreset (input preset : Z)
| PressurePreset (input preset : Z)
| TcType (type : Z)
| SaveConfig
| ResetConfig.

Definition run_command (env : Env) (c : Command) : M Z :=
  match c with
  | EnableSpn spn enable input => j1939_enable_spn env spn enable input
  | NtcPreset input preset => j1939_set_ntc_preset env input preset
  | PressurePreset input preset => j1939_set_pressure_preset env input preset
  | TcType type => j1939_set_tc_type env type
  | SaveConfig => j1939_save_config env
  | ResetConfig => j1939_reset_config env
  end.

(** The command byte each one sends and waits for. *)
Definition command_code (c : Command) : Z :=
  match c with
  | EnableSpn _ _ _ => 0x01
  | NtcPreset _ _ => 0x08
  | PressurePreset _ _ => 0x09
  | TcType _ => 0x04
  | SaveConfig => 0x06
  | ResetConfig => 0x07
  end.

(** The eight payload bytes on the wire, in numbers. *)
Definition command_payload (c : Command) : list Z :=
  match c with
  | EnableSpn spn enable input =>
      [0x01; (spn / 256) mod 256; spn mod 256; if enable then 1 else 0;
       input; 0xFF; 0xFF; 0xFF]
  | NtcPreset input preset =>
      [0x08; input; preset mod 256; 0xFF; 0xFF; 0xFF; 0xFF; 0xFF]
  | PressurePreset input preset =>
      [0x09; input; preset mod 256; 0xFF; 0xFF; 0xFF; 0xFF; 0xFF]
  | TcType type =>
      [0x04; type; 0xFF; 0xFF; 0xFF; 0xFF; 0xFF; 0xFF]
  | SaveConfig => [0x06; 0xFF; 0xFF; 0xFF; 0xFF; 0xFF; 0xFF; 0xFF]
  | ResetConfig => [0x07; 0xFF; 0xFF; 0xFF; 0xFF; 0xFF; 0xFF; 0xFF]
  end.

(** The world once a command frame with [payload] has been handed to
    [write]. *)
Definition after_send (payload : list Z) (w : World) : World :=
  mkWorld (written w ++ [to_can_frame (command_frame payload)])
          (reads w) (slept_us w).

(** The six frames of a complete [j1939_query_spn_assignments], in the
    order of the two loops. *)
Definition all_query_frames : list can_frame :=
  map (query_frame 1) [0; 1; 2] ++ map (query_frame 2) [0; 1; 2].

(** The SPN that the byte pair [i] of a response block carries, high
    byte first. *)
Definition spn_of_pair (response : list Z) (i : nat) : Z :=
  nth (2 * i) response 0 * 256 + nth (2 * i + 1) response 0.

(** The locals that a loop hands on, whichever way its body ended. *)
Definition flow_state {S : Type} (f : Flow S) : S :=
  match f with
  | Return _ s => s
  | Next s => s
  end.

(** What a table of [limit] slots may hold: 0 for a disabled input or an
    SPN below 0xFFFF. *)
Definition valid_table (limit : nat) (table : list Z) : Prop :=
  length table = limit /\ Forall (fun spn => 0 <= spn < 0xFFFF) table.

(** Both tables of a [TSpnAssignments] carried by the loops. *)
Definition tables_valid (s : list Z * TSpnAssignments) : Prop :=
  valid_table 8 (tempSpns (snd s)) /\ valid_table 7 (presSpns (snd s)).

(** Every write succeeds; the reads are the responses of [script], one a
    sub-query. *)
Definition answering_env (script : list (list Z)) : Env :=
  scripted_env (map (fun payload => ReadFrame (response_frame payload)) script).

(** Temperature inputs 1, 2 and 8 assigned, then an error code 5 on the
    second pressure sub-query. *)
Definition pressure_error_script : list (list Z) :=
  [[0x05; 0; 0x00; 0xAF; 0x00; 0x6E; 0xFF; 0xFF];
   [0x05; 0; 0xFF; 0xFF; 0xFF; 0xFF; 0xFF; 0xFF];
   [0x05; 0; 0xFF; 0xFF; 0x01; 0xB9; 0x12; 0x34];
   [0x05; 0; 0x00; 0x64; 0xFF; 0xFF; 0x00; 0x5E];
   [0x05; 5; 0xFF; 0xFF; 0xFF; 0xFF; 0xFF; 0xFF]].

(** Slot [j] of a table of [limit] slots after sub-query [sq] stored its
    response: the three pairs go to the slots 3 sq, 3 sq + 1 and
    3 sq + 2 that exist, unless the pair is 0xFFFF. *)
Definition slot_after (limit sq : nat) (response table : list Z) (j : nat) : Z :=
  if (3 * sq <=? j)%nat && (j <? 3 * sq + 3)%nat && (j <? limit)%nat
     && negb (spn_of_pair response (j - 3 * sq) =? 0xFFFF)
  then spn_of_pair response (j - 3 * sq)
  else nth j table 0.

(** ** Display of the readings: [ui.c] *)

Definition COLOR_DATA : Z := 3.
Definition COLOR_STALE : Z := 8.

(** What [print_value] puts in a cell: "N/A", or the value in a colour
    (the conversion to text by ["%7.1f %s"] is left to [printf]). *)
Inductive Cell : Type :=
| CellNA
| CellValue (color : Z) (value : float32).

Definition f32_900 : float32 := f32_of_Z 900.

Definition print_value (value : float32) (is_stale : bool) : Cell :=
  let color := if is_stale then COLOR_STALE else COLOR_DATA in
  if SFltb value (f32_neg f32_900) then CellNA
  else CellValue color value.

(** The flag [stale] of [ui_update_sensors]; [ts] is the clock reading of
    its [get_time_ms], and the subtraction is one of [uint32_t]. *)
Definition sensors_stale (ts : timespec) (data : TSensorData) : bool :=
  let now := get_time_ms ts in
  2000 <? u32 (now - lastUpdateMs data).

(** Milliseconds of a clock reading, before the conversion to
    [uint32_t]. *)
Definition clock_ms (ts : timespec) : Z :=
  tv_sec ts * 1000 + Z.quot (tv_nsec ts) 1000000.

(** Equality of two binary32 values as data. *)
Definition f32_same (x y : float32) : bool :=
  match x, y with
  | S754_zero s, S754_zero s' => Bool.eqb s s'
  | S754_infinity s, S754_infinity s' => Bool.eqb s s'
  | S754_nan, S754_nan => true
  | S754_finite s m e, S754_finite s' m' e' =>
      Bool.eqb s s' && Pos.eqb m m' && Z.eqb e e'
  | _, _ => false
  end.

(** The raw values a byte and a byte pair can take. *)
Definition all_bytes : list Z := map Z.of_nat (seq 0 256).

Definition all_byte_pairs : list (Z * Z) :=
  flat_map (fun hi => map (fun lo => (lo, hi)) all_bytes) all_bytes.

(** ** The SPN registry of [types.h] and the names of [ui.c] *)

Inductive ESpnCategory : Type :=
| SPN_CAT_TEMPERATURE
| SPN_CAT_PRESSURE
| SPN_CAT_EGT
| SPN_CAT_BME280
| SPN_CAT_UNKNOWN.

(** [TSpnInfo]; a null [name] or [unit] is [None]. *)
Record TSpnInfo := mkSpnInfo {
  info_spn : Z;
  info_name : option String.string;
  info_unit : option String.string;
  info_category : ESpnCategory
}.

Definition KNOWN_SPNS : list TSpnInfo :=
  [mkSpnInfo 175 (Some "Engine Oil Temp"%string) (Some "C"%string) SPN_CAT_TEMPERATURE;
   mkSpnInfo 110 (Some "Coolant Temp"%string) (Some "C"%string) SPN_CAT_TEMPERATURE;
   mkSpnInfo 174 (Some "Fuel Temp"%string) (Some "C"%string) SPN_CAT_TEMPERATURE;
   mkSpnInfo 105 (Some "Boost Temp"%string) (Some "C"%string) SPN_CAT_TEMPERATURE;
   mkSpnInfo 1131 (Some "CAC Inlet Temp"%string) (Some "C"%string) SPN_CAT_TEMPERATURE;
   mkSpnInfo 1132 (Some "Transfer Pipe Temp"%string) (Some "C"%string) SPN_CAT_TEMPERATURE;
   mkSpnInfo 1133 (Some "Air Inlet Temp"%string) (Some "C"%string) SPN_CAT_TEMPERATURE;
   mkSpnInfo 172 (Some "Air Inlet Temp 2"%string) (Some "C"%string) SPN_CAT_TEMPERATURE;
   mkSpnInfo 441 (Some "Engine Bay Temp"%string) (Some "C"%string) SPN_CAT_TEMPERATURE;
   mkSpnInfo 100 (Some "Engine Oil Pres"%string) (Some "kPa"%string) SPN_CAT_PRESSURE;
   mkSpnInfo 109 (Some "Coolant Pres"%string) (Some "kPa"%string) SPN_CAT_PRESSURE;
   mkSpnInfo 94 (Some "Fuel Delivery Pres"%string) (Some "kPa"%string) SPN_CAT_PRESSURE;
   mkSpnInfo 102 (Some "Boost Pres"%string) (Some "kPa"%string) SPN_CAT_PRESSURE;
   mkSpnInfo 106 (Some "Air Inlet Pres"%string) (Some "kPa"%string) SPN_CAT_PRESSURE;
   mkSpnInfo 1127 (Some "CAC Inlet Pres"%string) (Some "kPa"%string) SPN_CAT_PRESSURE;
   mkSpnInfo 1128 (Some "Transfer Pipe Pres"%string) (Some "kPa"%string) SPN_CAT_PRESSURE;
   mkSpnInfo 173 (Some "EGT"%string) (Some "C"%string) SPN_CAT_EGT;
   mkSpnInfo 171 (Some "Ambient Temp"%string) (Some "C"%string) SPN_CAT_BME280;
   mkSpnInfo 108 (Some "Barometric Pres"%string) (Some "kPa"%string) SPN_CAT_BME280;
   mkSpnInfo 354 (Some "Humidity"%string) (Some "%"%string) SPN_CAT_BME280;
   mkSpnInfo 0 None None SPN_CAT_UNKNOWN].

(** [sizeof(KNOWN_SPNS) / sizeof(KNOWN_SPNS[0]) - 1]: the terminator is
    not counted. *)
Definition KNOWN_SPN_COUNT : nat := (length KNOWN_SPNS - 1)%nat.

(** The SPNs of the registry, terminator left out. *)
Definition known_spn_numbers : list Z :=
  map info_spn (firstn KNOWN_SPN_COUNT KNOWN_SPNS).

(** [ui_get_spn_name]: the [switch] on [spn]. *)
Definition ui_get_spn_name (spn : Z) : String.string :=
  if spn =? 175 then "Oil Temp"%string
  else if spn =? 110 then "Coolant Temp"%string
  else if spn =? 174 then "Fuel Temp"%string
  else if spn =? 105 then "Boost Temp"%string
  else if spn =? 1131 then "CAC Inlet Temp"%string
  else if spn =? 1132 then "Xfer Pipe Temp"%string
  else if spn =? 1133 then "Air Inlet Temp 4"%string
  else if spn =? 172 then "Air Inlet Temp"%string
  else if spn =? 441 then "Eng Bay Temp"%string
  else if spn =? 100 then "Oil Pres"%string
  else if spn =? 109 then "Coolant Pres"%string
  else if spn =? 94 then "Fuel Pres"%string
  else if spn =? 102 then "Boost Pres"%string
  else if spn =? 106 then "Air Inlet Pres"%string
  else if spn =? 1127 then "CAC Inlet Pres"%string
  else if spn =? 1128 then "Xfer Pipe Pres"%string
  else if spn =? 173 then "EGT"%string
  else if spn =? 171 then "Ambient Temp"%string
  else if spn =? 108 then "Baro Pres"%string
  else if spn =? 354 then "Humidity"%string
  else "Unknown"%string.

(** ** The dialogs of [ui.c], as functions of the keys pressed

    A dialog is a [while (1)] loop around [getch]: it draws, reads a
    key and acts on it.  Here the drawing is left out; a dialog is the
    step its [switch] takes on a key, run over the keys typed.  The
    result is [None] while the dialog is still open, [Some None] when it
    returned 0 (ESC) and [Some (Some v)] when it returned 1 with the
    values [v] in its out-parameters. *)

(** Key codes of <ncurses.h>. *)
Definition KEY_DOWN : Z := 258.
Definition KEY_UP : Z := 259.
Definition KEY_LEFT : Z := 260.
Definition KEY_RIGHT : Z := 261.

Inductive Step (St R : Type) : Type :=
| Continue (s : St)
| Finish (r : option R).
Arguments Continue {St R} s.
Arguments Finish {St R} r.

Fixpoint run_dialog {St R : Type} (step : Z -> St -> Step St R)
    (keys : list Z) (s : St) : option (option R) :=
  match keys with
  | [] => None
  | ch :: rest =>
      match step ch s with
      | Continue s' => run_dialog step rest s'
      | Finish r => Some r
      end
  end.

(** [ui_dialog_enable_spn]: the locals [selection] and [category] and
    the out-parameters [*input] and [*enable]. *)
Record EnableDialog := mkEnableDialog {
  ed_selection : Z;
  ed_category : Z;
  ed_input : Z;
  ed_enable : bool
}.

Definition temp_spn_vals : list Z := [175; 110; 174; 105; 1131; 1132; 172; 441].
Definition pres_spn_vals : list Z := [100; 109; 94; 102; 106; 1127; 1128].

Definition enable_spn_key (ch : Z) (s : EnableDialog)
    : Step EnableDialog (Z * Z * bool) :=
  let selection := ed_selection s in
  let category := ed_category s in
  let input := ed_input s in
  let enable := ed_enable s in
  if ch =? KEY_LEFT then
    if 0 <? category then Continue (mkEnableDialog 0 (category - 1) input enable)
    else Continue s
  else if ch =? KEY_RIGHT then
    if category <? 3 then Continue (mkEnableDialog 0 (category + 1) input enable)
    else Continue s
  else if ch =? KEY_UP then
    if 0 <? selection
    then Continue (mkEnableDialog (selection - 1) category input enable)
    else Continue s
  else if ch =? KEY_DOWN then
    if (category =? 0) && (selection <? 7)
    then Continue (mkEnableDialog (selection + 1) category input enable)
    else if (category =? 1) && (selection <? 6)
    then Continue (mkEnableDialog (selection + 1) category input enable)
    else Continue s
  else if (ch =? 43) || (ch =? 61) then            (* '+' '=' *)
    if (category =? 0) && (input <? 8)
    then Continue (mkEnableDialog selection category (input + 1) enable)
    else if (category =? 1) && (input <? 4)
    then Continue (mkEnableDialog selection category (input + 1) enable)
    else Continue s
  else if ch =? 45 then                            (* '-' *)
    if 1 <? input
    then Continue (mkEnableDialog selection category (input - 1) enable)
    else Continue s
  else if (ch =? 101) || (ch =? 69) then           (* 'e' 'E' *)
    Continue (mkEnableDialog selection category input true)
  else if (ch =? 100) || (ch =? 68) then           (* 'd' 'D' *)
    Continue (mkEnableDialog selection category input false)
  else if (ch =? 10) || (ch =? 32) then            (* '\n' ' ' *)
    let spn :=
      if category =? 0 then nth (Z.to_nat selection) temp_spn_vals 0
      else if category =? 1 then nth (Z.to_nat selection) pres_spn_vals 0
      else if category =? 2 then 173
      else 171 in
    Finish (Some (spn, input, enable))
  else if ch =? 27 then Finish None                (* ESC *)
  else Continue s.

Definition ui_dialog_enable_spn (keys : list Z) : option (option (Z * Z * bool)) :=
  run_dialog enable_spn_key keys (mkEnableDialog 0 0 1 true).

(** [ui_dialog_pressure_preset]: the locals [category] and [selection]
    and the out-parameter [*input]; the result is the pair of [*input]
    and [*preset]. *)
Record PresetDialog := mkPresetDialog {
  pd_category : Z;
  pd_selection : Z;
  pd_input : Z
}.

Definition pressure_preset_key (ch : Z) (s : PresetDialog)
    : Step PresetDialog (Z * Z) :=
  let category := pd_category s in
  let selection := pd_selection s in
  let input := pd_input s in
  if (ch =? KEY_LEFT) || (ch =? KEY_RIGHT) then
    Continue (mkPresetDialog (1 - category) 0 input)
  else if ch =? KEY_UP then
    if 0 <? selection then Continue (mkPresetDialog category (selection - 1) input)
    else Continue s
  else if ch =? KEY_DOWN then
    if (category =? 0) && (selection <? 12)
    then Continue (mkPresetDialog category (selection + 1) input)
    else if (category =? 1) && (selection <? 10)
    then Continue (mkPresetDialog category (selection + 1) input)
    else Continue s
  else if (ch =? 43) || (ch =? 61) then
    if input <? 4 then Continue (mkPresetDialog category selection (input + 1))
    else Continue s
  else if ch =? 45 then
    if 1 <? input then Continue (mkPresetDialog category selection (input - 1))
    else Continue s
  else if ch =? 10 then
    let preset := if category =? 0 then selection else 20 + selection in
    Finish (Some (input, preset))
  else if ch =? 27 then Finish None
  else Continue s.

Definition ui_dialog_pressure_preset (keys : list Z) : option (option (Z * Z)) :=
  run_dialog pressure_preset_key keys (mkPresetDialog 0 0 1).

(** [ui_dialog_ntc_preset]: the state is the pair of [*input] and
    [*preset]. *)
Definition ntc_preset_key (ch : Z) (s : Z * Z) : Step (Z * Z) (Z * Z) :=
  let '(input, preset) := s in
  if ch =? KEY_LEFT then
    if 0 <? preset then Continue (input, preset - 1) else Continue s
  else if ch =? KEY_RIGHT then
    if preset <? 2 then Continue (input, preset + 1) else Continue s
  else if (ch =? 43) || (ch =? 61) then
    if input <? 8 then Continue (input + 1, preset) else Continue s
  else if ch =? 45 then
    if 1 <? input then Continue (input - 1, preset) else Continue s
  else if ch =? 10 then Finish (Some (input, preset))
  else if ch =? 27 then Finish None
  else Continue s.

Definition ui_dialog_ntc_preset (keys : list Z) : option (option (Z * Z)) :=
  run_dialog ntc_preset_key keys (1, 0).

(** [ui_dialog_tc_type]: the state is [*type], K (3) to begin with. *)
Definition tc_type_key (ch : Z) (type : Z) : Step Z Z :=
  if ch =? KEY_UP then
    if 0 <? type then Continue (type - 1) else Continue type
  else if ch =? KEY_DOWN then
    if type <? 7 then Continue (type + 1) else Continue type
  else if ch =? 10 then Finish (Some type)
  else if ch =? 27 then Finish None
  else Continue type.

Definition ui_dialog_tc_type (keys : list Z) : option (option Z) :=
  run_dialog tc_type_key keys 3.

(** The values of [EPressurePreset]: 0 to 15 and 20 to 30. *)
Definition is_pressure_preset (p : Z) : Prop :=
  0 <= p <= 15 \/ 20 <= p <= 30.

(** What the steps of [ui_dialog_enable_spn] keep: the category is one
    of the four, the input is 1 to 8, and the selection indexes the
    array of its category. *)
Definition enable_dialog_ok (s : EnableDialog) : Prop :=
  0 <= ed_category s <= 3 /\
  1 <= ed_input s <= 8 /\
  0 <= ed_selection s /\
  (ed_category s = 0 -> ed_selection s <= 7) /\
  (ed_category s = 1 -> ed_selection s <= 6).

Definition preset_dialog_ok (s : PresetDialog) : Prop :=
  0 <= pd_category s <= 1 /\
  1 <= pd_input s <= 4 /\
  0 <= pd_selection s /\
  (pd_category s = 0 -> pd_selection s <= 12) /\
  (pd_category s = 1 -> pd_selection s <= 10).

(** What [ui_dialog_ntc_preset] keeps of [*input] and [*preset], and
    [ui_dialog_tc_type] of [*type]. *)
Definition ntc_dialog_ok (s : Z * Z) : Prop :=
  1 <= fst s <= 8 /\ 0 <= snd s <= 2.

Definition tc_dialog_ok (type : Z) : Prop := 0 <= type <= 7.

(** What one step of a dialog keeps: [inv] of the state it goes on
    with, [Q] of the values it returns. *)
Definition step_keeps {St R : Type} (inv : St -> Prop) (Q : R -> Prop)
    (r : Step St R) : Prop :=
  match r with
  | Continue s' => inv s'
  | Finish (Some v) => Q v
  | Finish None => True
  end.

(** The SPNs that [ui_dialog_enable_spn] can hand back. *)
Definition offered_spns : list Z := temp_spn_vals ++ pres_spn_vals ++ [173; 171].

Definition enable_result_ok (r : Z * Z * bool) : Prop :=
  let '(spn, input, _) := r in
  In spn offered_spns /\ In spn known_spn_numbers /\ 1 <= input <= 8.

Definition preset_result_ok (r : Z * Z) : Prop :=
  1 <= fst r <= 4 /\ (0 <= snd r <= 12 \/ 20 <= snd r <= 30).

(** ** The receive step of the loop of [main]

    The top of the [while (running)] loop: one [socketcan_receive], and
    [j1939_parse_message] on the frame when there was one.  The rest of
    the loop draws and handles a key; it writes none of the three
    variables below. *)

Record LoopState := mkLoopState {
  sensor_data : TSensorData;
  message_count : Z;
  connected : bool
}.

(** [sensor_data], [message_count] and [connected] before the loop. *)
Definition initial_loop_state : LoopState :=
  mkLoopState initial_sensor_data 0 false.

(** One event of the loop: the clock [j1939_parse_message] would read,
    what [read] gives, and what the local [frame] holds before the
    call. *)
Definition LoopEvent : Type := timespec * ReadOutcome * TCanFrame.

Definition main_receive (s : LoopState) (e : LoopEvent) : LoopState :=
  let '(ts, r, buffer) := e in
  let '(result, frame) := receive_into r buffer in
  if 0 <? result then
    let '(updated, data) := j1939_parse_message ts frame (sensor_data s) in
    if updated
    then mkLoopState data (message_count s + 1) true
    else mkLoopState data (message_count s) (connected s)
  else if result <? 0 then
    mkLoopState (sensor_data s) (message_count s) false
  else s.

Definition main_loop (events : list LoopEvent) : LoopState :=
  fold_left main_receive events initial_loop_state.

(** The PGN of the telemetry frame an event delivers: a frame was read,
    it is extended, from source 0x95, and its PGN is one of the
    [switch] of [j1939_parse_message]. *)
Definition telemetry (e : LoopEvent) : option Z :=
  let '(_, r, buffer) := e in
  match r with
  | ReadFrame _ =>
      let frame := snd (receive_into r buffer) in
      let pgn := j1939_get_pgn (f_id frame) in
      if f_extended frame
         && (j1939_get_source (f_id frame) =? OSSM_SOURCE_ADDRESS)
         && existsb (Z.eqb pgn) dispatched_pgns
      then Some pgn else None
  | _ => None
  end.

Definition is_telemetry (e : LoopEvent) : bool :=
  match telemetry e with
  | Some _ => true
  | None => false
  end.

(** Three passes of the loop: nothing to read, a frame of PGN 0xFEEE,
    a failed read. *)
Definition sample_events : list LoopEvent :=
  [(noon, ReadWouldBlock, frame_of PGN_ENGINE_TEMP [0; 0; 0; 0; 0; 0; 0; 0]);
   (noon, ReadFrame (to_can_frame
                       (frame_of PGN_ENGINE_TEMP
                                 [0x5A; 0x46; 0x20; 0x2E; 0; 0; 0; 0])),
    frame_of PGN_ENGINE_TEMP [0; 0; 0; 0; 0; 0; 0; 0]);
   (noon, ReadFailed, frame_of PGN_ENGINE_TEMP [0; 0; 0; 0; 0; 0; 0; 0])].

(** ** [ui_dialog_confirm] *)

(** The state is the local [selected], 0 for Yes and 1 for No; the
    dialog returns 1 ([Some tt]) or 0 ([None]). *)
Definition confirm_key (ch : Z) (selected : Z) : Step Z unit :=
  if (ch =? KEY_LEFT) || (ch =? KEY_RIGHT) || (ch =? 9) then
    Continue (1 - selected)
  else if (ch =? 10) || (ch =? 32) then
    Finish (if selected =? 0 then Some tt else None)
  else if ch =? 27 then Finish None
  else Continue selected.

Definition ui_dialog_confirm (keys : list Z) : option (option unit) :=
  run_dialog confirm_key keys 0.

Definition is_toggle (ch : Z) : bool :=
  (ch =? KEY_LEFT) || (ch =? KEY_RIGHT) || (ch =? 9).

Definition is_enter (ch : Z) : bool := (ch =? 10) || (ch =? 32).

(** Keys that leave the dialog open. *)
Definition stays_open (ch : Z) : Prop := is_enter ch = false /\ ch <> 27.

Definition toggles (keys : list Z) : nat := length (filter is_toggle keys).

(** ** [ui_dialog_spn_list] *)

(** What the dialog draws, line by line: the row and column given to
    [mvwprintw] and the text. *)
Inductive SpnLine : Type :=
| LineHeader (pressure : bool)
| LineInput (pressure : bool) (number : Z) (name : String.string) (spn : Z)
| LineNone
| LineEgt (enabled : bool)
| LineBme280 (enabled : bool)
| LinePrompt.

Definition Drawn : Type := Z * Z * SpnLine.

(** The window is [create_dialog(22, 55, ...)]. *)
Definition SPN_LIST_HEIGHT : Z := 22.

(** One of the two [for] loops over a table: the lines drawn, [line]
    and the flag [anyTemp] or [anyPres] afterwards. *)
Fixpoint list_inputs (pressure : bool) (spns : list Z) (indices : list nat)
    (line : Z) (any : bool) : list Drawn * Z * bool :=
  match indices with
  | [] => ([], line, any)
  | i :: rest =>
      let spn := nth i spns 0 in
      if negb (spn =? 0) then
        let '(drawn, line', any') :=
          list_inputs pressure spns rest (line + 1) true in
        ((line, 5, LineInput pressure (Z.of_nat i + 1) (ui_get_spn_name spn) spn)
           :: drawn, line', any')
      else list_inputs pressure spns rest line any
  end.

Definition ui_dialog_spn_list (tempSpns presSpns : list Z)
    (egtEnabled bme280Enabled : bool) : list Drawn :=
  let line := 2 in
  let header1 := [(line, 3, LineHeader false)] in
  let line := line + 1 in
  let '(temps, line, anyTemp) :=
    list_inputs false tempSpns (seq 0 8) line false in
  let '(none1, line) :=
    if negb anyTemp then ([(line, 5, LineNone)], line + 1) else ([], line) in
  let line := line + 1 in
  let header2 := [(line, 3, LineHeader true)] in
  let line := line + 1 in
  let '(press, line, anyPres) :=
    list_inputs true presSpns (seq 0 7) line false in
  let '(none2, line) :=
    if negb anyPres then ([(line, 5, LineNone)], line + 1) else ([], line) in
  let line := line + 1 in
  let egt := [(line, 3, LineEgt egtEnabled)] in
  let line := line + 1 in
  let bme := [(line, 3, LineBme280 bme280Enabled)] in
  header1 ++ temps ++ none1 ++ header2 ++ press ++ none2 ++ egt ++ bme
    ++ [(20, 20, LinePrompt)].

(** The lines a table takes: one for each slot that is not 0, or the
    one "(none)". *)
Definition assigned (spns : list Z) : Z :=
  Z.of_nat (length (filter (fun spn => negb (spn =? 0)) spns)).

Definition lines_of (spns : list Z) : Z :=
  if assigned spns =? 0 then 1 else assigned spns.

(** The row of the last line of the list, the one of the BME280. *)
Definition last_row (tempSpns presSpns : list Z) : Z :=
  7 + lines_of tempSpns + lines_of presSpns.
(** * Properties *)

(** ** Arithmetic reading of the bit operations *)

Lemma land_mask (x n : Z) : 0 <= n -> Z.land x (Z.ones n) = x mod 2 ^ n.
Proof. intro Hn. apply Z.land_ones; exact Hn. Qed.

Lemma land_FF (x : Z) : Z.land x 0xFF = x mod 256.
Proof. change 0xFF with (Z.ones 8). rewrite land_mask by lia. reflexivity. Qed.

Lemma land_07 (x : Z) : Z.land x 0x07 = x mod 8.
Proof. change 0x07 with (Z.ones 3). rewrite land_mask by lia. reflexivity. Qed.

Lemma land_3FFFF (x : Z) : Z.land x 0x3FFFF = x mod 262144.
Proof. change 0x3FFFF with (Z.ones 18). rewrite land_mask by lia. reflexivity. Qed.

Lemma lor_shiftl_add (hi lo k : Z) :
  0 <= k -> 0 <= lo < 2 ^ k -> Z.lor (Z.shiftl hi k) lo = hi * 2 ^ k + lo.
Proof.
  intros Hk Hlo.
  assert (Hdisj : Z.land (Z.shiftl hi k) lo = 0).
  { apply Z.bits_inj'. intros n Hn.
    rewrite Z.land_spec, Z.bits_0, Z.shiftl_spec by exact Hn.
    destruct (Z_lt_le_dec n k) as [Hlt | Hge].
    - rewrite (Z.testbit_neg_r hi) by lia. reflexivity.
    - rewrite <- (Z.mod_small lo (2 ^ k)) by exact Hlo.
      rewrite Z.mod_pow2_bits_high by lia.
      apply andb_false_r. }
  rewrite <- Z.lxor_lor by exact Hdisj.
  rewrite <- Z.add_nocarry_lxor by exact Hdisj.
  rewrite Z.shiftl_mul_pow2 by exact Hk. reflexivity.
Qed.

Lemma u8_small (x : Z) : 0 <= x < 256 -> u8 x = x.
Proof. intro H. unfold u8, wrap. apply Z.mod_small. exact H. Qed.

Lemma u16_small (x : Z) : 0 <= x < 65536 -> u16 x = x.
Proof. intro H. unfold u16, wrap. apply Z.mod_small. exact H. Qed.

Lemma u32_small (x : Z) : 0 <= x < 4294967296 -> u32 x = x.
Proof. intro H. unfold u32, wrap. apply Z.mod_small. exact H. Qed.

Lemma u8_range (x : Z) : 0 <= u8 x < 256.
Proof. unfold u8, wrap. apply Z.mod_pos_bound. reflexivity. Qed.

Lemma pdu_format_eq (id : Z) : pdu_format id = (id / 65536) mod 256.
Proof.
  unfold pdu_format. rewrite land_FF, Z.shiftr_div_pow2 by lia. reflexivity.
Qed.

Lemma pdu_specific_eq (id : Z) : pdu_specific id = (id / 256) mod 256.
Proof.
  unfold pdu_specific. rewrite land_FF, Z.shiftr_div_pow2 by lia. reflexivity.
Qed.

Lemma pdu_format_range (id : Z) : 0 <= pdu_format id < 256.
Proof. rewrite pdu_format_eq. apply Z.mod_pos_bound. reflexivity. Qed.

Lemma pdu_specific_range (id : Z) : 0 <= pdu_specific id < 256.
Proof. rewrite pdu_specific_eq. apply Z.mod_pos_bound. reflexivity. Qed.

(** [j1939_get_pgn] as PF * 256 (+ PS), the reading of the comments of
    the source. *)
Lemma j1939_get_pgn_eq (id : Z) :
  j1939_get_pgn id =
  if pdu_format id <? 240 then pdu_format id * 256
  else pdu_format id * 256 + pdu_specific id.
Proof.
  unfold j1939_get_pgn. fold (pdu_format id). fold (pdu_specific id).
  pose proof (pdu_format_range id) as Hpf.
  pose proof (pdu_specific_range id) as Hps.
  rewrite !u8_small by assumption.
  destruct (pdu_format id <? 240).
  - rewrite Z.shiftl_mul_pow2 by lia. apply u32_small.
    change (2 ^ 8) with 256. lia.
  - rewrite lor_shiftl_add by (change (2 ^ 8) with 256; lia).
    apply u32_small. change (2 ^ 8) with 256. lia.
Qed.

Lemma j1939_get_source_eq (id : Z) : j1939_get_source id = id mod 256.
Proof.
  unfold j1939_get_source. rewrite land_FF. apply u8_small.
  apply Z.mod_pos_bound. reflexivity.
Qed.

Lemma j1939_build_id_eq (pgn priority source : Z) :
  0 <= source < 256 ->
  j1939_build_id pgn priority source =
  (priority mod 8) * 67108864 + (pgn mod 262144) * 256 + source.
Proof.
  intro Hs. unfold j1939_build_id.
  rewrite land_07, land_3FFFF.
  pose proof (Z.mod_pos_bound priority 8 eq_refl) as Hp.
  pose proof (Z.mod_pos_bound pgn 262144 eq_refl) as Hg.
  rewrite (u32_small (priority mod 8)) by lia.
  rewrite (Z.shiftl_mul_pow2 (pgn mod 262144)) by lia.
  change (2 ^ 8) with 256.
  rewrite (u32_small (pgn mod 262144 * 256)) by lia.
  rewrite (u32_small (Z.shiftl (priority mod 8) 26))
    by (rewrite Z.shiftl_mul_pow2 by lia; change (2 ^ 26) with 67108864; lia).
  rewrite lor_shiftl_add by (change (2 ^ 26) with 67108864; lia).
  change (2 ^ 26) with 67108864.
  assert (Hsh : priority mod 8 * 67108864 + pgn mod 262144 * 256 =
                Z.shiftl (priority mod 8 * 262144 + pgn mod 262144) 8)
    by (rewrite Z.shiftl_mul_pow2 by lia; change (2 ^ 8) with 256; lia).
  rewrite Hsh at 1.
  rewrite lor_shiftl_add by (change (2 ^ 8) with 256; lia).
  change (2 ^ 8) with 256.
  rewrite u32_small by lia. lia.
Qed.

Lemma j1939_get_pgn_range (id : Z) : 0 <= j1939_get_pgn id < 65536.
Proof.
  rewrite j1939_get_pgn_eq.
  pose proof (pdu_format_range id). pose proof (pdu_specific_range id).
  destruct (pdu_format id <? 240); lia.
Qed.

Lemma j1939_get_source_range (id : Z) : 0 <= j1939_get_source id < 256.
Proof. rewrite j1939_get_source_eq. apply Z.mod_pos_bound. reflexivity. Qed.

(** The three fields of a rebuilt identifier. *)
Lemma pdu_format_build_id (pgn priority source : Z) :
  0 <= source < 256 ->
  pdu_format (j1939_build_id pgn priority source) = (pgn / 256) mod 256.
Proof.
  intro Hs. rewrite pdu_format_eq, j1939_build_id_eq by exact Hs.
  pose proof (Z.mod_pos_bound priority 8 eq_refl) as Hp.
  generalize dependent (priority mod 8). intros a Ha.
  Z.div_mod_to_equations. lia.
Qed.

Lemma pdu_specific_build_id (pgn priority source : Z) :
  0 <= source < 256 ->
  pdu_specific (j1939_build_id pgn priority source) = pgn mod 256.
Proof.
  intro Hs. rewrite pdu_specific_eq, j1939_build_id_eq by exact Hs.
  pose proof (Z.mod_pos_bound priority 8 eq_refl) as Hp.
  generalize dependent (priority mod 8). intros a Ha.
  Z.div_mod_to_equations. lia.
Qed.

Lemma j1939_get_source_build_id (pgn priority source : Z) :
  0 <= source < 256 ->
  j1939_get_source (j1939_build_id pgn priority source) = source.
Proof.
  intro Hs. rewrite j1939_get_source_eq, j1939_build_id_eq by exact Hs.
  Z.div_mod_to_equations. lia.
Qed.

Lemma id_priority_build_id (pgn priority source : Z) :
  0 <= source < 256 ->
  id_priority (j1939_build_id pgn priority source) = priority mod 8.
Proof.
  intro Hs. unfold id_priority.
  rewrite land_07, Z.shiftr_div_pow2, j1939_build_id_eq by (exact Hs || lia).
  change (2 ^ 26) with 67108864.
  pose proof (Z.mod_pos_bound priority 8 eq_refl) as Hp.
  generalize dependent (priority mod 8). intros a Ha.
  Z.div_mod_to_equations. lia.
Qed.

(** Extracting the PGN of an identifier built from a PGN that
    [j1939_get_pgn] can return gives that PGN back. *)
Lemma j1939_get_pgn_build_id (id priority source : Z) :
  0 <= source < 256 ->
  j1939_get_pgn
    (j1939_build_id (Z.land (j1939_get_pgn id) 0x3FFFF) priority source)
  = j1939_get_pgn id.
Proof.
  intro Hs.
  pose proof (j1939_get_pgn_range id) as Hr.
  rewrite land_3FFFF, (Z.mod_small (j1939_get_pgn id)) by lia.
  rewrite (j1939_get_pgn_eq (j1939_build_id _ _ _)).
  rewrite pdu_format_build_id, pdu_specific_build_id by exact Hs.
  rewrite (j1939_get_pgn_eq id).
  pose proof (pdu_format_range id) as Hpf.
  pose proof (pdu_specific_range id) as Hps.
  destruct (Z.ltb_spec (pdu_format id) 240) as [Hlt | Hge].
  - replace ((pdu_format id * 256 / 256) mod 256) with (pdu_format id)
      by (Z.div_mod_to_equations; lia).
    destruct (Z.ltb_spec (pdu_format id) 240); lia.
  - replace (((pdu_format id * 256 + pdu_specific id) / 256) mod 256)
      with (pdu_format id) by (Z.div_mod_to_equations; lia).
    replace ((pdu_format id * 256 + pdu_specific id) mod 256)
      with (pdu_specific id) by (Z.div_mod_to_equations; lia).
    destruct (Z.ltb_spec (pdu_format id) 240); lia.
Qed.

(** C1. For every 29-bit identifier [id] and every 3-bit priority, the
    identifier rebuilt by [j1939_build_id] from the PGN of [id] (masked
    to 18 bits), the priority and the source of [id] has the same PGN and
    the same source as [id]; its priority field is the priority given. *)
Theorem build_id_round_trip (id priority : Z) :
  0 <= id < 2 ^ 29 ->
  0 <= priority < 8 ->
  let rebuilt :=
    j1939_build_id (Z.land (j1939_get_pgn id) 0x3FFFF) priority
                   (j1939_get_source id) in
  j1939_get_pgn rebuilt = j1939_get_pgn id /\
  j1939_get_source rebuilt = j1939_get_source id /\
  id_priority rebuilt = priority.
Proof.
  intros _ Hprio rebuilt. subst rebuilt.
  pose proof (j1939_get_source_range id) as Hs.
  split; [| split].
  - apply j1939_get_pgn_build_id. exact Hs.
  - apply j1939_get_source_build_id. exact Hs.
  - rewrite id_priority_build_id by exact Hs. apply Z.mod_small. exact Hprio.
Qed.

Lemma build_id_round_trip_witness :
  let id := 0x18FEF695 in
  let rebuilt :=
    j1939_build_id (Z.land (j1939_get_pgn id) 0x3FFFF) 3 (j1939_get_source id) in
  j1939_get_pgn rebuilt = j1939_get_pgn id /\
  j1939_get_source rebuilt = j1939_get_source id /\
  id_priority rebuilt = 3.
Proof.
  apply (build_id_round_trip 0x18FEF695 3); lia.
Defined.

(** C7. For every 29-bit identifier, a PDU-Format byte below 240 gives a
    PGN whose low 8 bits are zero, and a PDU-Format byte of 240 or more
    gives a PGN whose low 8 bits are the PDU-Specific byte. *)
Theorem get_pgn_low_byte (id : Z) :
  0 <= id < 2 ^ 29 ->
  (pdu_format id < 240 -> Z.land (j1939_get_pgn id) 0xFF = 0) /\
  (240 <= pdu_format id ->
   Z.land (j1939_get_pgn id) 0xFF = pdu_specific id).
Proof.
  intros _.
  pose proof (pdu_format_range id) as Hpf.
  pose proof (pdu_specific_range id) as Hps.
  rewrite land_FF, j1939_get_pgn_eq.
  split; intro H.
  - destruct (Z.ltb_spec (pdu_format id) 240); [| lia].
    Z.div_mod_to_equations. lia.
  - destruct (Z.ltb_spec (pdu_format id) 240); [lia |].
    Z.div_mod_to_equations. lia.
Qed.

Lemma get_pgn_low_byte_witness :
  Z.land (j1939_get_pgn 0x18EF1295) 0xFF = 0 /\
  Z.land (j1939_get_pgn 0x18FEF695) 0xFF = 0xF6.
Proof.
  split.
  - apply (proj1 (get_pgn_low_byte 0x18EF1295 ltac:(lia))).
    vm_compute. reflexivity.
  - apply (proj2 (get_pgn_low_byte 0x18FEF695 ltac:(lia))).
    vm_compute. discriminate.
Defined.

(** ** Telemetry decoder *)

(** The binary32 values behind the literals. *)
Example NOT_AVAILABLE_bits : NOT_AVAILABLE = S754_finite true 16367616 (-14).
Proof. reflexivity. Qed.

Example f32_2_bits : f32_2 = S754_finite false 8388608 (-22).
Proof. reflexivity. Qed.

Example f32_0_4_nearest : f32_div (f32_of_Z 2) (f32_of_Z 5) = f32_0_4.
Proof. reflexivity. Qed.

Example sixteen_eighths : f32_mul (f32_of_Z 0x0010) f32_0_125 = f32_2.
Proof. reflexivity. Qed.

(** Each decoder answers [NOT_AVAILABLE] on the all-ones raw value. *)
Lemma decoders_on_FF :
  decode_temp_byte 0xFF = NOT_AVAILABLE /\
  decode_temp_16bit_le 0xFF 0xFF = NOT_AVAILABLE /\
  decode_pressure_2kpa 0xFF = NOT_AVAILABLE /\
  decode_pressure_4kpa 0xFF = NOT_AVAILABLE /\
  decode_baro_pressure 0xFF = NOT_AVAILABLE /\
  decode_humidity 0xFF = NOT_AVAILABLE.
Proof. repeat split. Qed.

Ltac enter_switch Hext Hsrc Hpgn :=
  unfold j1939_parse_message;
  rewrite Hext, Hsrc, Hpgn;
  change (negb true) with false; cbv iota;
  change (negb (OSSM_SOURCE_ADDRESS =? OSSM_SOURCE_ADDRESS)) with false;
  cbv iota.

(** Closes [~ In x l] for a computed [x] and a list of literals. *)
Ltac not_in_literals :=
  let H := fresh "H" in
  vm_compute; intro H;
  repeat (destruct H as [H | H]; [discriminate H |]); exact H.

Ltac each_field :=
  let fld := fresh "fld" in
  let Hin := fresh "Hin" in
  intros fld Hin; simpl in Hin;
  repeat (destruct Hin as [Hin | Hin]; [subst fld; try reflexivity |]);
  try contradiction.

Lemma not_in_dispatched (pgn : Z) :
  ~ In pgn dispatched_pgns ->
  (pgn =? PGN_AMBIENT_CONDITIONS) = false /\
  (pgn =? PGN_INLET_EXHAUST) = false /\
  (pgn =? PGN_ENGINE_TEMP) = false /\
  (pgn =? PGN_ENGINE_FLUID_PRESS) = false /\
  (pgn =? PGN_ENGINE_TEMP_2) = false /\
  (pgn =? PGN_ENGINE_TEMP_3) = false /\
  (pgn =? PGN_TURBO_PRESS) = false /\
  (pgn =? 65164) = false.
Proof.
  intro Hnot.
  repeat split; apply Z.eqb_neq; intro Heq; apply Hnot; subst pgn;
    unfold dispatched_pgns, named_data_pgns, PGN_SUPPLY_PRESSURE;
    simpl; tauto.
Qed.

(** C8, counterexample. PGN 65164 is not one of the seven PGNs that
    [types.h] names, yet an extended frame from 0x95 that carries it is
    decoded: the statement with the seven named PGNs does not hold. *)
Lemma parse_rejects_unnamed_counterexample :
  ~ (forall (ts : timespec) (frame : TCanFrame) (data : TSensorData),
        f_extended frame = false \/
        j1939_get_source (f_id frame) <> OSSM_SOURCE_ADDRESS \/
        ~ In (j1939_get_pgn (f_id frame)) named_data_pgns ->
        j1939_parse_message ts frame data = (false, data)).
Proof.
  intro H.
  specialize (H noon (frame_of 65164 [0x50; 0; 0; 0; 0; 0; 0x7D; 0])
                initial_sensor_data).
  assert (Hpre : ~ In (j1939_get_pgn
                         (f_id (frame_of 65164 [0x50; 0; 0; 0; 0; 0; 0x7D; 0])))
                      named_data_pgns).
  { not_in_literals. }
  specialize (H (or_intror (or_intror Hpre))).
  vm_compute in H. discriminate H.
Qed.

(** What the decoder does with that frame. *)
Example parse_supply_pressure :
  let r := j1939_parse_message noon
             (frame_of 65164 [0x50; 0; 0; 0; 0; 0; 0x7D; 0])
             initial_sensor_data in
  fst r = true /\
  engineBayTemperatureC (snd r) = f32_of_Z 40 /\
  lastUpdateMs (snd r) = 43200250.
Proof. vm_compute. repeat split. Qed.

(** C8, amended. A frame that is not extended, or whose source is not
    0x95, or whose PGN is none of the eight [case] labels (the seven
    named PGNs and 65164), makes [j1939_parse_message] return false and
    leaves the snapshot as it was, [lastUpdateMs] included. *)
Theorem parse_rejects (ts : timespec) (frame : TCanFrame) (data : TSensorData) :
  f_extended frame = false \/
  j1939_get_source (f_id frame) <> OSSM_SOURCE_ADDRESS \/
  ~ In (j1939_get_pgn (f_id frame)) dispatched_pgns ->
  j1939_parse_message ts frame data = (false, data).
Proof.
  intros [Hext | [Hsrc | Hpgn]]; unfold j1939_parse_message.
  - rewrite Hext. reflexivity.
  - destruct (f_extended frame); [| reflexivity].
    apply Z.eqb_neq in Hsrc. rewrite Hsrc. reflexivity.
  - destruct (f_extended frame); [| reflexivity].
    destruct (j1939_get_source (f_id frame) =? OSSM_SOURCE_ADDRESS);
      [| reflexivity].
    destruct (not_in_dispatched _ Hpgn)
      as (H1 & H2 & H3 & H4 & H5 & H6 & H7 & H8).
    cbv zeta. rewrite H1, H2, H3, H4, H5, H6, H7, H8. reflexivity.
Qed.

Lemma parse_rejects_witness :
  j1939_parse_message noon (mkCanFrame 0x18FEF695 8 all_FF false) snapshot_5kPa
    = (false, snapshot_5kPa) /\
  j1939_parse_message noon (mkCanFrame 0x18FEF694 8 all_FF true) snapshot_5kPa
    = (false, snapshot_5kPa) /\
  j1939_parse_message noon (frame_of 0xFF01 all_FF) snapshot_5kPa
    = (false, snapshot_5kPa).
Proof.
  split; [| split].
  - apply parse_rejects. left. reflexivity.
  - apply parse_rejects. right. left. vm_compute. discriminate.
  - apply parse_rejects. right. right. not_in_literals.
Defined.

(** The snapshot [snapshot_5kPa] is one the decoder produces: it is the
    startup snapshot after a frame on PGN 0xFE96 with bytes 0x28 0x00 in
    the first pair and 0xFF 0xFF in the second (the timestamp apart). *)
Example snapshot_5kPa_reachable :
  set_lastUpdateMs 0 first_channel_5kPa = snapshot_5kPa.
Proof. vm_compute. reflexivity. Qed.

(** What every case of the [switch] other than PGN 0xFE96 does with a
    payload of eight 0xFF bytes: the frame counts as an update and each
    reading of its PGN is assigned [-999.0], whatever it was before; no
    other reading changes. *)
Lemma all_FF_sentinels_elsewhere (ts : timespec) (frame : TCanFrame)
    (data : TSensorData) :
  from_module frame ->
  In (j1939_get_pgn (f_id frame)) dispatched_pgns ->
  j1939_get_pgn (f_id frame) <> PGN_TURBO_PRESS ->
  f_data frame = all_FF ->
  let pgn := j1939_get_pgn (f_id frame) in
  let after := snd (j1939_parse_message ts frame data) in
  fst (j1939_parse_message ts frame data) = true /\
  lastUpdateMs after = get_time_ms ts /\
  (forall fld, In fld (fields_of_pgn pgn) -> reading fld after = NOT_AVAILABLE) /\
  (forall fld, ~ In fld (fields_of_pgn pgn) ->
     reading fld after = reading fld data).
Proof.
  intros [Hext Hsrc] Hpgn Hne Hdata pgn after. subst pgn after.
  unfold dispatched_pgns, named_data_pgns in Hpgn. simpl in Hpgn.
  destruct Hpgn as [Hp | [Hp | [Hp | [Hp | [Hp | [Hp | [Hp | [Hp | []]]]]]]]];
    symmetry in Hp; try contradiction;
    enter_switch Hext Hsrc Hp; rewrite Hdata;
    (split; [reflexivity |]); (split; [reflexivity |]);
    (split; [each_field |]);
    intros fld Hnot; destruct fld; try reflexivity;
    exfalso; apply Hnot; simpl; tauto.
Qed.

(** C2, at the failing input. The snapshot holds 5.0 kPa on the first
    channel of PGN 0xFE96, decoded from an earlier frame; ten minutes
    later a frame of that PGN arrives whose payload is eight 0xFF bytes.
    The decoder reports an update and refreshes [lastUpdateMs], but it
    does not set [cacInletPressurekPa] to [-999.0]: the case tests each
    byte pair for the marker and has no [else], so the 5.0 of the
    earlier frame stays and [print_value] shows it as a fresh value. *)
Theorem turbo_press_all_FF_keeps_stale :
  let r := j1939_parse_message ten_past_noon (frame_of PGN_TURBO_PRESS all_FF)
             first_channel_5kPa in
  fst r = true /\
  lastUpdateMs (snd r) = 43800000 /\
  cacInletPressurekPa (snd r) = f32_of_Z 5 /\
  cacInletPressurekPa (snd r) <> NOT_AVAILABLE /\
  print_value (cacInletPressurekPa (snd r)) (sensors_stale ten_past_noon (snd r))
    = CellValue COLOR_DATA (f32_of_Z 5).
Proof.
  vm_compute.
  split; [reflexivity |]. split; [reflexivity |]. split; [reflexivity |].
  split; [discriminate | reflexivity].
Qed.

(** On PGN 0xFE96 (extended frame, source 0x95) with payload bytes
    0xFF 0xFF 0x10 0x00 in front, the two byte pairs are tested one by
    one: the first reading is not assigned, the second becomes
    0x0010 * 0.125 = 2.0, and the frame counts as an update. *)
Lemma turbo_press_second_pair (ts : timespec) (frame : TCanFrame)
    (data : TSensorData) :
  from_module frame ->
  j1939_get_pgn (f_id frame) = 0xFE96 ->
  nth 0 (f_data frame) 0 = 0xFF ->
  nth 1 (f_data frame) 0 = 0xFF ->
  nth 2 (f_data frame) 0 = 0x10 ->
  nth 3 (f_data frame) 0 = 0x00 ->
  let after := snd (j1939_parse_message ts frame data) in
  fst (j1939_parse_message ts frame data) = true /\
  cacInletPressurekPa after = cacInletPressurekPa data /\
  transferPipePressurekPa after = f32_2 /\
  lastUpdateMs after = get_time_ms ts.
Proof.
  intros [Hext Hsrc] Hpgn H0 H1 H2 H3 after. subst after.
  enter_switch Hext Hsrc Hpgn.
  change (0xFE96 =? PGN_AMBIENT_CONDITIONS) with false.
  change (0xFE96 =? PGN_INLET_EXHAUST) with false.
  change (0xFE96 =? PGN_ENGINE_TEMP) with false.
  change (0xFE96 =? PGN_ENGINE_FLUID_PRESS) with false.
  change (0xFE96 =? PGN_ENGINE_TEMP_2) with false.
  change (0xFE96 =? PGN_ENGINE_TEMP_3) with false.
  change (0xFE96 =? PGN_TURBO_PRESS) with true.
  cbv iota. rewrite H0, H1, H2, H3.
  repeat split; reflexivity.
Qed.

(** C9, at the failing input. The snapshot holds 5.0 kPa on the first
    channel, decoded from an earlier frame; a frame of PGN 0xFE96 with
    payload 0xFF 0xFF 0x10 0x00 in front then sets the second channel to
    2.0, but the first channel is not put at [-999.0]: it keeps the 5.0
    of the earlier frame, and [print_value] shows it as a fresh
    value. *)
Theorem turbo_press_marker_keeps_stale :
  let r := j1939_parse_message ten_past_noon
             (frame_of 0xFE96 [0xFF; 0xFF; 0x10; 0x00; 0xFF; 0xFF; 0xFF; 0xFF])
             first_channel_5kPa in
  fst r = true /\
  transferPipePressurekPa (snd r) = f32_2 /\
  cacInletPressurekPa (snd r) = f32_of_Z 5 /\
  cacInletPressurekPa (snd r) <> NOT_AVAILABLE /\
  print_value (cacInletPressurekPa (snd r)) (sensors_stale ten_past_noon (snd r))
    = CellValue COLOR_DATA (f32_of_Z 5).
Proof.
  vm_compute.
  split; [reflexivity |]. split; [reflexivity |]. split; [reflexivity |].
  split; [discriminate | reflexivity].
Qed.
(** ** Command/response engine *)

Lemma poll_loop_step env expected rd rl frame elapsed w :
  poll_loop env expected rd rl frame elapsed w =
  if elapsed <? timeout_ms then
    match poll_once env expected rd rl frame w with
    | (inl reply, w') => (reply, w')
    | (inr frame', w') => poll_loop env expected rd rl frame' (elapsed + 5) w'
    end
  else ((-1, rd, rl), w).
Proof.
  rewrite poll_loop_equation_1.
  destruct (Z_lt_dec elapsed timeout_ms) as [Hlt | Hge]; simpl.
  - destruct (Z.ltb_spec elapsed timeout_ms); [| lia].
    destruct (poll_once env expected rd rl frame w) as [[reply | frame'] w'];
      reflexivity.
  - destruct (Z.ltb_spec elapsed timeout_ms); [lia |]. reflexivity.
Qed.

Lemma acceptedb_spec expected p :
  acceptedb expected p = true <-> accepted expected p.
Proof.
  unfold acceptedb, accepted.
  rewrite !andb_true_iff, Z.ltb_lt, !Z.eqb_eq. tauto.
Qed.

Lemma acceptedb_false expected p :
  acceptedb expected p = false <-> ~ accepted expected p.
Proof.
  rewrite <- acceptedb_spec. destruct (acceptedb expected p); split;
    intro H; try reflexivity; try discriminate; try (exfalso; apply H; reflexivity).
Qed.

(** One turn of the loop on a poll that passes the test, and on one that
    does not. *)
Lemma poll_once_accept env expected rd rl frame w :
  acceptedb expected (receive_into (read_outcome env (reads w)) frame) = true ->
  poll_once env expected rd rl frame w =
  (inl (reply_of rd rl (snd (receive_into (read_outcome env (reads w)) frame))),
   mkWorld (written w) (S (reads w)) (slept_us w)).
Proof.
  intro Hacc. unfold poll_once, socketcan_receive, bind, sys_read, ret.
  destruct (receive_into (read_outcome env (reads w)) frame) as [result f'].
  unfold acceptedb in Hacc. simpl fst in Hacc. simpl snd in Hacc.
  apply andb_true_iff in Hacc. destruct Hacc as [Hacc H4].
  apply andb_true_iff in Hacc. destruct Hacc as [Hacc H3].
  apply andb_true_iff in Hacc. destruct Hacc as [H1 H2].
  change PGN_OSSM_RESPONSE with 0xFF01.
  change OSSM_SOURCE_ADDRESS with 0x95.
  cbv zeta. rewrite H1, H2, H3, H4. cbn [andb].
  unfold reply_of. cbn [snd].
  destruct rd as [buf |]; [destruct rl as [len |] |]; reflexivity.
Qed.

Lemma poll_once_reject env expected rd rl frame w :
  acceptedb expected (receive_into (read_outcome env (reads w)) frame) = false ->
  poll_once env expected rd rl frame w =
  (inr (snd (receive_into (read_outcome env (reads w)) frame)),
   mkWorld (written w) (S (reads w)) (slept_us w + 5000)).
Proof.
  intro Hrej. unfold poll_once, socketcan_receive, bind, sys_read, ret.
  destruct (receive_into (read_outcome env (reads w)) frame) as [result f'].
  unfold acceptedb in Hrej. simpl fst in Hrej. simpl snd in Hrej.
  change PGN_OSSM_RESPONSE with 0xFF01.
  change OSSM_SOURCE_ADDRESS with 0x95.
  cbv zeta.
  destruct (0 <? result); [| reflexivity].
  destruct (j1939_get_pgn (f_id f') =? 0xFF01); [| reflexivity].
  destruct (j1939_get_source (f_id f') =? 0x95); [| reflexivity].
  cbn [andb] in Hrej |- *. rewrite Hrej. reflexivity.
Qed.

(** [first_match] finds the least accepted index of its range. *)
Lemma first_match_Some test : forall count from k,
  first_match test from count = Some k ->
  (from <= k < from + count)%nat /\ test k = true /\
  forall j, (from <= j < k)%nat -> test j = false.
Proof.
  induction count as [| c IH]; intros from k H; simpl in H.
  - discriminate H.
  - destruct (test from) eqn:Ht.
    + injection H as <-. repeat split; try lia; try exact Ht.
    + apply IH in H. destruct H as (Hr & Hk & Hbefore).
      repeat split; try lia; try exact Hk.
      intros j Hj. destruct (Nat.eq_dec j from) as [-> | Hne];
        [exact Ht | apply Hbefore; lia].
Qed.

Lemma first_match_None test : forall count from,
  first_match test from count = None ->
  forall j, (from <= j < from + count)%nat -> test j = false.
Proof.
  induction count as [| c IH]; intros from H j Hj; simpl in H.
  - lia.
  - destruct (test from) eqn:Ht; [discriminate H |].
    destruct (Nat.eq_dec j from) as [-> | Hne];
      [exact Ht | apply (IH (S from) H); lia].
Qed.

Lemma first_match_found test : forall count from k,
  (from <= k < from + count)%nat ->
  test k = true ->
  (forall j, (from <= j < k)%nat -> test j = false) ->
  first_match test from count = Some k.
Proof.
  induction count as [| c IH]; intros from k Hr Hk Hbefore; simpl.
  - lia.
  - destruct (Nat.eq_dec k from) as [-> | Hne].
    + rewrite Hk. reflexivity.
    + rewrite (Hbefore from) by lia. apply IH; try lia; try exact Hk.
      intros j Hj. apply Hbefore. lia.
Qed.

Lemma first_match_absent test : forall count from,
  (forall j, (from <= j < from + count)%nat -> test j = false) ->
  first_match test from count = None.
Proof.
  induction count as [| c IH]; intros from H; simpl.
  - reflexivity.
  - rewrite (H from) by lia. apply IH. intros j Hj. apply H. lia.
Qed.

Lemma world_eq wr r r' s s' :
  r = r' -> s = s' -> mkWorld wr r s = mkWorld wr r' s'.
Proof. intros -> ->. reflexivity. Qed.

Ltac same_world :=
  cbn [written reads slept_us]; f_equal; apply world_eq; lia.

(** The loop, from poll [i] on: it returns at the first accepted poll, or
    gives up when the [MAX_POLLS] polls are used up. *)
Lemma poll_loop_spec env expected rd rl start : forall count i w,
  (i + count)%nat = MAX_POLLS ->
  reads w = (start + i)%nat ->
  poll_loop env expected rd rl (frame_before env start i)
            (5 * Z.of_nat i) w =
  match first_match (fun k => acceptedb expected (poll env start k)) i count with
  | Some k =>
      (reply_of rd rl (snd (poll env start k)),
       mkWorld (written w) (S (start + k))
               (slept_us w + 5000 * (Z.of_nat k - Z.of_nat i)))
  | None =>
      ((-1, rd, rl),
       mkWorld (written w) (start + MAX_POLLS)
               (slept_us w + 5000 * Z.of_nat count))
  end.
Proof.
  unfold MAX_POLLS.
  induction count as [| c IH]; intros i w Hsum Hreads;
    rewrite poll_loop_step; unfold timeout_ms.
  - destruct (Z.ltb_spec (5 * Z.of_nat i) 1000) as [Hlt | _]; [lia |].
    cbn [first_match]. destruct w as [wr rd_n sl].
    cbn [reads] in Hreads. same_world.
  - destruct (Z.ltb_spec (5 * Z.of_nat i) 1000) as [_ | Hge]; [| lia].
    cbn [first_match]. unfold poll at 1. rewrite <- Hreads.
    destruct (acceptedb expected
                (receive_into (read_outcome env (reads w))
                              (frame_before env start i))) eqn:Hacc.
    + rewrite poll_once_accept by exact Hacc.
      unfold poll. rewrite <- Hreads. same_world.
    + rewrite poll_once_reject by exact Hacc.
      replace (5 * Z.of_nat i + 5) with (5 * Z.of_nat (S i)) by lia.
      replace (snd (receive_into (read_outcome env (reads w))
                                 (frame_before env start i)))
        with (frame_before env start (S i))
        by (cbn [frame_before]; rewrite Hreads; reflexivity).
      rewrite IH by (cbn [reads]; lia).
      destruct (first_match _ (S i) c) as [k |]; same_world.
Qed.

(** [j1939_check_response] as a function of the polls of its window. *)
Lemma check_response_spec env expected rd rl w :
  j1939_check_response env expected rd rl w =
  match first_match (fun k => acceptedb expected (poll env (reads w) k))
                    0 MAX_POLLS with
  | Some k =>
      (reply_of rd rl (snd (poll env (reads w) k)),
       mkWorld (written w) (S (reads w + k))
               (slept_us w + 50000 + 5000 * Z.of_nat k))
  | None =>
      ((-1, rd, rl),
       mkWorld (written w) (reads w + MAX_POLLS) (slept_us w + 1050000))
  end.
Proof.
  unfold j1939_check_response, usleep.
  change 0 with (5 * Z.of_nat 0) at 1.
  change (stack_frame env (reads w)) with (frame_before env (reads w) 0).
  rewrite (poll_loop_spec env expected rd rl (reads w) MAX_POLLS 0)
    by (cbn [reads]; unfold MAX_POLLS; lia).
  destruct (first_match _ 0 MAX_POLLS) as [k |];
    unfold MAX_POLLS; same_world.
Qed.

Lemma check_response_written env expected rd rl w :
  written (snd (j1939_check_response env expected rd rl w)) = written w.
Proof.
  rewrite check_response_spec.
  destruct (first_match _ 0 MAX_POLLS); reflexivity.
Qed.

Lemma reply_of_code rd rl frame :
  fst (fst (reply_of rd rl frame)) = u8 (nth 1 (f_data frame) 0).
Proof.
  unfold reply_of. destruct rd; [destruct rl |]; reflexivity.
Qed.

Lemma memcpy_whole (buf src : list Z) (n : nat) :
  length buf = n -> length src = n -> memcpy buf 0 src n = src.
Proof.
  intros Hb Hs. unfold memcpy. cbn [firstn Nat.add app].
  rewrite <- Hs at 1. rewrite firstn_all.
  rewrite skipn_all2 by lia. apply app_nil_r.
Qed.

Lemma six_bytes_from_2 (data : list Z) :
  length data = 8%nat ->
  skipn 2 data =
  [nth 2 data 0; nth 3 data 0; nth 4 data 0; nth 5 data 0; nth 6 data 0;
   nth 7 data 0].
Proof.
  intro Hlen.
  destruct data as [| d0 [| d1 [| d2 [| d3 [| d4 [| d5 [| d6 [| d7 [| d8 rest]]]]]]]]];
    try discriminate Hlen.
  reflexivity.
Qed.

(** C4. In [j1939_check_response] a poll ends the wait only if it
    delivered a frame whose PGN is 0xFF01, whose source is 0x95 and whose
    first payload byte is [expected_cmd]; polls that fail one of the
    tests are passed over and polling goes on.  At the first poll [k]
    that passes, the function returns payload byte 1 and leaves payload
    bytes 2 to 7 in the caller's six-byte block (and 6 in the length).
    Conversely a returned code other than -1 comes from such a poll. *)
Theorem check_response_first_match env expected w :
  (forall k buf len,
      (k < MAX_POLLS)%nat ->
      (forall j, (j < k)%nat -> ~ accepted expected (poll env (reads w) j)) ->
      accepted expected (poll env (reads w) k) ->
      length (f_data (snd (poll env (reads w) k))) = 8%nat ->
      Forall is_byte (f_data (snd (poll env (reads w) k))) ->
      length buf = 6%nat ->
      let d := fun i => nth i (f_data (snd (poll env (reads w) k))) 0 in
      j1939_check_response env expected (Some buf) (Some len) w =
      ((d 1%nat,
        Some [d 2%nat; d 3%nat; d 4%nat; d 5%nat; d 6%nat; d 7%nat],
        Some 6),
       mkWorld (written w) (S (reads w + k))
               (slept_us w + 50000 + 5000 * Z.of_nat k))) /\
  (forall rd rl,
      fst (fst (fst (j1939_check_response env expected rd rl w))) <> -1 ->
      exists k,
        (k < MAX_POLLS)%nat /\
        accepted expected (poll env (reads w) k) /\
        (forall j, (j < k)%nat -> ~ accepted expected (poll env (reads w) j)) /\
        j1939_check_response env expected rd rl w =
        (reply_of rd rl (snd (poll env (reads w) k)),
         mkWorld (written w) (S (reads w + k))
                 (slept_us w + 50000 + 5000 * Z.of_nat k))).
Proof.
  split.
  - intros k buf len Hk Hbefore Hacc Hlen Hbytes Hbuf d.
    rewrite check_response_spec.
    rewrite (first_match_found _ MAX_POLLS 0 k).
    + unfold reply_of. f_equal. f_equal. f_equal.
      * apply u8_small.
        assert (Hin : In (nth 1 (f_data (snd (poll env (reads w) k))) 0)
                         (f_data (snd (poll env (reads w) k))))
          by (apply nth_In; lia).
        rewrite Forall_forall in Hbytes. exact (Hbytes _ Hin).
      * f_equal. rewrite six_bytes_from_2 by exact Hlen.
        apply memcpy_whole; [exact Hbuf | reflexivity].
    + lia.
    + apply acceptedb_spec. exact Hacc.
    + intros j Hj. apply acceptedb_false. apply Hbefore. lia.
  - intros rd rl Hcode. rewrite check_response_spec in *.
    destruct (first_match _ 0 MAX_POLLS) as [k |] eqn:Hfm.
    + apply first_match_Some in Hfm. destruct Hfm as (Hr & Hk & Hbefore).
      exists k. split; [lia |]. split; [apply acceptedb_spec; exact Hk |].
      split; [| reflexivity].
      intros j Hj. apply acceptedb_false. apply Hbefore. lia.
    + exfalso. apply Hcode. reflexivity.
Qed.

Lemma check_response_first_match_witness :
  j1939_check_response (scripted_env busy_script) CMD_QUERY
                       (Some (repeat 0 6)) (Some 0) fresh_world =
  ((0, Some [3; 2; 1; 0; 0xFF; 0xFF], Some 6), mkWorld [] 4 65000).
Proof.
  refine (proj1 (check_response_first_match (scripted_env busy_script)
                   CMD_QUERY fresh_world) 3%nat (repeat 0 6) 0 _ _ _ _ _ _).
  - unfold MAX_POLLS. lia.
  - intros j Hj. apply acceptedb_false.
    destruct j as [| [| [| j]]];
      [vm_compute; reflexivity | vm_compute; reflexivity
       | vm_compute; reflexivity | lia].
  - apply acceptedb_spec. vm_compute. reflexivity.
  - vm_compute. reflexivity.
  - vm_compute. repeat constructor; discriminate.
  - reflexivity.
Defined.

(** C6. When none of the polls of the window passes the test,
    [j1939_check_response] returns -1 after exactly [MAX_POLLS] = 200
    polls, having asked [usleep] for 50 ms and then 200 times 5 ms,
    1.05 s in all.  The code -1 is returned in no other case: a code
    that comes from a frame is a byte, between 0 and 255. *)
Theorem check_response_timeout env expected rd rl w :
  ((forall k, (k < MAX_POLLS)%nat ->
              ~ accepted expected (poll env (reads w) k)) ->
   j1939_check_response env expected rd rl w =
   ((-1, rd, rl),
    mkWorld (written w) (reads w + 200) (slept_us w + 50000 + 200 * 5000))) /\
  (fst (fst (fst (j1939_check_response env expected rd rl w))) = -1 ->
   forall k, (k < MAX_POLLS)%nat ->
             ~ accepted expected (poll env (reads w) k)) /\
  (fst (fst (fst (j1939_check_response env expected rd rl w))) <> -1 ->
   0 <= fst (fst (fst (j1939_check_response env expected rd rl w))) < 256).
Proof.
  rewrite check_response_spec.
  destruct (first_match _ 0 MAX_POLLS) as [k |] eqn:Hfm.
  - apply first_match_Some in Hfm. destruct Hfm as (Hr & Hk & _).
    pose proof (u8_range (nth 1 (f_data (snd (poll env (reads w) k))) 0)) as Hb.
    cbn [fst]. rewrite reply_of_code.
    split; [| split].
    + intro Hnone. exfalso. apply (Hnone k); [lia |].
      apply acceptedb_spec. exact Hk.
    + intro Hcode. lia.
    + intros _. exact Hb.
  - split; [| split].
    + intros _. unfold MAX_POLLS. same_world.
    + intros _ k Hk. apply acceptedb_false.
      apply (first_match_None _ _ _ Hfm). lia.
    + intro Hcode. exfalso. apply Hcode. reflexivity.
Qed.

Lemma check_response_timeout_witness :
  j1939_check_response silent_env CMD_SAVE None None fresh_world =
  ((-1, None, None), mkWorld [] 200 1050000).
Proof.
  apply (proj1 (check_response_timeout silent_env CMD_SAVE None None
                  fresh_world)).
  intros k _. apply acceptedb_false.
  unfold acceptedb, poll, silent_env. cbn [read_outcome receive_into fst].
  reflexivity.
Defined.

(** ** High-level commands *)

(** [j1939_send_command] hands exactly one frame to [write]. *)
Lemma send_command_world env cmd params param_len w :
  exists payload,
    j1939_send_command env cmd params param_len w =
    ((if write_ok env (length (written w)) then 0 else -1),
     mkWorld (written w ++ [to_can_frame (command_frame payload)])
             (reads w) (slept_us w)) /\
    payload =
      match params with
      | Some p =>
          if 0 <? param_len then
            memcpy (store (repeat 0xFF 8) 0 (u8 cmd)) 1 p
                   (Z.to_nat (if 7 <? param_len then 7 else param_len))
          else store (repeat 0xFF 8) 0 (u8 cmd)
      | None => store (repeat 0xFF 8) 0 (u8 cmd)
      end.
Proof.
  eexists. split; [| reflexivity].
  unfold j1939_send_command, socketcan_send, bind, sys_write, ret.
  destruct (write_ok env (length (written w))); reflexivity.
Qed.

Lemma send_command_code env cmd params param_len w :
  fst (j1939_send_command env cmd params param_len w) = 0 \/
  fst (j1939_send_command env cmd params param_len w) = -1.
Proof.
  destruct (send_command_world env cmd params param_len w) as (p & -> & _).
  cbn [fst]. destruct (write_ok env (length (written w))); auto.
Qed.

(** The payload rule of [j1939_send_command]: the command byte, then at
    most seven parameter bytes, then 0xFF up to eight bytes. *)
Lemma send_command_payload env cmd (p : list Z) w :
  (length p <= 255)%nat ->
  written (snd (j1939_send_command env cmd (Some p) (Z.of_nat (length p)) w)) =
  written w ++
  [to_can_frame
     (command_frame (firstn 8 (u8 cmd :: p ++ repeat 0xFF 7)))].
Proof.
  intros _.
  destruct (send_command_world env cmd (Some p) (Z.of_nat (length p)) w)
    as (payload & -> & ->).
  cbn [snd written]. do 3 f_equal.
  destruct p as [| p0 [| p1 [| p2 [| p3 [| p4 [| p5 [| p6 rest]]]]]]];
    try reflexivity.
  replace (0 <? Z.of_nat (length (p0 :: p1 :: p2 :: p3 :: p4 :: p5 :: p6 :: rest)))
    with true by (symmetry; apply Z.ltb_lt; cbn [length]; lia).
  destruct (7 <? Z.of_nat (length (p0 :: p1 :: p2 :: p3 :: p4 :: p5 :: p6 :: rest)))
    eqn:Hlen.
  - reflexivity.
  - apply Z.ltb_ge in Hlen. cbn [length] in Hlen.
    destruct rest; [reflexivity | cbn [length] in Hlen; lia].
Qed.

(** C3. [j1939_enable_spn] with SPN 175, enable set and input 3 hands
    exactly one frame to the transport, whatever the transport answers:
    payload 01 00 AF 01 03 FF FF FF, eight bytes, extended, and an
    identifier with PGN 0xFF00, priority 6 and source 0. *)
Theorem enable_spn_175_frame env w :
  let frame :=
    mkCanFrame (j1939_build_id 0xFF00 6 0) 8
               [0x01; 0x00; 0xAF; 0x01; 0x03; 0xFF; 0xFF; 0xFF] true in
  written (snd (j1939_enable_spn env 175 true 3 w)) =
    written w ++ [to_can_frame frame] /\
  to_can_frame frame =
    mkRawFrame 0x98FF0000 8 [0x01; 0x00; 0xAF; 0x01; 0x03; 0xFF; 0xFF; 0xFF] /\
  j1939_get_pgn (f_id frame) = 0xFF00 /\
  id_priority (f_id frame) = 6 /\
  j1939_get_source (f_id frame) = 0 /\
  f_extended frame = true /\
  f_len frame = 8.
Proof.
  intro frame. split; [| repeat split].
  unfold j1939_enable_spn, bind.
  destruct (send_command_world env CMD_ENABLE_SPN
              (Some [u8 (Z.land (Z.shiftr 175 8) 0xFF); u8 (Z.land 175 0xFF);
                     1; 3]) 4 w) as (payload & Hsend & Hpayload).
  rewrite Hsend.
  assert (Hframe : command_frame payload = frame)
    by (rewrite Hpayload; reflexivity).
  rewrite Hframe.
  destruct (write_ok env (length (written w))).
  - cbv beta iota. change (0 <? 0) with false. cbv beta iota. unfold ret.
    match goal with
    | |- context [j1939_check_response ?e ?c ?a ?b ?x] =>
        pose proof (check_response_written e c a b x) as Hw;
        destruct (j1939_check_response e c a b x) as [reply w']
    end.
    exact Hw.
  - reflexivity.
Qed.

(** C10. Whenever [j1939_query_config] returns a code other than 0 (the
    send failed, the wait timed out, or the module answered with an
    error code) the caller's [TConfigState] is exactly what it was: the
    counts and flags are assigned only under [result == 0]. *)
Theorem query_config_failure_keeps_state env state w :
  fst (fst (j1939_query_config env state w)) <> 0 ->
  snd (fst (j1939_query_config env state w)) = state.
Proof.
  unfold j1939_query_config.
  destruct (j1939_send_command env CMD_QUERY (Some [0]) 1 w) as [r w1].
  destruct (r <? 0); [reflexivity |].
  destruct (j1939_check_response env CMD_QUERY
              (Some (stack_response env (reads w)))
              (Some (stack_len env (reads w))) w1)
    as [[[result response] len] w2].
  destruct state as [st |]; [| reflexivity].
  destruct response as [response |]; [| reflexivity].
  destruct (Z.eqb_spec result 0) as [-> | Hne]; cbn [fst snd].
  - intro H. exfalso. apply H. reflexivity.
  - reflexivity.
Qed.

Lemma query_config_failure_keeps_state_witness :
  j1939_query_config dead_env (Some some_config) fresh_world
    = ((-1, Some some_config),
       mkWorld [query_frame 0 0xFF] 0 0) /\
  snd (fst (j1939_query_config silent_env (Some some_config) fresh_world))
    = Some some_config /\
  snd (fst (j1939_query_config
              (scripted_env
                 [ReadFrame (response_frame [0x05; 8; 9; 9; 1; 1; 0xFF; 0xFF])])
              (Some some_config) fresh_world))
    = Some some_config.
Proof.
  split; [vm_compute; reflexivity |]. split.
  - apply (query_config_failure_keeps_state silent_env (Some some_config)
             fresh_world).
    vm_compute. discriminate.
  - apply (query_config_failure_keeps_state
             (scripted_env
                [ReadFrame (response_frame [0x05; 8; 9; 9; 1; 1; 0xFF; 0xFF])])
             (Some some_config) fresh_world).
    vm_compute. discriminate.
Defined.

(** On success the four members are read from the response block, and
    the two identity members are left alone. *)
Example query_config_success :
  fst (j1939_query_config (scripted_env busy_script) (Some some_config)
         fresh_world)
  = (0, Some (mkConfigState 3 2 true false 0x95 1)) /\
  fst (j1939_query_config
         (scripted_env
            [ReadFrame (response_frame [0x05; 0; 7; 6; 0; 1; 0xFF; 0xFF])])
         (Some some_config) fresh_world)
  = (0, Some (mkConfigState 7 6 false true 0x95 1)).
Proof. split; vm_compute; reflexivity. Qed.

(** One temperature sub-query: one frame of query type 1 is written; the
    pressure table is not touched; a return carries a code other than 0
    and the table as it was. *)
Lemma temp_sub_query_effect env sq response a w :
  written (snd (temp_sub_query env sq (response, a) w)) =
    written w ++ [query_frame 1 sq] /\
  match fst (temp_sub_query env sq (response, a) w) with
  | Return r s' => r <> 0 /\ snd s' = a
  | Next s' => presSpns (snd s') = presSpns a
  end.
Proof.
  unfold temp_sub_query.
  destruct (send_command_world env CMD_QUERY (Some [1; sq]) 2 w)
    as (payload & Hsend & Hpayload).
  rewrite Hsend.
  assert (Hframe : to_can_frame (command_frame payload) = query_frame 1 sq)
    by (rewrite Hpayload; reflexivity).
  rewrite Hframe.
  destruct (write_ok env (length (written w))).
  - change (0 <? 0) with false. cbv iota.
    match goal with
    | |- context [j1939_check_response ?e ?c ?b ?l ?x] =>
        pose proof (check_response_written e c b l x) as Hw;
        destruct (j1939_check_response e c b l x) as [[[result resp'] len'] w']
    end.
    cbn [snd written] in Hw.
    destruct (Z.eqb_spec result 0) as [-> | Hne]; cbn [negb fst snd].
    + split; [exact Hw | reflexivity].
    + split; [exact Hw |]. split; [exact Hne | reflexivity].
  - change (-1 <? 0) with true. cbv iota. cbn [fst snd written].
    split; [reflexivity |]. split; [discriminate | reflexivity].
Qed.

(** The temperature sub-queries that went on to the next: one frame of
    query type 1 each, and the pressure table as it was. *)
Lemma temp_sub_queries_done env : forall done s w s' w',
  for_each (temp_sub_query env) done s w = (Next s', w') ->
  written w' = written w ++ map (query_frame 1) done /\
  presSpns (snd s') = presSpns (snd s).
Proof.
  induction done as [| i rest IH]; intros s w s' w' H.
  - injection H as <- <-. rewrite app_nil_r. split; reflexivity.
  - cbn [for_each] in H. unfold bind in H.
    destruct s as [response a].
    pose proof (temp_sub_query_effect env i response a w) as [Hw Hflow].
    destruct (temp_sub_query env i (response, a) w) as [[r0 s0 | s0] w0].
    + discriminate H.
    + apply IH in H. destruct H as [Hw' Hp].
      cbn [fst snd] in *. rewrite Hw', Hw, Hp, Hflow.
      rewrite <- app_assoc. split; reflexivity.
Qed.

(** A sub-query that fails makes the loop body return its code, with the
    table as it was. *)
Lemma temp_sub_query_on_failure env sq response a w r :
  sub_query_fails env 1 sq response w r ->
  exists response',
    temp_sub_query env sq (response, a) w =
    (Return r (response', a), sub_query_end env 1 sq response w).
Proof.
  unfold sub_query_fails, sub_query_end, temp_sub_query.
  destruct (j1939_send_command env CMD_QUERY (Some [1; sq]) 2 w) as [c w0].
  cbn [fst snd].
  intros [[Hc ->] | (Hc & Hr & Hne)].
  - apply Z.ltb_lt in Hc. rewrite Hc. exists response. reflexivity.
  - apply Z.ltb_ge in Hc. rewrite Hc.
    destruct (j1939_check_response env CMD_QUERY (Some response)
                (Some (stack_len env (reads w))) w0)
      as [[[result resp'] len'] w2].
    cbn [fst snd] in *. subst result.
    apply Z.eqb_neq in Hne. rewrite Hne. cbn [negb].
    eexists. reflexivity.
Qed.

Lemma for_each_app {S : Type} (body : Z -> S -> M (Flow S)) :
  forall done rest s w s1 w1,
    for_each body done s w = (Next s1, w1) ->
    for_each body (done ++ rest) s w = for_each body rest s1 w1.
Proof.
  induction done as [| i done IH]; intros rest s w s1 w1 H.
  - injection H as <- <-. reflexivity.
  - cbn [for_each app] in *. unfold bind in *.
    destruct (body i s w) as [[r0 s0 | s0] w0].
    + discriminate H.
    + apply IH. exact H.
Qed.

(** C5. Let the temperature sub-queries [done] of
    [j1939_query_spn_assignments] have completed, leaving the table [a],
    and let the next one, [i], fail with code [r] (the send fails, or
    [j1939_check_response] times out or gives an error code).  Then the
    function returns [r], which is not 0, in the world where that
    sub-query ended: the frames written are the temperature sub-queries
    [done] and [i] and no pressure sub-query; the seven pressure slots
    are 0; the table returned is [a], the temperature slots as the
    completed sub-queries left them. *)
Theorem query_spn_temp_failure env a0 w done i rest response a w_prev r :
  [0; 1; 2] = done ++ i :: rest ->
  for_each (temp_sub_query env) done
           (stack_response env (reads w),
            mkSpnAssignments (repeat 0 8) (repeat 0 7)) w
    = (Next (response, a), w_prev) ->
  sub_query_fails env 1 i response w_prev r ->
  j1939_query_spn_assignments env a0 w =
    ((r, a), sub_query_end env 1 i response w_prev) /\
  r <> 0 /\
  presSpns a = [0; 0; 0; 0; 0; 0; 0] /\
  written (sub_query_end env 1 i response w_prev) =
    written w ++ map (query_frame 1) (done ++ [i]).
Proof.
  intros Hsplit Hdone Hfail.
  destruct (temp_sub_query_on_failure env i response a w_prev r Hfail)
    as (response' & Hret).
  destruct (temp_sub_queries_done env _ _ _ _ _ Hdone) as [Hw Hp].
  pose proof (temp_sub_query_effect env i response a w_prev) as [Hw1 Hflow].
  rewrite Hret in Hw1, Hflow. cbn [fst snd] in *.
  destruct Hflow as [Hr _].
  split.
  { unfold j1939_query_spn_assignments. rewrite Hsplit.
    rewrite (for_each_app _ _ _ _ _ _ _ Hdone).
    cbn [for_each]. unfold bind. rewrite Hret. reflexivity. }
  split; [exact Hr |]. split; [exact Hp |].
  rewrite Hw1, Hw, map_app, <- app_assoc. reflexivity.
Qed.

Lemma query_spn_temp_failure_witness :
  j1939_query_spn_assignments flaky_env (mkSpnAssignments [] []) fresh_world =
  ((-1, mkSpnAssignments [175; 110; 174; 0; 0; 0; 0; 0] [0; 0; 0; 0; 0; 0; 0]),
   mkWorld [query_frame 1 0; query_frame 1 1] 1 50000).
Proof.
  refine (proj1 (query_spn_temp_failure flaky_env (mkSpnAssignments [] [])
                   fresh_world [0] 1 [2] [0; 175; 0; 110; 0; 174]
                   (mkSpnAssignments [175; 110; 174; 0; 0; 0; 0; 0]
                                     [0; 0; 0; 0; 0; 0; 0])
                   (mkWorld [query_frame 1 0] 1 50000) (-1) _ _ _)).
  - reflexivity.
  - vm_compute. reflexivity.
  - left. split; [vm_compute; reflexivity | reflexivity].
Defined.

(** The same with a module that answers the second temperature
    sub-query with the error code 8. *)
Example query_spn_protocol_error :
  fst (j1939_query_spn_assignments
         (scripted_env
            [ReadFrame (response_frame [0x05; 0; 0x00; 0xAF; 0xFF; 0xFF; 0x00; 0xAE]);
             ReadFrame (response_frame [0x05; 8; 0xFF; 0xFF; 0xFF; 0xFF; 0xFF; 0xFF])])
         (mkSpnAssignments [] []) fresh_world)
  = (8, mkSpnAssignments [175; 0; 174; 0; 0; 0; 0; 0] [0; 0; 0; 0; 0; 0; 0]).
Proof. vm_compute. reflexivity. Qed.

(** A sub-query returns in two cases only: the send failed, with code
    -1, or [j1939_check_response] gave a code other than 0. *)
Lemma temp_sub_query_return env sq response a w r s' w' :
  temp_sub_query env sq (response, a) w = (Return r s', w') ->
  (fst (j1939_send_command env CMD_QUERY (Some [1; sq]) 2 w) < 0 /\ r = -1) \/
  (fst (j1939_send_command env CMD_QUERY (Some [1; sq]) 2 w) = 0 /\
   r <> 0 /\
   r = fst (fst (fst (j1939_check_response env CMD_QUERY (Some response)
                        (Some (stack_len env (reads w)))
                        (snd (j1939_send_command env CMD_QUERY
                                (Some [1; sq]) 2 w)))))).
Proof.
  unfold temp_sub_query.
  destruct (send_command_code env CMD_QUERY (Some [1; sq]) 2 w) as [Hc | Hc];
    destruct (j1939_send_command env CMD_QUERY (Some [1; sq]) 2 w) as [c w0];
    cbn [fst snd] in *; subst c.
  - change (0 <? 0) with false. cbv iota.
    destruct (j1939_check_response env CMD_QUERY (Some response)
                (Some (stack_len env (reads w))) w0)
      as [[[result resp'] len'] w2].
    destruct (Z.eqb_spec result 0) as [-> | Hne]; cbn [negb fst].
    + discriminate.
    + intro H. injection H as <- _ _. right. auto.
  - change (-1 <? 0) with true. cbv iota.
    intro H. injection H as <- _ _. left. split; [lia | reflexivity].
Qed.

(** ** More on the transport and the engine *)


(** X1. Whatever the transport does, one call of
    [j1939_check_response] writes nothing, makes between 1 and 200
    reads, and asks [usleep] for at least 50 ms and at most 1.05 s;
    when it returns -1 the caller's buffer and length are as they
    were. *)
Theorem check_response_bounds env expected rd rl w :
  let r := j1939_check_response env expected rd rl w in
  written (snd r) = written w /\
  (reads w < reads (snd r) <= reads w + 200)%nat /\
  slept_us w + 50000 <= slept_us (snd r) <= slept_us w + 1050000 /\
  (fst (fst (fst r)) = -1 -> snd (fst (fst r)) = rd /\ snd (fst r) = rl).
Proof.
  intro r. subst r. rewrite check_response_spec.
  destruct (first_match _ 0 MAX_POLLS) as [k |] eqn:Hfm.
  - apply first_match_Some in Hfm. destruct Hfm as (Hr & _ & _).
    unfold MAX_POLLS in Hr. cbn [fst snd written reads slept_us].
    split; [reflexivity |]. split; [lia |]. split; [lia |].
    rewrite reply_of_code.
    pose proof (u8_range (nth 1 (f_data (snd (poll env (reads w) k))) 0)).
    intro Hcode. lia.
  - unfold MAX_POLLS. cbn [fst snd written reads slept_us].
    split; [reflexivity |]. split; [lia |]. split; [lia |].
    intros _. split; reflexivity.
Qed.

Lemma command_payload_shape (c : Z) (m : nat) (p : list Z) :
  (m <= 7)%nat ->
  (m <= length p)%nat ->
  memcpy (store (repeat 0xFF 8) 0 c) 1 p m =
  firstn 8 (c :: firstn m p ++ repeat 0xFF 7).
Proof.
  intros Hm Hp.
  do 8 (destruct m as [| m]; [reflexivity || 
          (repeat (destruct p as [| ? p]; [cbn [length] in Hp; lia |]);
           reflexivity) |]);
  lia.
Qed.

(** X2. [j1939_send_command] with [param_len] parameter bytes hands
    one frame to [write]: identifier of PGN 0xFF00, priority 6, source
    0, extended, eight bytes; the payload is the command byte, the first
    [param_len] parameter bytes but no more than seven, then 0xFF.  It
    returns 0 when the write is complete and -1 when it is not, and
    neither reads nor sleeps. *)
Theorem send_command_frame env cmd (p : list Z) param_len w :
  0 <= param_len < 256 ->
  (Z.to_nat param_len <= length p)%nat ->
  j1939_send_command env cmd (Some p) param_len w =
  ((if write_ok env (length (written w)) then 0 else -1),
   after_send (firstn 8 (cmd mod 256
                           :: firstn (Z.to_nat param_len) p ++ repeat 0xFF 7))
              w).
Proof.
  intros Hn Hp.
  destruct (send_command_world env cmd (Some p) param_len w)
    as (payload & -> & ->).
  unfold after_send. change (u8 cmd) with (cmd mod 256).
  assert (Hpay :
            (if 0 <? param_len
             then memcpy (store (repeat 0xFF 8) 0 (cmd mod 256)) 1 p
                         (Z.to_nat (if 7 <? param_len then 7 else param_len))
             else store (repeat 0xFF 8) 0 (cmd mod 256))
            = firstn 8 (cmd mod 256
                          :: firstn (Z.to_nat param_len) p ++ repeat 0xFF 7)).
  { destruct (Z.ltb_spec 0 param_len) as [Hpos | Hzero].
    - destruct (Z.ltb_spec 7 param_len) as [Hbig | Hsmall].
      + rewrite command_payload_shape by (cbn; lia).
        change (Z.to_nat 7) with 7%nat.
        assert (H7 : (7 <= Z.to_nat param_len)%nat) by lia.
        assert (Hl : length (firstn 7 p) = 7%nat)
          by (rewrite length_firstn; lia).
        assert (Hl' : length (firstn (Z.to_nat param_len) p)
                      = Z.to_nat param_len)
          by (rewrite length_firstn; lia).
        change 8%nat with (S 7). rewrite !firstn_cons. f_equal.
        rewrite (firstn_app 7 (firstn 7 p)), Hl, Nat.sub_diag.
        rewrite (firstn_app 7 (firstn (Z.to_nat param_len) p)), Hl'.
        rewrite !firstn_firstn.
        replace (Nat.min 7 (Z.to_nat param_len)) with 7%nat by lia.
        replace (7 - Z.to_nat param_len)%nat with 0%nat by lia.
        rewrite Nat.min_id. reflexivity.
      + apply command_payload_shape; lia.
    - replace (Z.to_nat param_len) with 0%nat by lia. reflexivity. }
  rewrite Hpay. reflexivity.
Qed.

Lemma send_command_frame_witness :
  j1939_send_command dead_env 0x105 (Some [1; 2; 3; 4; 5; 6; 7; 8; 9]) 9
                     fresh_world =
  (-1, mkWorld [mkRawFrame 0x98FF0000 8 [5; 1; 2; 3; 4; 5; 6; 7]] 0 0).
Proof.
  apply (send_command_frame dead_env 0x105 [1; 2; 3; 4; 5; 6; 7; 8; 9] 9
           fresh_world); [lia | cbn; lia].
Defined.

(** X3. A frame with a 29-bit identifier and a full payload
    that goes through [socketcan_send] and comes back through
    [socketcan_receive] is the same frame, whatever the receiving
    buffer held: identifier, extended flag, length and the eight bytes
    survive the EFF-flag encoding of [struct can_frame]. *)
Theorem send_receive_round_trip (frame buffer : TCanFrame) :
  0 <= f_id frame < 2 ^ 29 ->
  f_len frame = 8 ->
  length (f_data frame) = 8%nat ->
  length (f_data buffer) = 8%nat ->
  receive_into (ReadFrame (to_can_frame frame)) buffer = (1, frame).
Proof.
  intros Hid Hlen Hdata Hbuf.
  assert (Hmask : forall x, 0 <= x < 2 ^ 29 ->
            Z.land x CAN_EFF_MASK = x /\
            Z.land x CAN_EFF_FLAG = 0 /\
            Z.land (u32 (Z.lor x CAN_EFF_FLAG)) CAN_EFF_MASK = x /\
            Z.land (u32 (Z.lor x CAN_EFF_FLAG)) CAN_EFF_FLAG = CAN_EFF_FLAG).
  { intros x Hx.
    assert (Hlow : Z.land x CAN_EFF_MASK = x).
    { change CAN_EFF_MASK with (Z.ones 29).
      rewrite Z.land_ones by lia. apply Z.mod_small. exact Hx. }
    assert (Hhigh : Z.land x CAN_EFF_FLAG = 0).
    { apply Z.bits_inj'. intros n Hn.
      rewrite Z.land_spec, Z.bits_0.
      destruct (Z.eq_dec n 31) as [-> | Hne].
      - rewrite (Z.bits_above_log2 x 31); [reflexivity | lia |].
        destruct (Z.eq_dec x 0) as [-> | Hx0]; [cbn; lia |].
        apply Z.log2_lt_pow2; lia.
      - change CAN_EFF_FLAG with (2 ^ 31).
        rewrite Z.pow2_bits_false by lia. apply andb_false_r. }
    assert (Hor : Z.lor x CAN_EFF_FLAG = x + CAN_EFF_FLAG).
    { rewrite <- Z.lxor_lor by exact Hhigh.
      symmetry. apply Z.add_nocarry_lxor. exact Hhigh. }
    rewrite Hor. rewrite u32_small by (unfold CAN_EFF_FLAG; lia).
    repeat split; try assumption.
    - change CAN_EFF_MASK with (Z.ones 29).
      rewrite Z.land_ones by lia. unfold CAN_EFF_FLAG.
      change (2 ^ 29) with 536870912 in *.
      Z.div_mod_to_equations. lia.
    - rewrite <- Hor. rewrite Z.land_lor_distr_l, Hhigh, Z.land_diag.
      reflexivity. }
  destruct frame as [fid flen fdata fext]. cbn [f_id f_len f_data f_extended] in *.
  subst flen. destruct (Hmask fid Hid) as (H1 & H2 & H3 & H4).
  unfold receive_into, to_can_frame.
  cbn [can_id can_dlc raw_data f_id f_len f_data f_extended].
  assert (Hpayload :
            memcpy (f_data buffer) 0
                   (memcpy (repeat 0 8) 0 fdata (Z.to_nat 8)) (Z.to_nat 8)
            = fdata).
  { change (Z.to_nat 8) with 8%nat.
    rewrite (memcpy_whole (repeat 0 8) fdata 8) by (reflexivity || exact Hdata).
    apply memcpy_whole; assumption. }
  rewrite Hpayload.
  destruct fext.
  - rewrite H3, H4. reflexivity.
  - rewrite H1, H2. reflexivity.
Qed.

Lemma send_receive_round_trip_witness :
  receive_into
    (ReadFrame (to_can_frame
                  (mkCanFrame 0x18FF0195 8 [5; 0; 3; 2; 1; 0; 0xFF; 0xFF] true)))
    (mkCanFrame 0 0 (repeat 0xAA 8) false)
  = (1, mkCanFrame 0x18FF0195 8 [5; 0; 3; 2; 1; 0; 0xFF; 0xFF] true).
Proof.
  apply (send_receive_round_trip
           (mkCanFrame 0x18FF0195 8 [5; 0; 3; 2; 1; 0; 0xFF; 0xFF] true)
           (mkCanFrame 0 0 (repeat 0xAA 8) false));
    try reflexivity.
  cbn. lia.
Defined.

(** X4. A received frame overwrites only the first [can_dlc] bytes
    of the buffer [socketcan_receive] is given: the bytes from
    [can_dlc] on are the ones the buffer held before, for instance those
    of the frame received just before. *)
Theorem receive_keeps_tail (cf : can_frame) (buffer : TCanFrame) (i : nat) :
  0 <= can_dlc cf <= 8 ->
  length (raw_data cf) = 8%nat ->
  length (f_data buffer) = 8%nat ->
  let received := snd (receive_into (ReadFrame cf) buffer) in
  length (f_data received) = 8%nat /\
  nth i (f_data received) 0 =
    if (Z.of_nat i <? can_dlc cf) then nth i (raw_data cf) 0
    else nth i (f_data buffer) 0.
Proof.
  intros Hdlc Hraw Hbuf received. subst received.
  unfold receive_into. cbn [snd f_data]. unfold memcpy.
  cbn [firstn Nat.add app].
  assert (Hn : (Z.to_nat (can_dlc cf) <= 8)%nat) by lia.
  split.
  - rewrite length_app, length_firstn, length_skipn. lia.
  - destruct (Z.ltb_spec (Z.of_nat i) (can_dlc cf)) as [Hlt | Hge].
    + rewrite app_nth1 by (rewrite length_firstn; lia).
      rewrite nth_firstn.
      destruct (Nat.ltb_spec i (Z.to_nat (can_dlc cf))); [reflexivity | lia].
    + rewrite app_nth2 by (rewrite length_firstn; lia).
      rewrite length_firstn, nth_skipn.
      f_equal. lia.
Qed.

Lemma receive_keeps_tail_witness :
  let received :=
    snd (receive_into
           (ReadFrame (mkRawFrame 0x98FF0195 2 [5; 0; 0; 0; 0; 0; 0; 0]))
           (mkCanFrame 0x18FEF695 8 [0xFF; 0x32; 0x46; 0x32; 0xFF; 0xFF; 0xFF; 0xFF]
                       true)) in
  length (f_data received) = 8%nat /\
  nth 2 (f_data received) 0 = 0x46.
Proof.
  apply (receive_keeps_tail
           (mkRawFrame 0x98FF0195 2 [5; 0; 0; 0; 0; 0; 0; 0])
           (mkCanFrame 0x18FEF695 8 [0xFF; 0x32; 0x46; 0x32; 0xFF; 0xFF; 0xFF; 0xFF]
                       true) 2); [cbn; lia | reflexivity | reflexivity].
Defined.

(** ** The commands of [main] *)

Lemma spn_high_byte (spn : Z) :
  u8 (Z.land (Z.shiftr spn 8) 0xFF) = (spn / 256) mod 256.
Proof.
  rewrite land_FF, Z.shiftr_div_pow2 by lia. change (2 ^ 8) with 256.
  apply u8_small. apply Z.mod_pos_bound. reflexivity.
Qed.

Lemma spn_low_byte (spn : Z) : u8 (Z.land spn 0xFF) = spn mod 256.
Proof.
  rewrite land_FF. apply u8_small. apply Z.mod_pos_bound. reflexivity.
Qed.

Lemma round_trip_shape env cmd params n code payload w :
  j1939_send_command env cmd params n w =
    ((if write_ok env (length (written w)) then 0 else -1),
     after_send payload w) ->
  bind (j1939_send_command env cmd params n)
       (fun r => if r <? 0 then ret (-1)
                 else bind (j1939_check_response env code None None)
                           (fun reply => ret (fst (fst reply)))) w =
  if write_ok env (length (written w)) then
    (fst (fst (fst (j1939_check_response env code None None
                      (after_send payload w)))),
     snd (j1939_check_response env code None None (after_send payload w)))
  else (-1, after_send payload w).
Proof.
  intro Hsend. unfold bind, ret. rewrite Hsend.
  destruct (write_ok env (length (written w))).
  - cbv beta iota. change (0 <? 0) with false. cbv beta iota.
    destruct (j1939_check_response env code None None (after_send payload w))
      as [reply w']. reflexivity.
  - reflexivity.
Qed.

Lemma send_command_payload_of env c cmd params n w :
  (forall payload,
      payload =
        match params with
        | Some p =>
            if 0 <? n then
              memcpy (store (repeat 0xFF 8) 0 (u8 cmd)) 1 p
                     (Z.to_nat (if 7 <? n then 7 else n))
            else store (repeat 0xFF 8) 0 (u8 cmd)
        | None => store (repeat 0xFF 8) 0 (u8 cmd)
        end ->
      payload = command_payload c) ->
  j1939_send_command env cmd params n w =
    ((if write_ok env (length (written w)) then 0 else -1),
     after_send (command_payload c) w).
Proof.
  intro H.
  destruct (send_command_world env cmd params n w) as (payload & -> & Hp).
  rewrite (H payload Hp). reflexivity.
Qed.

(** Each command is one send and, when the send succeeded, one wait for
    the response to its own command byte. *)
Lemma run_command_spec env c w :
  run_command env c w =
  if write_ok env (length (written w)) then
    (fst (fst (fst (j1939_check_response env (command_code c) None None
                      (after_send (command_payload c) w)))),
     snd (j1939_check_response env (command_code c) None None
            (after_send (command_payload c) w)))
  else (-1, after_send (command_payload c) w).
Proof.
  destruct c as [spn enable input | input preset | input preset | type | |];
    cbn [run_command command_code];
    apply round_trip_shape;
    apply send_command_payload_of;
    intros payload ->;
    try rewrite spn_high_byte; try rewrite spn_low_byte;
    reflexivity.
Qed.

Lemma first_match_dec test count from :
  (exists k, (from <= k < from + count)%nat /\ test k = true /\
             first_match test from count = Some k) \/
  ((forall j, (from <= j < from + count)%nat -> test j = false) /\
   first_match test from count = None).
Proof.
  destruct (first_match test from count) as [k |] eqn:Hfm.
  - left. exists k. apply first_match_Some in Hfm.
    destruct Hfm as (Hr & Hk & _). auto.
  - right. split; [| reflexivity]. apply first_match_None. exact Hfm.
Qed.

(** The polls of the wait do not depend on what was written. *)
Lemma reads_after_send payload w : reads (after_send payload w) = reads w.
Proof. reflexivity. Qed.

(** X5. Each command hands exactly one frame to the transport,
    whatever the transport answers: raw identifier 0x98FF0000 (PGN
    0xFF00, priority 6, source 0, extended), eight bytes, the payload of
    [command_payload]: the SPN high byte first for enable, the preset
    code after the input for the presets, 0xFF in every unused byte. *)
Theorem command_wire_frame env c w :
  written (snd (run_command env c w)) =
  written w ++ [mkRawFrame 0x98FF0000 8 (command_payload c)].
Proof.
  rewrite run_command_spec.
  assert (Hraw : to_can_frame (command_frame (command_payload c))
                 = mkRawFrame 0x98FF0000 8 (command_payload c))
    by (destruct c; reflexivity).
  destruct (write_ok env (length (written w))); cbn [snd].
  - rewrite check_response_written. unfold after_send. cbn [written].
    rewrite Hraw. reflexivity.
  - unfold after_send. cbn [written]. rewrite Hraw. reflexivity.
Qed.

(** X6. When the write fails a command returns -1 at once: the
    frame was handed to [write], nothing is read and no time is spent
    waiting. *)
Theorem command_transport_failure env c w :
  write_ok env (length (written w)) = false ->
  run_command env c w =
  (-1, mkWorld (written w ++ [mkRawFrame 0x98FF0000 8 (command_payload c)])
               (reads w) (slept_us w)).
Proof.
  intro Hfail. rewrite run_command_spec, Hfail. unfold after_send.
  assert (Hraw : to_can_frame (command_frame (command_payload c))
                 = mkRawFrame 0x98FF0000 8 (command_payload c))
    by (destruct c; reflexivity).
  rewrite Hraw. reflexivity.
Qed.

Lemma command_transport_failure_witness :
  run_command dead_env (NtcPreset 3 2) fresh_world =
  (-1, mkWorld [mkRawFrame 0x98FF0000 8
                  [0x08; 3; 2; 0xFF; 0xFF; 0xFF; 0xFF; 0xFF]] 0 0).
Proof.
  apply (command_transport_failure dead_env (NtcPreset 3 2) fresh_world).
  reflexivity.
Defined.

(** X7. When the write succeeds, a command returns payload
    byte 1 of the first frame of the window that has PGN 0xFF01, source
    0x95 and the command's own byte in front; the frames polled before
    it, telemetry and responses to other commands alike, are consumed
    and dropped. *)
Theorem command_returns_error_byte env c w k :
  write_ok env (length (written w)) = true ->
  (k < MAX_POLLS)%nat ->
  (forall j, (j < k)%nat ->
             ~ accepted (command_code c) (poll env (reads w) j)) ->
  accepted (command_code c) (poll env (reads w) k) ->
  run_command env c w =
  (nth 1 (f_data (snd (poll env (reads w) k))) 0 mod 256,
   mkWorld (written w ++ [mkRawFrame 0x98FF0000 8 (command_payload c)])
           (S (reads w + k)) (slept_us w + 50000 + 5000 * Z.of_nat k)).
Proof.
  intros Hok Hk Hbefore Hacc.
  rewrite run_command_spec, Hok, check_response_spec, reads_after_send.
  rewrite (first_match_found _ MAX_POLLS 0 k).
  - assert (Hraw : to_can_frame (command_frame (command_payload c))
                   = mkRawFrame 0x98FF0000 8 (command_payload c))
      by (destruct c; reflexivity).
    unfold after_send. cbn [fst snd written reads slept_us reply_of].
    rewrite Hraw. reflexivity.
  - lia.
  - apply acceptedb_spec. exact Hacc.
  - intros j Hj. apply acceptedb_false. apply Hbefore. lia.
Qed.

Lemma command_returns_error_byte_witness :
  run_command (scripted_env busy_script) SaveConfig fresh_world =
  (0, mkWorld [mkRawFrame 0x98FF0000 8
                 [0x06; 0xFF; 0xFF; 0xFF; 0xFF; 0xFF; 0xFF; 0xFF]]
              3 60000).
Proof.
  refine (command_returns_error_byte (scripted_env busy_script) SaveConfig
            fresh_world 2 _ _ _ _).
  - reflexivity.
  - unfold MAX_POLLS. lia.
  - intros j Hj. apply acceptedb_false.
    destruct j as [| [| j]];
      [vm_compute; reflexivity | vm_compute; reflexivity | lia].
  - apply acceptedb_spec. vm_compute. reflexivity.
Defined.

(** X8. The result of a command is -1 or a byte, so the three
    branches of [main] ([err == 0], [err > 0], otherwise) are all there
    is; and it is -1 exactly when the write failed or no frame of the
    window passed the acceptance test. *)
Theorem command_result_tristate env c w :
  let err := fst (run_command env c w) in
  (err = -1 \/ 0 <= err <= 255) /\
  (err = -1 <->
   write_ok env (length (written w)) = false \/
   forall k, (k < MAX_POLLS)%nat ->
             ~ accepted (command_code c) (poll env (reads w) k)).
Proof.
  intro err. subst err. rewrite run_command_spec.
  destruct (write_ok env (length (written w))) eqn:Hok; cbn [fst].
  - rewrite check_response_spec, reads_after_send.
    destruct (first_match_dec
                (fun k => acceptedb (command_code c) (poll env (reads w) k))
                MAX_POLLS 0) as [(k & Hr & Hk & ->) | [Hnone ->]].
    + cbn [fst]. rewrite reply_of_code.
      pose proof (u8_range (nth 1 (f_data (snd (poll env (reads w) k))) 0)) as Hb.
      split; [right; lia |]. split.
      * intro H. lia.
      * intros [H | H]; [discriminate H |].
        exfalso. apply (H k); [lia |]. apply acceptedb_spec. exact Hk.
    + cbn [fst]. split; [left; reflexivity |]. split; [| reflexivity].
      intros _. right. intros k Hk. apply acceptedb_false. apply Hnone. lia.
  - split; [left; reflexivity |]. split; auto.
Qed.

(** ** The two queries *)

Lemma length_store (a : list Z) (i : nat) (v : Z) :
  (i < length a)%nat -> length (store a i v) = length a.
Proof.
  intro Hi. unfold store.
  rewrite length_app, length_firstn. cbn [length]. rewrite length_skipn. lia.
Qed.

Lemma nth_store (a : list Z) (i j : nat) (v : Z) :
  (i < length a)%nat ->
  nth j (store a i v) 0 = if (j =? i)%nat then v else nth j a 0.
Proof.
  intro Hi. unfold store.
  assert (Hl : length (firstn i a) = i) by (rewrite length_firstn; lia).
  destruct (Nat.eqb_spec j i) as [-> | Hne].
  - rewrite app_nth2 by lia. rewrite Hl, Nat.sub_diag. reflexivity.
  - destruct (Nat.lt_ge_cases j i) as [Hlt | Hge].
    + rewrite app_nth1 by lia. rewrite nth_firstn.
      destruct (Nat.ltb_spec j i); [reflexivity | lia].
    + rewrite app_nth2 by lia. rewrite Hl.
      destruct (j - i)%nat as [| d] eqn:Hd; [lia |].
      cbn [nth]. rewrite nth_skipn. f_equal. lia.
Qed.

Lemma in_firstn_or_skipn (a : list Z) (n : nat) (x : Z) :
  In x (firstn n a) \/ In x (skipn n a) -> In x a.
Proof.
  intro H. rewrite <- (firstn_skipn n a). apply in_or_app. exact H.
Qed.

Lemma Forall_store (P : Z -> Prop) (a : list Z) (i : nat) (v : Z) :
  Forall P a -> P v -> Forall P (store a i v).
Proof.
  intros Ha Hv. unfold store. rewrite Forall_forall in *.
  intros x Hx. apply in_app_or in Hx. destruct Hx as [Hx | [<- | Hx]].
  - apply Ha. apply (in_firstn_or_skipn a i). left. exact Hx.
  - exact Hv.
  - apply Ha. apply (in_firstn_or_skipn a (S i)). right. exact Hx.
Qed.

Lemma u16_range (x : Z) : 0 <= u16 x < 65536.
Proof. unfold u16, wrap. apply Z.mod_pos_bound. reflexivity. Qed.

(** One step of the inner loop keeps a table valid. *)
Lemma store_spn_valid (limit : nat) (sq : Z) (response table : list Z) (i : Z) :
  valid_table limit table ->
  valid_table limit (store_spn (Z.of_nat limit) sq response table i).
Proof.
  intros [Hlen Hall]. unfold store_spn.
  pose proof (u8_range (sq * 3 + i)) as Hidx.
  destruct (Z.ltb_spec (u8 (sq * 3 + i)) (Z.of_nat limit)) as [Hlt | Hge];
    [| split; assumption].
  match goal with
  | |- context [negb (?spn =? 0xFFFF)] =>
      pose proof (u16_range
                    (Z.lor (Z.shiftl (u16 (nth (Z.to_nat (i * 2)) response 0)) 8)
                           (nth (Z.to_nat (i * 2 + 1)) response 0))) as Hspn;
      destruct (Z.eqb_spec spn 0xFFFF) as [Heq | Hne]
  end; cbn [negb]; [split; assumption |].
  split.
  - rewrite length_store by lia. exact Hlen.
  - apply Forall_store; [exact Hall | lia].
Qed.

Lemma store_spns_valid (limit : nat) (sq : Z) (response table : list Z) :
  valid_table limit table ->
  valid_table limit (store_spns (Z.of_nat limit) sq response table).
Proof.
  intro H. unfold store_spns. cbn [fold_left].
  repeat apply store_spn_valid. exact H.
Qed.

(** One pressure sub-query, the twin of [temp_sub_query_effect]. *)
Lemma pres_sub_query_effect env sq response a w :
  written (snd (pres_sub_query env sq (response, a) w)) =
    written w ++ [query_frame 2 sq] /\
  match fst (pres_sub_query env sq (response, a) w) with
  | Return r s' => r <> 0 /\ snd s' = a
  | Next s' => tempSpns (snd s') = tempSpns a
  end.
Proof.
  unfold pres_sub_query.
  destruct (send_command_world env CMD_QUERY (Some [2; sq]) 2 w)
    as (payload & Hsend & Hpayload).
  rewrite Hsend.
  assert (Hframe : to_can_frame (command_frame payload) = query_frame 2 sq)
    by (rewrite Hpayload; reflexivity).
  rewrite Hframe.
  destruct (write_ok env (length (written w))).
  - change (0 <? 0) with false. cbv iota.
    match goal with
    | |- context [j1939_check_response ?e ?c ?b ?l ?x] =>
        pose proof (check_response_written e c b l x) as Hw;
        destruct (j1939_check_response e c b l x) as [[[result resp'] len'] w']
    end.
    cbn [snd written] in Hw.
    destruct (Z.eqb_spec result 0) as [-> | Hne]; cbn [negb fst snd].
    + split; [exact Hw | reflexivity].
    + split; [exact Hw |]. split; [exact Hne | reflexivity].
  - change (-1 <? 0) with true. cbv iota. cbn [fst snd written].
    split; [reflexivity |]. split; [discriminate | reflexivity].
Qed.

(** A loop whose body writes one frame a turn writes the frames of the
    indices it went through, in order: all of them when it runs to its
    end, at least one when it returns. *)
Lemma for_each_written {St : Type} (body : Z -> St -> M (Flow St))
    (frame_for : Z -> can_frame) :
  (forall i s w, written (snd (body i s w)) = written w ++ [frame_for i]) ->
  forall indices s w,
  exists n,
    (n <= length indices)%nat /\
    written (snd (for_each body indices s w)) =
      written w ++ map frame_for (firstn n indices) /\
    match fst (for_each body indices s w) with
    | Next _ => n = length indices
    | Return r _ => (1 <= n)%nat
    end.
Proof.
  intro Hbody. induction indices as [| i rest IH]; intros s w.
  - exists 0%nat. cbn. rewrite app_nil_r. auto.
  - cbn [for_each]. unfold bind.
    specialize (Hbody i s w).
    destruct (body i s w) as [[r s' | s'] w1]; cbn [snd] in Hbody.
    + exists 1%nat. cbn [length firstn map fst snd ret].
      split; [lia |]. split; [exact Hbody | lia].
    + destruct (IH s' w1) as (n & Hn & Hw & Hflow).
      exists (S n). cbn [length firstn map].
      split; [lia |]. split.
      * rewrite Hw, Hbody, <- app_assoc. reflexivity.
      * destruct (fst (for_each body rest s' w1)); lia.
Qed.

(** A property of the locals that every turn keeps holds when the loop
    is left, either way. *)
Lemma for_each_invariant {St : Type} (body : Z -> St -> M (Flow St))
    (P : St -> Prop) :
  (forall i s w, P s -> P (flow_state (fst (body i s w)))) ->
  forall indices s w,
    P s -> P (flow_state (fst (for_each body indices s w))).
Proof.
  intro Hbody. induction indices as [| i rest IH]; intros s w Hs.
  - exact Hs.
  - cbn [for_each]. unfold bind.
    specialize (Hbody i s w Hs).
    destruct (body i s w) as [[r s' | s'] w1]; cbn [fst flow_state] in Hbody.
    + exact Hbody.
    + apply IH. exact Hbody.
Qed.


Lemma temp_sub_query_valid env i s w :
  tables_valid s -> tables_valid (flow_state (fst (temp_sub_query env i s w))).
Proof.
  intros [Ht Hp]. destruct s as [response a]. unfold temp_sub_query.
  destruct (j1939_send_command env CMD_QUERY (Some [1; i]) 2 w) as [r w0].
  destruct (r <? 0); [split; assumption |].
  destruct (j1939_check_response env CMD_QUERY (Some response)
              (Some (stack_len env (reads w))) w0)
    as [[[result resp'] len'] w2].
  destruct (negb (result =? 0)); [split; assumption |].
  split; [| exact Hp].
  cbn [fst snd flow_state tempSpns].
  apply (store_spns_valid 8). exact Ht.
Qed.

Lemma pres_sub_query_valid env i s w :
  tables_valid s -> tables_valid (flow_state (fst (pres_sub_query env i s w))).
Proof.
  intros [Ht Hp]. destruct s as [response a]. unfold pres_sub_query.
  destruct (j1939_send_command env CMD_QUERY (Some [2; i]) 2 w) as [r w0].
  destruct (r <? 0); [split; assumption |].
  destruct (j1939_check_response env CMD_QUERY (Some response)
              (Some (stack_len env (reads w))) w0)
    as [[[result resp'] len'] w2].
  destruct (negb (result =? 0)); [split; assumption |].
  split; [exact Ht |].
  cbn [fst snd flow_state presSpns].
  apply (store_spns_valid 7). exact Hp.
Qed.





(** X10. Whatever the transport does and whatever [*assignments]
    held before the call, after [j1939_query_spn_assignments] the
    temperature table has its 8 slots and the pressure table its 7,
    and every slot is 0 or an SPN below 0xFFFF: the "unused" marker
    0xFFFF is never stored. *)
Theorem query_spn_tables_valid env a0 w :
  let a := snd (fst (j1939_query_spn_assignments env a0 w)) in
  length (tempSpns a) = 8%nat /\
  length (presSpns a) = 7%nat /\
  Forall (fun spn => 0 <= spn < 0xFFFF) (tempSpns a) /\
  Forall (fun spn => 0 <= spn < 0xFFFF) (presSpns a).
Proof.
  intro a. subst a. unfold j1939_query_spn_assignments.
  set (s0 := (stack_response env (reads w),
              mkSpnAssignments (repeat 0 8) (repeat 0 7))).
  assert (H0 : tables_valid s0).
  { split; (split; [reflexivity |]); repeat constructor; lia. }
  pose proof (for_each_invariant (temp_sub_query env) tables_valid
                (temp_sub_query_valid env) [0; 1; 2] s0 w H0) as H1.
  destruct (for_each (temp_sub_query env) [0; 1; 2] s0 w)
    as [[r1 [resp1 a1] | s1] w1]; cbn [fst snd flow_state] in *.
  - destruct H1 as [[? ?] [? ?]]. auto.
  - pose proof (for_each_invariant (pres_sub_query env) tables_valid
                  (pres_sub_query_valid env) [0; 1; 2] s1 w1 H1) as H2.
    destruct (for_each (pres_sub_query env) [0; 1; 2] s1 w1)
      as [[r2 [resp2 a2] | [resp2 a2]] w2]; cbn [fst snd flow_state] in *;
      destruct H2 as [[? ?] [? ?]]; auto.
Qed.

Lemma pres_sub_query_on_failure env sq response a w r :
  sub_query_fails env 2 sq response w r ->
  exists response',
    pres_sub_query env sq (response, a) w =
    (Return r (response', a), sub_query_end env 2 sq response w).
Proof.
  unfold sub_query_fails, sub_query_end, pres_sub_query.
  destruct (j1939_send_command env CMD_QUERY (Some [2; sq]) 2 w) as [c w0].
  cbn [fst snd].
  intros [[Hc ->] | (Hc & Hr & Hne)].
  - apply Z.ltb_lt in Hc. rewrite Hc. exists response. reflexivity.
  - apply Z.ltb_ge in Hc. rewrite Hc.
    destruct (j1939_check_response env CMD_QUERY (Some response)
                (Some (stack_len env (reads w))) w0)
      as [[[result resp'] len'] w2].
    cbn [fst snd] in *. subst result.
    apply Z.eqb_neq in Hne. rewrite Hne. cbn [negb].
    eexists. reflexivity.
Qed.

Lemma pres_sub_queries_done env : forall done s w s' w',
  for_each (pres_sub_query env) done s w = (Next s', w') ->
  written w' = written w ++ map (query_frame 2) done /\
  tempSpns (snd s') = tempSpns (snd s).
Proof.
  induction done as [| i rest IH]; intros s w s' w' H.
  - injection H as <- <-. rewrite app_nil_r. split; reflexivity.
  - cbn [for_each] in H. unfold bind in H.
    destruct s as [response a].
    pose proof (pres_sub_query_effect env i response a w) as [Hw Hflow].
    destruct (pres_sub_query env i (response, a) w) as [[r0 s0 | s0] w0].
    + discriminate H.
    + apply IH in H. destruct H as [Hw' Hp].
      cbn [fst snd] in *. rewrite Hw', Hw, Hp, Hflow.
      rewrite <- app_assoc. split; reflexivity.
Qed.





(** X11. When the three temperature sub-queries have completed,
    the pressure sub-queries [done] too, and the next pressure sub-query
    [i] fails with code [r], [j1939_query_spn_assignments] returns [r]
    in the world where that sub-query ended; the temperature table is
    the complete one the temperature loop left, the pressure table the
    partial one; the frames written are the three temperature
    sub-queries and the pressure sub-queries [done] and [i]. *)
Theorem query_spn_pres_failure env a0 w s1 w1 done i rest response a w_prev r :
  for_each (temp_sub_query env) [0; 1; 2]
           (stack_response env (reads w),
            mkSpnAssignments (repeat 0 8) (repeat 0 7)) w
    = (Next s1, w1) ->
  [0; 1; 2] = done ++ i :: rest ->
  for_each (pres_sub_query env) done s1 w1 = (Next (response, a), w_prev) ->
  sub_query_fails env 2 i response w_prev r ->
  j1939_query_spn_assignments env a0 w =
    ((r, a), sub_query_end env 2 i response w_prev) /\
  r <> 0 /\
  tempSpns a = tempSpns (snd s1) /\
  written (sub_query_end env 2 i response w_prev) =
    written w ++ map (query_frame 1) [0; 1; 2]
              ++ map (query_frame 2) (done ++ [i]).
Proof.
  intros Htemp Hsplit Hdone Hfail.
  destruct (pres_sub_query_on_failure env i response a w_prev r Hfail)
    as (response' & Hret).
  destruct (temp_sub_queries_done env _ _ _ _ _ Htemp) as [Hw1 _].
  destruct (pres_sub_queries_done env _ _ _ _ _ Hdone) as [Hw Ht].
  pose proof (pres_sub_query_effect env i response a w_prev) as [Hwe Hflow].
  rewrite Hret in Hwe, Hflow. cbn [fst snd] in *.
  destruct Hflow as [Hr _].
  split.
  { unfold j1939_query_spn_assignments. rewrite Htemp, Hsplit.
    rewrite (for_each_app _ _ _ _ _ _ _ Hdone).
    cbn [for_each]. unfold bind. rewrite Hret. reflexivity. }
  split; [exact Hr |]. split; [exact Ht |].
  rewrite Hwe, Hw, Hw1, map_app, <- !app_assoc. reflexivity.
Qed.

Lemma query_spn_pres_failure_witness :
  j1939_query_spn_assignments (answering_env pressure_error_script)
                              (mkSpnAssignments [] []) fresh_world =
  ((5, mkSpnAssignments [175; 110; 0; 0; 0; 0; 0; 441] [100; 0; 94; 0; 0; 0; 0]),
   mkWorld (firstn 5 all_query_frames) 5 250000).
Proof.
  refine (proj1 (query_spn_pres_failure (answering_env pressure_error_script)
                   (mkSpnAssignments [] []) fresh_world
                   ([0xFF; 0xFF; 0x01; 0xB9; 0x12; 0x34],
                    mkSpnAssignments [175; 110; 0; 0; 0; 0; 0; 441]
                                     (repeat 0 7))
                   (mkWorld (firstn 3 all_query_frames) 3 150000)
                   [0] 1 [2]
                   [0x00; 0x64; 0xFF; 0xFF; 0x00; 0x5E]
                   (mkSpnAssignments [175; 110; 0; 0; 0; 0; 0; 441]
                                     [100; 0; 94; 0; 0; 0; 0])
                   (mkWorld (firstn 4 all_query_frames) 4 200000)
                   5 _ _ _ _)).
  - vm_compute. reflexivity.
  - reflexivity.
  - vm_compute. reflexivity.
  - right. split; [vm_compute; discriminate |].
    split; [vm_compute; reflexivity | discriminate].
Defined.

Lemma big_endian_pair (hi lo : Z) :
  is_byte hi -> is_byte lo ->
  u16 (Z.lor (Z.shiftl (u16 hi) 8) lo) = hi * 256 + lo.
Proof.
  unfold is_byte. intros Hhi Hlo.
  rewrite (u16_small hi) by lia.
  rewrite lor_shiftl_add by (change (2 ^ 8) with 256; lia).
  change (2 ^ 8) with 256. apply u16_small. lia.
Qed.

Lemma nth_is_byte (l : list Z) (i : nat) :
  Forall is_byte l -> is_byte (nth i l 0).
Proof.
  intro H. destruct (Nat.lt_ge_cases i (length l)) as [Hlt | Hge].
  - rewrite Forall_forall in H. apply H. apply nth_In. exact Hlt.
  - rewrite nth_overflow by exact Hge. unfold is_byte. lia.
Qed.

Lemma store_spn_length (limit : nat) (sq : Z) (response table : list Z) (i : Z) :
  length table = limit ->
  length (store_spn (Z.of_nat limit) sq response table i) = limit.
Proof.
  intro Hlen. unfold store_spn.
  pose proof (u8_range (sq * 3 + i)) as Hidx.
  destruct (Z.ltb_spec (u8 (sq * 3 + i)) (Z.of_nat limit)); [| exact Hlen].
  destruct (negb _); [| exact Hlen].
  rewrite length_store by lia. exact Hlen.
Qed.

(** One turn of the inner loop, slot by slot. *)
Lemma nth_store_spn (limit : nat) (sq : Z) (response table : list Z)
    (i : nat) (j : nat) :
  length table = limit ->
  Forall is_byte response ->
  0 <= sq * 3 + Z.of_nat i < 256 ->
  nth j (store_spn (Z.of_nat limit) sq response table (Z.of_nat i)) 0 =
  if (Z.of_nat j =? sq * 3 + Z.of_nat i)
     && (sq * 3 + Z.of_nat i <? Z.of_nat limit)
     && negb (spn_of_pair response i =? 0xFFFF)
  then spn_of_pair response i
  else nth j table 0.
Proof.
  intros Hlen Hbytes Hidx. unfold store_spn.
  rewrite (u8_small (sq * 3 + Z.of_nat i)) by exact Hidx.
  replace (Z.to_nat (Z.of_nat i * 2)) with (2 * i)%nat by lia.
  replace (Z.to_nat (Z.of_nat i * 2 + 1)) with (2 * i + 1)%nat by lia.
  rewrite big_endian_pair by (apply nth_is_byte; exact Hbytes).
  fold (spn_of_pair response i).
  destruct (Z.ltb_spec (sq * 3 + Z.of_nat i) (Z.of_nat limit)) as [Hlt | Hge].
  - destruct (spn_of_pair response i =? 0xFFFF); cbn [negb].
    + rewrite andb_false_r. reflexivity.
    + rewrite nth_store by lia. rewrite !andb_true_r.
      destruct (Nat.eqb_spec j (Z.to_nat (sq * 3 + Z.of_nat i)));
        destruct (Z.eqb_spec (Z.of_nat j) (sq * 3 + Z.of_nat i));
        try reflexivity; lia.
  - rewrite andb_false_r. reflexivity.
Qed.

(** X12. What one sub-query stores, slot by slot: for sub-query
    [sq] of 0, 1, 2, the byte pairs 0, 1, 2 of the response, high byte
    first, go to the slots 3 sq, 3 sq + 1, 3 sq + 2 that lie below the
    table's size; a pair 0xFFFF leaves its slot as it was, and every
    other slot is as it was.  So the third pair of temperature
    sub-query 2 and the last two pairs of pressure sub-query 2 are
    dropped. *)
Theorem store_spns_slots (limit sq : nat) (response table : list Z) (j : nat) :
  (sq < 3)%nat ->
  (limit <= 255)%nat ->
  length table = limit ->
  Forall is_byte response ->
  length (store_spns (Z.of_nat limit) (Z.of_nat sq) response table) = limit /\
  nth j (store_spns (Z.of_nat limit) (Z.of_nat sq) response table) 0 =
    slot_after limit sq response table j.
Proof.
  intros Hsq Hlimit Hlen Hbytes. unfold store_spns. cbn [fold_left].
  set (t0 := store_spn (Z.of_nat limit) (Z.of_nat sq) response table 0).
  set (t1 := store_spn (Z.of_nat limit) (Z.of_nat sq) response t0 1).
  assert (Hl0 : length t0 = limit)
    by (apply (store_spn_length limit _ _ _ 0); exact Hlen).
  assert (Hl1 : length t1 = limit)
    by (apply (store_spn_length limit _ _ _ 1); exact Hl0).
  split; [apply (store_spn_length limit _ _ _ 2); exact Hl1 |].
  pose proof (nth_store_spn limit (Z.of_nat sq) response t1 2 j Hl1 Hbytes
                ltac:(lia)) as H2.
  pose proof (nth_store_spn limit (Z.of_nat sq) response t0 1 j Hl0 Hbytes
                ltac:(lia)) as H1.
  pose proof (nth_store_spn limit (Z.of_nat sq) response table 0 j Hlen Hbytes
                ltac:(lia)) as H0.
  change (Z.of_nat 2) with 2 in H2. change (Z.of_nat 1) with 1 in H1.
  change (Z.of_nat 0) with 0 in H0.
  fold t0 in H0. fold t1 in H1.
  rewrite H2, H1, H0. clear H2 H1 H0.
  unfold slot_after.
  destruct (Z.eqb_spec (Z.of_nat j) (Z.of_nat sq * 3 + 2)) as [E2 | N2];
    [ replace (j - 3 * sq)%nat with 2%nat by lia
    | destruct (Z.eqb_spec (Z.of_nat j) (Z.of_nat sq * 3 + 1)) as [E1 | N1];
      [ replace (j - 3 * sq)%nat with 1%nat by lia
      | destruct (Z.eqb_spec (Z.of_nat j) (Z.of_nat sq * 3 + 0)) as [E0 | N0];
        [ replace (j - 3 * sq)%nat with 0%nat by lia | ] ] ];
    cbn [andb];
    destruct (Nat.leb_spec (3 * sq) j); destruct (Nat.ltb_spec j (3 * sq + 3));
    destruct (Nat.ltb_spec j limit); cbn [andb]; try lia;
    repeat match goal with
           | |- context [Z.ltb ?a ?b] => destruct (Z.ltb_spec a b); try lia
           | |- context [Z.eqb (Z.of_nat j) ?b] =>
               destruct (Z.eqb_spec (Z.of_nat j) b); try lia
           end;
    cbn [andb]; try reflexivity;
    repeat match goal with
           | |- context [Z.eqb ?a 0xFFFF] => destruct (Z.eqb a 0xFFFF)
           end;
    reflexivity.
Qed.

Lemma store_spns_slots_witness :
  let table :=
    store_spns 7 2 [0x00; 0x66; 0x12; 0x34; 0x56; 0x78] [100; 0; 94; 0; 0; 0; 0] in
  length table = 7%nat /\ nth 6 table 0 = 0x66.
Proof.
  apply (store_spns_slots 7 2 [0x00; 0x66; 0x12; 0x34; 0x56; 0x78]
           [100; 0; 94; 0; 0; 0; 0] 6); try lia; try reflexivity.
  repeat constructor; unfold is_byte; lia.
Defined.

Lemma query_config_spec env state w :
  j1939_query_config env state w =
  if write_ok env (length (written w)) then
    let r := j1939_check_response env CMD_QUERY
               (Some (stack_response env (reads w)))
               (Some (stack_len env (reads w)))
               (after_send [0x05; 0; 0xFF; 0xFF; 0xFF; 0xFF; 0xFF; 0xFF] w) in
    let result := fst (fst (fst r)) in
    ((result,
      match state, snd (fst (fst r)) with
      | Some st, Some response =>
          if result =? 0 then
            Some (mkConfigState (nth 0 response 0) (nth 1 response 0)
                    (negb (nth 2 response 0 =? 0))
                    (negb (nth 3 response 0 =? 0))
                    (sourceAddress st) (thermocoupleType st))
          else state
      | _, _ => state
      end), snd r)
  else ((-1, state), after_send [0x05; 0; 0xFF; 0xFF; 0xFF; 0xFF; 0xFF; 0xFF] w).
Proof.
  unfold j1939_query_config.
  destruct (send_command_world env CMD_QUERY (Some [0]) 1 w)
    as (payload & Hsend & Hpayload).
  rewrite Hsend.
  assert (Hp : payload = [0x05; 0; 0xFF; 0xFF; 0xFF; 0xFF; 0xFF; 0xFF])
    by (rewrite Hpayload; reflexivity).
  rewrite Hp. unfold after_send.
  destruct (write_ok env (length (written w))).
  - change (0 <? 0) with false. cbv iota zeta.
    destruct (j1939_check_response env CMD_QUERY
                (Some (stack_response env (reads w)))
                (Some (stack_len env (reads w)))
                _) as [[[result response] len] w2].
    cbn [fst snd].
    destruct state as [st |]; [| reflexivity].
    destruct response as [response |]; [| reflexivity].
    destruct (result =? 0); reflexivity.
  - reflexivity.
Qed.

(** X13. When the first accepted response to the query carries
    code 0, [j1939_query_config] returns 0 and fills the two counts and
    the two flags from payload bytes 2, 3, 4 and 5 (a flag is set when
    its byte is not 0).  Whatever happens, the members [sourceAddress]
    and [thermocoupleType] are never written. *)
Theorem query_config_fields env st w :
  (forall k,
      write_ok env (length (written w)) = true ->
      (k < MAX_POLLS)%nat ->
      (forall j, (j < k)%nat -> ~ accepted 0x05 (poll env (reads w) j)) ->
      accepted 0x05 (poll env (reads w) k) ->
      length (f_data (snd (poll env (reads w) k))) = 8%nat ->
      nth 1 (f_data (snd (poll env (reads w) k))) 0 = 0 ->
      length (stack_response env (reads w)) = 6%nat ->
      let d := fun i => nth i (f_data (snd (poll env (reads w) k))) 0 in
      fst (j1939_query_config env (Some st) w) =
      (0, Some (mkConfigState (d 2%nat) (d 3%nat)
                  (negb (d 4%nat =? 0)) (negb (d 5%nat =? 0))
                  (sourceAddress st) (thermocoupleType st)))) /\
  (exists st',
      snd (fst (j1939_query_config env (Some st) w)) = Some st' /\
      sourceAddress st' = sourceAddress st /\
      thermocoupleType st' = thermocoupleType st).
Proof.
  rewrite query_config_spec. split.
  - intros k Hok Hk Hbefore Hacc Hlen Hcode Hbuf d.
    rewrite Hok. cbv zeta.
    rewrite check_response_spec, reads_after_send.
    rewrite (first_match_found _ MAX_POLLS 0 k);
      [| lia | apply acceptedb_spec; exact Hacc
       | intros j Hj; apply acceptedb_false; apply Hbefore; lia].
    cbn [fst snd reply_of]. rewrite Hcode.
    change (u8 0) with 0. change (0 =? 0) with true. cbv iota.
    rewrite six_bytes_from_2 by exact Hlen.
    rewrite memcpy_whole by (exact Hbuf || reflexivity).
    reflexivity.
  - destruct (write_ok env (length (written w))); cbv zeta; cbn [fst snd].
    + destruct (snd (fst (fst (j1939_check_response env CMD_QUERY _ _ _))))
        as [response |].
      * destruct (_ =? 0); eexists; repeat split.
      * eexists; repeat split.
    + eexists; repeat split.
Qed.

Lemma query_config_fields_witness :
  fst (j1939_query_config (scripted_env busy_script) (Some some_config)
         fresh_world)
  = (0, Some (mkConfigState 3 2 true false 0x95 1)).
Proof.
  refine (proj1 (query_config_fields (scripted_env busy_script) some_config
                   fresh_world) 3%nat _ _ _ _ _ _ _).
  - reflexivity.
  - unfold MAX_POLLS. lia.
  - intros j Hj. apply acceptedb_false.
    destruct j as [| [| [| j]]];
      [vm_compute; reflexivity | vm_compute; reflexivity
       | vm_compute; reflexivity | lia].
  - apply acceptedb_spec. vm_compute. reflexivity.
  - vm_compute. reflexivity.
  - vm_compute. reflexivity.
  - reflexivity.
Defined.

(** ** More on the identifier codec and the decoder *)

(** X14. The PGN read back from an identifier that
    [j1939_build_id] made is the 16 low bits of the PGN given, with its
    low byte cleared when the PDU-Format byte is below 240: the two
    data-page bits and, in PDU1, the destination byte do not come back.
    A PDU2 PGN (0xF000 to 0xFFFF) comes back whole.  Source and
    priority come back, and the identifier fits 29 bits. *)
Theorem build_then_extract (pgn priority source : Z) :
  0 <= source < 256 ->
  let id := j1939_build_id pgn priority source in
  j1939_get_pgn id =
    (if (pgn mod 65536) / 256 <? 240 then (pgn mod 65536) / 256 * 256
     else pgn mod 65536) /\
  (0xF000 <= pgn <= 0xFFFF -> j1939_get_pgn id = pgn) /\
  j1939_get_source id = source /\
  id_priority id = priority mod 8 /\
  0 <= id < 2 ^ 29.
Proof.
  intros Hs id. subst id.
  assert (Hpgn : j1939_get_pgn (j1939_build_id pgn priority source) =
                 if (pgn mod 65536) / 256 <? 240
                 then (pgn mod 65536) / 256 * 256
                 else pgn mod 65536).
  { rewrite j1939_get_pgn_eq.
    rewrite pdu_format_build_id, pdu_specific_build_id by exact Hs.
    replace ((pgn / 256) mod 256) with ((pgn mod 65536) / 256)
      by (Z.div_mod_to_equations; lia).
    destruct ((pgn mod 65536) / 256 <? 240); [reflexivity |].
    Z.div_mod_to_equations. lia. }
  split; [exact Hpgn |]. split; [| split; [| split]].
  - intro Hr. rewrite Hpgn. rewrite (Z.mod_small pgn 65536) by lia.
    destruct (Z.ltb_spec (pgn / 256) 240) as [Hlt | Hge]; [| reflexivity].
    exfalso. Z.div_mod_to_equations. lia.
  - apply j1939_get_source_build_id. exact Hs.
  - apply id_priority_build_id. exact Hs.
  - rewrite j1939_build_id_eq by exact Hs.
    pose proof (Z.mod_pos_bound priority 8 eq_refl).
    pose proof (Z.mod_pos_bound pgn 262144 eq_refl).
    change (2 ^ 29) with 536870912. lia.
Qed.

Lemma build_then_extract_witness :
  j1939_get_pgn (j1939_build_id 0x1EF12 14 0x95) = 0xEF00 /\
  j1939_get_pgn (j1939_build_id 0xFF01 6 0x95) = 0xFF01.
Proof.
  destruct (build_then_extract 0x1EF12 14 0x95 ltac:(lia)) as (H1 & _).
  destruct (build_then_extract 0xFF01 6 0x95 ltac:(lia)) as (_ & H2 & _).
  split; [exact H1 | apply H2; lia].
Defined.

Lemma j1939_get_pgn_low24 (id : Z) :
  j1939_get_pgn (id mod 16777216) = j1939_get_pgn id.
Proof.
  rewrite !j1939_get_pgn_eq, !pdu_format_eq, !pdu_specific_eq.
  replace ((id mod 16777216 / 65536) mod 256) with ((id / 65536) mod 256)
    by (Z.div_mod_to_equations; lia).
  replace ((id mod 16777216 / 256) mod 256) with ((id / 256) mod 256)
    by (Z.div_mod_to_equations; lia).
  reflexivity.
Qed.

Lemma j1939_get_source_low24 (id : Z) :
  j1939_get_source (id mod 16777216) = j1939_get_source id.
Proof.
  rewrite !j1939_get_source_eq. Z.div_mod_to_equations. lia.
Qed.

(** X15. [j1939_parse_message] looks at the extended flag, at bits 0
    to 23 of the identifier and at the payload bytes, and at nothing
    else: two frames that agree on those are decoded alike, whatever
    their priority and data-page bits and whatever their length field
    says, a length of 0 included. *)
Theorem parse_ignores_priority_and_length (ts : timespec)
    (f1 f2 : TCanFrame) (data : TSensorData) :
  f_extended f1 = f_extended f2 ->
  f_id f1 mod 2 ^ 24 = f_id f2 mod 2 ^ 24 ->
  f_data f1 = f_data f2 ->
  j1939_parse_message ts f1 data = j1939_parse_message ts f2 data.
Proof.
  intros Hext Hid Hdata. change (2 ^ 24) with 16777216 in Hid.
  unfold j1939_parse_message.
  rewrite <- (j1939_get_pgn_low24 (f_id f1)), <- (j1939_get_source_low24 (f_id f1)).
  rewrite <- (j1939_get_pgn_low24 (f_id f2)), <- (j1939_get_source_low24 (f_id f2)).
  rewrite Hext, Hid, Hdata. reflexivity.
Qed.

Lemma parse_ignores_priority_and_length_witness :
  j1939_parse_message noon
    (mkCanFrame 0x00FEEE95 0 [0x5A; 0x46; 0x20; 0x2E; 0; 0; 0; 0] true)
    initial_sensor_data
  = j1939_parse_message noon
      (mkCanFrame 0x18FEEE95 8 [0x5A; 0x46; 0x20; 0x2E; 0; 0; 0; 0] true)
      initial_sensor_data.
Proof.
  apply parse_ignores_priority_and_length; reflexivity.
Defined.

Ltac switch_case p c :=
  destruct (Z.eqb_spec p c) as [?Heq | ?Hne].

(** [j1939_parse_message], case by case of its [switch]. *)
Lemma parse_cases (ts : timespec) (frame : TCanFrame) (data : TSensorData) :
  (fst (j1939_parse_message ts frame data) = true /\
   from_module frame /\
   In (j1939_get_pgn (f_id frame)) dispatched_pgns /\
   lastUpdateMs (snd (j1939_parse_message ts frame data)) = get_time_ms ts /\
   forall fld, ~ In fld (fields_of_pgn (j1939_get_pgn (f_id frame))) ->
     reading fld (snd (j1939_parse_message ts frame data)) = reading fld data)
  \/
  (j1939_parse_message ts frame data = (false, data) /\
   ~ (from_module frame /\
      In (j1939_get_pgn (f_id frame)) dispatched_pgns)).
Proof.
  unfold from_module, j1939_parse_message, fields_of_pgn.
  destruct (f_extended frame);
    [| right; split; [reflexivity | intros [[H _] _]; discriminate H]].
  change (negb true) with false. cbv iota.
  destruct (Z.eqb_spec (j1939_get_source (f_id frame)) OSSM_SOURCE_ADDRESS)
    as [Hsrc | Hsrc];
    [| right; split; [reflexivity | intros [[_ H] _]; contradiction]].
  cbn [negb]. cbv iota zeta.
  set (p := j1939_get_pgn (f_id frame)).
  change 65164 with PGN_SUPPLY_PRESSURE.
  switch_case p PGN_AMBIENT_CONDITIONS;
    [| switch_case p PGN_INLET_EXHAUST;
       [| switch_case p PGN_ENGINE_TEMP;
          [| switch_case p PGN_ENGINE_FLUID_PRESS;
             [| switch_case p PGN_ENGINE_TEMP_2;
                [| switch_case p PGN_ENGINE_TEMP_3;
                   [| switch_case p PGN_TURBO_PRESS;
                      [| switch_case p PGN_SUPPLY_PRESSURE]]]]]]].
  all: try (left; split; [reflexivity |]; split; [split; [reflexivity | exact Hsrc] |];
            split; [rewrite Heq; unfold dispatched_pgns, named_data_pgns;
                    cbn [app In]; tauto |]).
  all: try (repeat match goal with
                   | |- context [if ?b then _ else _] => destruct b
                   end;
            (split; [reflexivity |]);
            intros fld Hnot; destruct fld; try reflexivity;
            exfalso; apply Hnot; cbn [In]; tauto).
  right. split; [reflexivity |].
  intros [_ Hin]. unfold dispatched_pgns, named_data_pgns in Hin.
  cbn [app In] in Hin.
  repeat (destruct Hin as [Hin | Hin]; [congruence |]). exact Hin.
Qed.

(** X16. [j1939_parse_message] returns true exactly for an extended
    frame from source 0x95 whose PGN is one of the eight of the
    [switch]; it writes no reading other than those of that PGN, for
    any payload; and it sets [lastUpdateMs] to the clock when it
    returns true and leaves it alone when it returns false. *)
Theorem parse_frame_rule (ts : timespec) (frame : TCanFrame)
    (data : TSensorData) :
  let r := j1939_parse_message ts frame data in
  (fst r = true <->
   from_module frame /\ In (j1939_get_pgn (f_id frame)) dispatched_pgns) /\
  (forall fld, ~ In fld (fields_of_pgn (j1939_get_pgn (f_id frame))) ->
     reading fld (snd r) = reading fld data) /\
  lastUpdateMs (snd r) =
    (if fst r then get_time_ms ts else lastUpdateMs data).
Proof.
  intro r. subst r.
  destruct (parse_cases ts frame data)
    as [(Hupd & Hfrom & Hin & Htime & Hkeep) | [Hrej Hnot]].
  - rewrite Hupd. split; [tauto |]. split; [exact Hkeep | exact Htime].
  - rewrite Hrej. cbn [fst snd].
    split; [split; [discriminate | intro H; contradiction] |].
    split; reflexivity.
Qed.

Lemma parse_timestamp (ts : timespec) (frame : TCanFrame) (data : TSensorData) :
  fst (j1939_parse_message ts frame data) = true ->
  lastUpdateMs (snd (j1939_parse_message ts frame data)) = get_time_ms ts.
Proof.
  intro Hupd.
  destruct (parse_cases ts frame data)
    as [(_ & _ & _ & Htime & _) | [Hrej _]]; [exact Htime |].
  rewrite Hrej in Hupd. discriminate Hupd.
Qed.

(** ** Decoded values and their display *)

Lemma f32_same_eq (x y : float32) : f32_same x y = true -> x = y.
Proof.
  destruct x as [s | s | | s m e], y as [s' | s' | | s' m' e'];
    cbn [f32_same]; intro H; try discriminate H; try reflexivity.
  - apply Bool.eqb_prop in H. subst. reflexivity.
  - apply Bool.eqb_prop in H. subst. reflexivity.
  - apply andb_true_iff in H. destruct H as [H He].
    apply andb_true_iff in H. destruct H as [Hs Hm].
    apply Bool.eqb_prop in Hs. apply Pos.eqb_eq in Hm. apply Z.eqb_eq in He.
    subst. reflexivity.
Qed.

Lemma in_all_bytes (b : Z) : 0 <= b < 256 -> In b all_bytes.
Proof.
  intro Hb. unfold all_bytes.
  replace b with (Z.of_nat (Z.to_nat b)) by lia.
  apply in_map. apply in_seq. lia.
Qed.

Lemma in_all_byte_pairs (lo hi : Z) :
  0 <= lo < 256 -> 0 <= hi < 256 -> In (lo, hi) all_byte_pairs.
Proof.
  intros Hlo Hhi. unfold all_byte_pairs. apply in_flat_map.
  exists hi. split; [apply in_all_bytes; exact Hhi |].
  apply (in_map (fun lo => (lo, hi))). apply in_all_bytes. exact Hlo.
Qed.

Lemma for_all_bytes (P : Z -> bool) :
  forallb P all_bytes = true -> forall b, 0 <= b < 256 -> P b = true.
Proof.
  intros H b Hb. rewrite forallb_forall in H. apply H.
  apply in_all_bytes. exact Hb.
Qed.

Lemma for_all_byte_pairs (P : Z * Z -> bool) :
  forallb P all_byte_pairs = true ->
  forall lo hi, 0 <= lo < 256 -> 0 <= hi < 256 -> P (lo, hi) = true.
Proof.
  intros H lo hi Hlo Hhi. rewrite forallb_forall in H. apply H.
  apply in_all_byte_pairs; assumption.
Qed.

(** X17. The four byte decoders that scale by a power of two or
    shift by 40 lose nothing to rounding: for a raw byte other than
    0xFF the decoded binary32 value is exactly raw - 40 (temperature),
    2 raw, 4 raw (pressures) and raw / 2 (barometric pressure). *)
Theorem byte_decoders_exact (b : Z) :
  0 <= b < 255 ->
  decode_temp_byte b = f32_of_Z (b - 40) /\
  decode_pressure_2kpa b = f32_of_Z (2 * b) /\
  decode_pressure_4kpa b = f32_of_Z (4 * b) /\
  decode_baro_pressure b = f32_lit b (-1).
Proof.
  intro Hb.
  assert (Hall : forallb (fun b =>
                   (b =? 0xFF)
                   || (f32_same (decode_temp_byte b) (f32_of_Z (b - 40))
                       && f32_same (decode_pressure_2kpa b) (f32_of_Z (2 * b))
                       && f32_same (decode_pressure_4kpa b) (f32_of_Z (4 * b))
                       && f32_same (decode_baro_pressure b) (f32_lit b (-1))))
                 all_bytes = true)
    by (vm_compute; reflexivity).
  pose proof (for_all_bytes _ Hall b ltac:(lia)) as H.
  cbv beta in H.
  destruct (Z.eqb_spec b 0xFF) as [-> | _]; [lia |].
  cbn [orb] in H.
  apply andb_true_iff in H. destruct H as [H H4].
  apply andb_true_iff in H. destruct H as [H H3].
  apply andb_true_iff in H. destruct H as [H1 H2].
  repeat split; apply f32_same_eq; assumption.
Qed.

Lemma byte_decoders_exact_witness :
  decode_temp_byte 0 = f32_of_Z (-40) /\
  decode_pressure_2kpa 0 = f32_of_Z 0 /\
  decode_pressure_4kpa 0 = f32_of_Z 0 /\
  decode_baro_pressure 0 = f32_lit 0 (-1).
Proof. apply (byte_decoders_exact 0). lia. Defined.

(** X18. The 16-bit temperature, low byte first, is decoded
    without rounding error too: unless both bytes are 0xFF the result
    is exactly (256 high + low) / 32 - 273, from -273 up to
    1774.96875. *)
Theorem wide_temperature_exact (low high : Z) :
  0 <= low < 256 ->
  0 <= high < 256 ->
  ~ (low = 0xFF /\ high = 0xFF) ->
  decode_temp_16bit_le low high = f32_lit (256 * high + low - 8736) (-5).
Proof.
  intros Hlo Hhi Hnot.
  assert (Hall : forallb (fun p : Z * Z =>
                   let (lo, hi) := p in
                   ((hi =? 0xFF) && (lo =? 0xFF))
                   || f32_same (decode_temp_16bit_le lo hi)
                               (f32_lit (256 * hi + lo - 8736) (-5)))
                 all_byte_pairs = true)
    by (vm_compute; reflexivity).
  pose proof (for_all_byte_pairs _ Hall low high Hlo Hhi) as H.
  cbv beta iota in H.
  destruct (Z.eqb_spec high 0xFF) as [Eh | _];
    [destruct (Z.eqb_spec low 0xFF) as [El | _]; [tauto |] |];
    cbn [andb orb] in H; apply f32_same_eq; exact H.
Qed.

Lemma wide_temperature_exact_witness :
  decode_temp_16bit_le 0x20 0x2E = f32_lit 3072 (-5).
Proof. apply (wide_temperature_exact 0x20 0x2E); lia. Defined.

Lemma print_value_na (value : float32) (stale : bool) :
  print_value value stale = CellNA <->
  SFltb value (f32_neg f32_900) = true.
Proof.
  unfold print_value. destruct (SFltb value (f32_neg f32_900)); split;
    intro H; try reflexivity; discriminate H.
Qed.

(** X19. [print_value] shows "N/A" for a decoded reading exactly
    when the raw value was the "not available" marker: 0xFF for the five
    byte decoders, 0xFF 0xFF for the 16-bit temperature.  No raw value
    that is available decodes to something below the -900 threshold. *)
Theorem display_na_iff_marker (b low high : Z) (stale : bool) :
  0 <= b < 256 ->
  0 <= low < 256 ->
  0 <= high < 256 ->
  (print_value (decode_temp_byte b) stale = CellNA <-> b = 0xFF) /\
  (print_value (decode_pressure_2kpa b) stale = CellNA <-> b = 0xFF) /\
  (print_value (decode_pressure_4kpa b) stale = CellNA <-> b = 0xFF) /\
  (print_value (decode_baro_pressure b) stale = CellNA <-> b = 0xFF) /\
  (print_value (decode_humidity b) stale = CellNA <-> b = 0xFF) /\
  (print_value (decode_temp_16bit_le low high) stale = CellNA <->
   low = 0xFF /\ high = 0xFF).
Proof.
  intros Hb Hlo Hhi.
  assert (Hbytes : forallb (fun b =>
                     let na := fun v => SFltb v (f32_neg f32_900) in
                     Bool.eqb (na (decode_temp_byte b)) (b =? 0xFF)
                     && Bool.eqb (na (decode_pressure_2kpa b)) (b =? 0xFF)
                     && Bool.eqb (na (decode_pressure_4kpa b)) (b =? 0xFF)
                     && Bool.eqb (na (decode_baro_pressure b)) (b =? 0xFF)
                     && Bool.eqb (na (decode_humidity b)) (b =? 0xFF))
                   all_bytes = true)
    by (vm_compute; reflexivity).
  assert (Hpairs : forallb (fun p : Z * Z =>
                     let (lo, hi) := p in
                     Bool.eqb (SFltb (decode_temp_16bit_le lo hi)
                                     (f32_neg f32_900))
                              ((lo =? 0xFF) && (hi =? 0xFF)))
                   all_byte_pairs = true)
    by (vm_compute; reflexivity).
  pose proof (for_all_bytes _ Hbytes b Hb) as H.
  pose proof (for_all_byte_pairs _ Hpairs low high Hlo Hhi) as Hp.
  cbv beta iota zeta in H, Hp.
  apply andb_true_iff in H. destruct H as [H H5].
  apply andb_true_iff in H. destruct H as [H H4].
  apply andb_true_iff in H. destruct H as [H H3].
  apply andb_true_iff in H. destruct H as [H1 H2].
  apply Bool.eqb_prop in H1, H2, H3, H4, H5, Hp.
  rewrite !print_value_na, H1, H2, H3, H4, H5, Hp.
  rewrite andb_true_iff, !Z.eqb_eq. tauto.
Qed.

Lemma display_na_iff_marker_witness :
  print_value (decode_temp_byte 0) false <> CellNA /\
  print_value (decode_temp_16bit_le 0 0) false <> CellNA /\
  print_value (decode_humidity 0xFF) true = CellNA.
Proof.
  destruct (display_na_iff_marker 0 0 0 false) as (H1 & _ & _ & _ & _ & H6);
    try lia.
  destruct (display_na_iff_marker 0xFF 0 0 true) as (_ & _ & _ & _ & H5 & _);
    try lia.
  split; [intro H; apply H1 in H; discriminate H |].
  split; [intro H; apply H6 in H; destruct H as [H _]; discriminate H |].
  apply H5. reflexivity.
Defined.

(** X20. After a frame that was decoded at clock reading [ts1], the
    flag [stale] that [ui_update_sensors] computes at a later reading
    [ts2] is set exactly when more than 2000 ms have gone by, as long as
    less than 2^32 ms have: the [uint32_t] subtraction gives the true
    difference even when the millisecond counter has wrapped in
    between. *)
Theorem stale_after_update (ts1 ts2 : timespec) (frame : TCanFrame)
    (data : TSensorData) :
  fst (j1939_parse_message ts1 frame data) = true ->
  0 <= clock_ms ts2 - clock_ms ts1 < 2 ^ 32 ->
  sensors_stale ts2 (snd (j1939_parse_message ts1 frame data)) =
  (2000 <? clock_ms ts2 - clock_ms ts1).
Proof.
  intros Hupd Hdiff. unfold sensors_stale.
  rewrite (parse_timestamp ts1 frame data Hupd).
  unfold get_time_ms. fold (clock_ms ts1). fold (clock_ms ts2).
  f_equal. unfold u32, wrap.
  rewrite <- Zminus_mod. apply Z.mod_small. exact Hdiff.
Qed.

Lemma stale_after_update_witness :
  sensors_stale (mkTimespec 4294968 200000000)
    (snd (j1939_parse_message (mkTimespec 4294967 0)
            (frame_of PGN_ENGINE_TEMP_2 all_FF) initial_sensor_data))
  = false.
Proof.
  apply (stale_after_update (mkTimespec 4294967 0)
           (mkTimespec 4294968 200000000) (frame_of PGN_ENGINE_TEMP_2 all_FF)
           initial_sensor_data).
  - vm_compute. reflexivity.
  - vm_compute. split; [discriminate | reflexivity].
Defined.

(** ** The registry and the dialogs *)

(** X21. [ui_get_spn_name] has a name other than "Unknown" for
    exactly the twenty SPNs of the registry [KNOWN_SPNS] of [types.h]:
    the [switch] of [ui.c] and the table agree on which SPNs exist (the
    terminator entry, SPN 0, is not one of them), and no SPN is listed
    twice. *)
Theorem spn_named_iff_known (spn : Z) :
  (ui_get_spn_name spn <> "Unknown"%string <-> In spn known_spn_numbers) /\
  NoDup known_spn_numbers /\
  KNOWN_SPN_COUNT = 20%nat.
Proof.
  split; [| split; [| reflexivity]].
  - split.
    + intro Hname. unfold ui_get_spn_name in Hname.
      repeat match type of Hname with
             | context [if ?x =? ?c then _ else _] =>
                 let Heq := fresh "Heq" in
                 destruct (Z.eqb_spec x c) as [Heq | _];
                 [rewrite Heq; vm_compute; tauto |]
             end.
      exfalso. apply Hname. reflexivity.
    + intro Hin. vm_compute in Hin.
      repeat (destruct Hin as [<- | Hin]; [discriminate |]).
      contradiction.
  - vm_compute.
    repeat (constructor;
            [ let H := fresh in
              intro H; cbn [In] in H;
              repeat (destruct H as [H | H]; [discriminate H |]); exact H
            | ]).
    constructor.
Qed.

(** A property the steps of a dialog keep holds of what it returns. *)
Lemma run_dialog_invariant {St R : Type} (step : Z -> St -> Step St R)
    (inv : St -> Prop) (Q : R -> Prop) :
  (forall ch s, inv s -> step_keeps inv Q (step ch s)) ->
  forall keys s r,
    inv s -> run_dialog step keys s = Some (Some r) -> Q r.
Proof.
  intro Hstep. induction keys as [| ch rest IH]; intros s r Hinv Hrun.
  - discriminate Hrun.
  - cbn [run_dialog] in Hrun. specialize (Hstep ch s Hinv).
    destruct (step ch s) as [s' | [r' |]]; cbn [step_keeps] in Hstep.
    + apply (IH s' r Hstep Hrun).
    + injection Hrun as <-. exact Hstep.
    + discriminate Hrun.
Qed.

(** Walk down the [switch] of a dialog, one [case] at a time, and turn
    the tests passed on the way into arithmetic. *)
Ltac dialog_keys :=
  repeat match goal with
         | |- step_keeps _ _ (if ?c then _ else _) =>
             let E := fresh "Hkey" in destruct c eqn:E
         end;
  cbn [step_keeps];
  repeat match goal with
         | H : _ = true |- _ =>
             first [ apply andb_true_iff in H; destruct H
                   | apply Z.eqb_eq in H
                   | apply Z.ltb_lt in H
                   | clear H ]
         | H : _ = false |- _ =>
             first [ apply Z.eqb_neq in H
                   | apply Z.ltb_ge in H
                   | apply andb_false_iff in H; destruct H
                   | clear H ]
         end.

Ltac small_index sel :=
  let H := fresh "Hsel" in
  assert (H : sel = 0 \/ sel = 1 \/ sel = 2 \/ sel = 3 \/ sel = 4 \/
              sel = 5 \/ sel = 6 \/ sel = 7) by lia;
  repeat (destruct H as [H | H];
          [subst sel; first [lia | vm_compute; tauto] |]);
  subst sel; first [lia | vm_compute; tauto].

(** Each key keeps the selection of [ui_dialog_enable_spn] inside the
    array of its category. *)
Lemma enable_spn_key_ok (ch : Z) (s : EnableDialog) :
  enable_dialog_ok s ->
  step_keeps enable_dialog_ok enable_result_ok (enable_spn_key ch s).
Proof.
  destruct s as [sel cat input enable].
  unfold enable_dialog_ok, enable_spn_key.
  cbn [ed_selection ed_category ed_input ed_enable].
  intros (Hcat & Hinput & Hsel & Htemp & Hpres).
  dialog_keys;
    cbn [ed_selection ed_category ed_input ed_enable];
    try exact I; try lia.
  unfold enable_result_ok.
  destruct (Z.eqb_spec cat 0) as [Hc0 | Hc0];
    [| destruct (Z.eqb_spec cat 1) as [Hc1 | Hc1];
       [| destruct (Z.eqb_spec cat 2) as [Hc2 | Hc2]]];
    (split; [| split; [| exact Hinput]]);
    try (vm_compute; tauto);
    small_index sel.
Qed.

Lemma pressure_preset_key_ok (ch : Z) (s : PresetDialog) :
  preset_dialog_ok s ->
  step_keeps preset_dialog_ok preset_result_ok (pressure_preset_key ch s).
Proof.
  destruct s as [cat sel input].
  unfold preset_dialog_ok, pressure_preset_key.
  cbn [pd_category pd_selection pd_input].
  intros (Hcat & Hinput & Hsel & Hbar & Hpsi).
  dialog_keys;
    cbn [pd_category pd_selection pd_input];
    try exact I; try lia.
  unfold preset_result_ok. cbn [fst snd].
  destruct (Z.eqb_spec cat 0); lia.
Qed.

Lemma ntc_preset_key_ok (ch : Z) (s : Z * Z) :
  ntc_dialog_ok s ->
  step_keeps ntc_dialog_ok ntc_dialog_ok (ntc_preset_key ch s).
Proof.
  destruct s as [input preset]. unfold ntc_dialog_ok, ntc_preset_key.
  cbn [fst snd]. intros [Hinput Hpreset].
  dialog_keys; cbn [fst snd]; try exact I; lia.
Qed.

Lemma tc_type_key_ok (ch : Z) (type : Z) :
  tc_dialog_ok type ->
  step_keeps tc_dialog_ok tc_dialog_ok (tc_type_key ch type).
Proof.
  unfold tc_dialog_ok, tc_type_key. intro Htype.
  dialog_keys; try exact I; lia.
Qed.

(** X22. Whatever keys are typed, when [ui_dialog_enable_spn]
    returns 1 the SPN it hands back is one of the seventeen the dialog
    offers, each of them an SPN of the registry [KNOWN_SPNS], and the
    input is between 1 and 8; the selection never leaves the array of
    its category.  The input may be above 4 for a pressure SPN: the
    limit of 4 applies to [+] only while the pressure category is
    shown. *)
Theorem enable_dialog_result (keys : list Z) (spn input : Z) (enable : bool) :
  ui_dialog_enable_spn keys = Some (Some (spn, input, enable)) ->
  In spn offered_spns /\ In spn known_spn_numbers /\ 1 <= input <= 8.
Proof.
  intro Hrun.
  apply (run_dialog_invariant enable_spn_key enable_dialog_ok
           enable_result_ok enable_spn_key_ok keys
           (mkEnableDialog 0 0 1 true) (spn, input, enable));
    [| exact Hrun].
  unfold enable_dialog_ok. cbn. lia.
Qed.

Lemma enable_dialog_result_witness :
  ui_dialog_enable_spn
    [43; 43; 43; 43; 43; 43; 43; KEY_RIGHT; KEY_DOWN; 100; 10]
  = Some (Some (109, 8, false)) /\
  In 109 offered_spns /\ In 109 known_spn_numbers /\ 1 <= 8 <= 8.
Proof.
  split; [vm_compute; reflexivity |].
  apply (enable_dialog_result
           [43; 43; 43; 43; 43; 43; 43; KEY_RIGHT; KEY_DOWN; 100; 10]
           109 8 false).
  vm_compute. reflexivity.
Defined.

(** X23. Whatever keys are typed, when
    [ui_dialog_pressure_preset] returns 1 the input is between 1 and 4
    and the preset is 0 to 12 (the bar list) or 20 to 30 (the PSI list),
    so a value of [EPressurePreset]. *)
Theorem pressure_dialog_result (keys : list Z) (input preset : Z) :
  ui_dialog_pressure_preset keys = Some (Some (input, preset)) ->
  1 <= input <= 4 /\
  (0 <= preset <= 12 \/ 20 <= preset <= 30) /\
  is_pressure_preset preset.
Proof.
  intro Hrun.
  assert (H : preset_result_ok (input, preset)).
  { apply (run_dialog_invariant pressure_preset_key preset_dialog_ok
             preset_result_ok pressure_preset_key_ok keys
             (mkPresetDialog 0 0 1) (input, preset));
      [| exact Hrun].
    unfold preset_dialog_ok. cbn. lia. }
  unfold preset_result_ok in H. cbn [fst snd] in H.
  unfold is_pressure_preset. lia.
Qed.

Lemma pressure_dialog_result_witness :
  ui_dialog_pressure_preset [KEY_LEFT; KEY_DOWN; KEY_DOWN; 43; 10]
  = Some (Some (2, 22)) /\
  1 <= 2 <= 4 /\ (0 <= 22 <= 12 \/ 20 <= 22 <= 30) /\ is_pressure_preset 22.
Proof.
  split; [vm_compute; reflexivity |].
  apply (pressure_dialog_result [KEY_LEFT; KEY_DOWN; KEY_DOWN; 43; 10] 2 22).
  vm_compute. reflexivity.
Defined.

(** X24. Whatever keys are typed, when [ui_dialog_ntc_preset]
    returns 1 the input is between 1 and 8 and the preset is one of
    the three of [ENtcPreset], 0 to 2. *)
Theorem ntc_dialog_result (keys : list Z) (input preset : Z) :
  ui_dialog_ntc_preset keys = Some (Some (input, preset)) ->
  1 <= input <= 8 /\ 0 <= preset <= 2.
Proof.
  intro Hrun.
  apply (run_dialog_invariant ntc_preset_key ntc_dialog_ok ntc_dialog_ok
           ntc_preset_key_ok keys (1, 0) (input, preset));
    [| exact Hrun].
  unfold ntc_dialog_ok. cbn. lia.
Qed.

Lemma ntc_dialog_result_witness :
  ui_dialog_ntc_preset [KEY_RIGHT; KEY_RIGHT; KEY_RIGHT; 45; 61; 10]
  = Some (Some (2, 2)) /\
  1 <= 2 <= 8 /\ 0 <= 2 <= 2.
Proof.
  split; [vm_compute; reflexivity |].
  apply (ntc_dialog_result [KEY_RIGHT; KEY_RIGHT; KEY_RIGHT; 45; 61; 10] 2 2).
  vm_compute. reflexivity.
Defined.

(** X25. Whatever keys are typed, when [ui_dialog_tc_type]
    returns 1 the type is an index of the eight thermocouple types, 0
    to 7. *)
Theorem tc_dialog_result (keys : list Z) (type : Z) :
  ui_dialog_tc_type keys = Some (Some type) -> 0 <= type <= 7.
Proof.
  intro Hrun.
  apply (run_dialog_invariant tc_type_key tc_dialog_ok tc_dialog_ok
           tc_type_key_ok keys 3 type);
    [| exact Hrun].
  unfold tc_dialog_ok. lia.
Qed.

Lemma tc_dialog_result_witness :
  ui_dialog_tc_type
    [KEY_DOWN; KEY_DOWN; KEY_DOWN; KEY_DOWN; KEY_DOWN; KEY_DOWN; 10]
  = Some (Some 7) /\ 0 <= 7 <= 7.
Proof.
  split; [vm_compute; reflexivity |].
  apply (tc_dialog_result
           [KEY_DOWN; KEY_DOWN; KEY_DOWN; KEY_DOWN; KEY_DOWN; KEY_DOWN; 10] 7).
  vm_compute. reflexivity.
Defined.

(** ** The loop of [main], the confirmation and the SPN list *)

Lemma telemetry_spec (ts : timespec) (r : ReadOutcome) (buffer : TCanFrame) :
  match telemetry (ts, r, buffer) with
  | Some pgn =>
      (0 <? fst (receive_into r buffer)) = true /\
      pgn = j1939_get_pgn (f_id (snd (receive_into r buffer))) /\
      from_module (snd (receive_into r buffer)) /\
      In pgn dispatched_pgns
  | None =>
      (0 <? fst (receive_into r buffer)) = false \/
      ~ (from_module (snd (receive_into r buffer)) /\
         In (j1939_get_pgn (f_id (snd (receive_into r buffer))))
            dispatched_pgns)
  end.
Proof.
  unfold telemetry.
  destruct r as [cf | | |]; try (left; reflexivity).
  set (frame := snd (receive_into (ReadFrame cf) buffer)).
  destruct (f_extended frame) eqn:Hext; cbn [andb].
  - destruct (Z.eqb_spec (j1939_get_source (f_id frame)) OSSM_SOURCE_ADDRESS)
      as [Hsrc | Hsrc]; cbn [andb].
    + destruct (existsb (Z.eqb (j1939_get_pgn (f_id frame))) dispatched_pgns)
        eqn:Hpgn.
      * apply existsb_exists in Hpgn. destruct Hpgn as (p & Hin & Heq).
        apply Z.eqb_eq in Heq. rewrite <- Heq in Hin.
        repeat split; try assumption.
      * right. intros [_ Hin].
        assert (Hex : existsb (Z.eqb (j1939_get_pgn (f_id frame)))
                        dispatched_pgns = true).
        { apply existsb_exists. exists (j1939_get_pgn (f_id frame)).
          split; [exact Hin | apply Z.eqb_refl]. }
        rewrite Hex in Hpgn. discriminate Hpgn.
    + right. intros [[_ H] _]. contradiction.
  - right. intros [[H _] _]. rewrite Hext in H. discriminate H.
Qed.

(** One pass of the loop: a telemetry frame counts, sets [connected] and
    writes the readings of its PGN only; anything else leaves the
    readings and the count alone. *)
Lemma main_receive_spec (s : LoopState) (e : LoopEvent) :
  match telemetry e with
  | Some pgn =>
      message_count (main_receive s e) = message_count s + 1 /\
      connected (main_receive s e) = true /\
      forall fld, ~ In fld (fields_of_pgn pgn) ->
        reading fld (sensor_data (main_receive s e)) =
        reading fld (sensor_data s)
  | None =>
      message_count (main_receive s e) = message_count s /\
      sensor_data (main_receive s e) = sensor_data s /\
      (connected (main_receive s e) = true -> connected s = true)
  end.
Proof.
  destruct e as [[ts r] buffer].
  pose proof (telemetry_spec ts r buffer) as Hspec.
  unfold main_receive.
  destruct (receive_into r buffer) as [result frame] eqn:Hrecv.
  cbn [fst snd] in Hspec.
  destruct (telemetry (ts, r, buffer)) as [pgn |].
  - destruct Hspec as (Hres & -> & Hfrom & Hin). rewrite Hres.
    destruct (parse_cases ts frame (sensor_data s))
      as [(Hupd & _ & _ & _ & Hkeep) | [_ Hnot]];
      [| exfalso; apply Hnot; split; assumption].
    destruct (j1939_parse_message ts frame (sensor_data s)) as [updated data].
    cbn [fst snd] in Hupd, Hkeep. subst updated.
    cbn [message_count connected sensor_data].
    split; [reflexivity |]. split; [reflexivity | exact Hkeep].
  - destruct (0 <? result) eqn:Hres.
    + destruct Hspec as [Hspec | Hnot]; [discriminate Hspec |].
      destruct (parse_cases ts frame (sensor_data s))
        as [(_ & Hfrom & Hin & _) | [Hrej _]];
        [exfalso; apply Hnot; split; assumption |].
      rewrite Hrej. cbn [message_count connected sensor_data]. tauto.
    + destruct (result <? 0); cbn [message_count connected sensor_data].
      * split; [reflexivity |]. split; [reflexivity | discriminate].
      * tauto.
Qed.

Lemma main_loop_from (events : list LoopEvent) (s : LoopState) :
  let s' := fold_left main_receive events s in
  message_count s' =
    message_count s + Z.of_nat (length (filter is_telemetry events)) /\
  (forall fld,
      (forall e pgn, In e events -> telemetry e = Some pgn ->
                     ~ In fld (fields_of_pgn pgn)) ->
      reading fld (sensor_data s') = reading fld (sensor_data s)) /\
  (connected s' = true ->
   connected s = true \/ exists e, In e events /\ is_telemetry e = true).
Proof.
  revert s. induction events as [| e rest IH]; intro s; cbn [fold_left].
  - cbn. split; [lia |]. split; [reflexivity | tauto].
  - destruct (IH (main_receive s e)) as (Hcount & Hkeep & Hconn).
    pose proof (main_receive_spec s e) as Hstep.
    cbn [filter]. unfold is_telemetry at 1.
    destruct (telemetry e) as [pgn |] eqn:Htel.
    + destruct Hstep as (Hc & _ & Hk).
      split; [rewrite Hcount, Hc; cbn [length]; lia |].
      split.
      * intros fld Hnone. rewrite Hkeep.
        -- apply Hk. apply (Hnone e pgn); [left; reflexivity | exact Htel].
        -- intros e' pgn' Hin. apply Hnone. right. exact Hin.
      * intros _. right. exists e. split; [left; reflexivity |].
        unfold is_telemetry. rewrite Htel. reflexivity.
    + destruct Hstep as (Hc & Hd & Hcn).
      split; [rewrite Hcount, Hc; reflexivity |].
      split.
      * intros fld Hnone. rewrite Hkeep.
        -- rewrite Hd. reflexivity.
        -- intros e' pgn' Hin. apply Hnone. right. exact Hin.
      * intro Hc'. destruct (Hconn Hc') as [Hs | (e' & Hin & He')].
        -- left. apply Hcn. exact Hs.
        -- right. exists e'. split; [right; exact Hin | exact He'].
Qed.

Lemma filter_length_le {A : Type} (f : A -> bool) (l : list A) :
  (length (filter f l) <= length l)%nat.
Proof.
  induction l as [| x l IH]; cbn [filter length]; [lia |].
  destruct (f x); cbn [length]; lia.
Qed.

(** X26. Through any run of the receive step of [main] that is short
    enough for the [int] counter, [message_count] is the number of
    telemetry frames read (extended, from source 0x95, with one of the
    eight PGNs); a reading is still shown as "N/A" as long as no such
    frame of a PGN that carries it has come; and [connected] is only set
    once one has come. *)
Theorem main_loop_readings (events : list LoopEvent) (fld : SensorField)
    (stale : bool) :
  Z.of_nat (length events) < 2 ^ 31 ->
  let s := main_loop events in
  message_count s = Z.of_nat (length (filter is_telemetry events)) /\
  0 <= message_count s < 2 ^ 31 /\
  ((forall e pgn, In e events -> telemetry e = Some pgn ->
                  ~ In fld (fields_of_pgn pgn)) ->
   print_value (reading fld (sensor_data s)) stale = CellNA) /\
  (connected s = true -> exists e, In e events /\ is_telemetry e = true).
Proof.
  intros Hlen s. subst s. unfold main_loop.
  destruct (main_loop_from events initial_loop_state) as (Hcount & Hkeep & Hconn).
  cbn [message_count initial_loop_state] in Hcount.
  pose proof (filter_length_le is_telemetry events) as Hle.
  split; [rewrite Hcount; lia |].
  split; [rewrite Hcount; lia |].
  split.
  - intro Hnone. rewrite (Hkeep fld Hnone).
    cbn [sensor_data initial_loop_state].
    destruct fld; vm_compute; reflexivity.
  - intro Hc. destruct (Hconn Hc) as [Hinit | Hex]; [discriminate Hinit | exact Hex].
Qed.

Lemma main_loop_readings_witness :
  message_count (main_loop sample_events) = 1 /\
  print_value (reading F_humidity (sensor_data (main_loop sample_events)))
    false = CellNA /\
  print_value
    (reading F_coolantTemperatureC (sensor_data (main_loop sample_events)))
    false <> CellNA /\
  connected (main_loop sample_events) = false.
Proof.
  assert (Hlen : Z.of_nat (length sample_events) < 2 ^ 31)
    by (vm_compute; reflexivity).
  destruct (main_loop_readings sample_events F_humidity false Hlen)
    as (Hcount & _ & Hna & _).
  split; [rewrite Hcount; vm_compute; reflexivity |].
  split.
  - apply Hna. intros e pgn Hin Htel.
    unfold sample_events in Hin. cbn [In] in Hin.
    destruct Hin as [<- | [<- | [<- | []]]]; vm_compute in Htel;
      try discriminate Htel.
    injection Htel as <-. vm_compute. intros [H | [H | [H | []]]]; discriminate H.
  - split; [vm_compute; discriminate | vm_compute; reflexivity].
Defined.

Lemma confirm_from (keys : list Z) (selected : Z) :
  selected = 0 \/ selected = 1 ->
  (run_dialog confirm_key keys selected = Some (Some tt) <->
   exists before ch rest,
     keys = before ++ ch :: rest /\
     Forall stays_open before /\
     is_enter ch = true /\
     Nat.even (toggles before) = (selected =? 0)).
Proof.
  revert selected.
  induction keys as [| k rest IH]; intros selected Hsel.
  - split; [discriminate |].
    intros (before & ch & rest' & Hk & _).
    destruct before; discriminate Hk.
  - cbn [run_dialog]. unfold confirm_key.
    fold (is_toggle k). fold (is_enter k).
    destruct (is_toggle k) eqn:Htog.
    + assert (Hopen : stays_open k).
      { unfold stays_open, is_enter. unfold is_toggle in Htog.
        unfold KEY_LEFT, KEY_RIGHT in Htog.
        destruct (Z.eqb_spec k 10); [subst k; discriminate Htog |].
        destruct (Z.eqb_spec k 32); [subst k; discriminate Htog |].
        split; [reflexivity |]. intros ->. discriminate Htog. }
      rewrite (IH (1 - selected)) by lia.
      split.
      * intros (before & ch & rest' & -> & Hall & Hent & Hpar).
        exists (k :: before), ch, rest'.
        split; [reflexivity |]. split; [constructor; assumption |].
        split; [exact Hent |].
        unfold toggles in *. cbn [filter]. rewrite Htog. cbn [length].
        rewrite Nat.even_succ, <- Nat.negb_even, Hpar.
        destruct Hsel as [-> | ->]; reflexivity.
      * intros (before & ch & rest' & Hk & Hall & Hent & Hpar).
        destruct before as [| b before].
        -- cbn [app] in Hk. injection Hk as -> ->.
           destruct Hopen as [Hopen _]. rewrite Hopen in Hent. discriminate Hent.
        -- cbn [app] in Hk. injection Hk as <- ->.
           exists before, ch, rest'.
           split; [reflexivity |].
           split; [inversion Hall; assumption |].
           split; [exact Hent |].
           unfold toggles in *. cbn [filter] in Hpar. rewrite Htog in Hpar.
           cbn [length] in Hpar.
           rewrite Nat.even_succ, <- Nat.negb_even in Hpar.
           destruct (Nat.even (length (filter is_toggle before)));
             destruct Hsel as [-> | ->]; cbn in Hpar |- *; congruence.
    + destruct (is_enter k) eqn:Hent.
      * split.
        -- intro Hrun. exists [], k, rest.
           split; [reflexivity |]. split; [constructor |].
           split; [exact Hent |].
           destruct Hsel as [-> | ->]; [reflexivity | discriminate Hrun].
        -- intros (before & ch & rest' & Hk & Hall & _ & Hpar).
           destruct before as [| b before].
           ++ cbn in Hpar. rewrite <- Hpar. reflexivity.
           ++ cbn [app] in Hk. injection Hk as <- ->.
              inversion Hall as [| ? ? [Hopen _] _].
              rewrite Hopen in Hent. discriminate Hent.
      * destruct (Z.eqb_spec k 27) as [-> | Hesc].
        -- split; [discriminate |].
           intros (before & ch & rest' & Hk & Hall & Hent' & _).
           destruct before as [| b before].
           ++ cbn [app] in Hk. injection Hk as <- _. discriminate Hent'.
           ++ cbn [app] in Hk. injection Hk as <- ->.
              inversion Hall as [| ? ? [_ Hne] _]. contradiction.
        -- rewrite (IH selected Hsel).
           split.
           ++ intros (before & ch & rest' & -> & Hall & Hent' & Hpar).
              exists (k :: before), ch, rest'.
              split; [reflexivity |].
              split; [constructor; [split; assumption | assumption] |].
              split; [exact Hent' |].
              unfold toggles in *. cbn [filter]. rewrite Htog. exact Hpar.
           ++ intros (before & ch & rest' & Hk & Hall & Hent' & Hpar).
              destruct before as [| b before].
              ** cbn [app] in Hk. injection Hk as -> ->.
                 rewrite Hent in Hent'. discriminate Hent'.
              ** cbn [app] in Hk. injection Hk as <- ->.
                 exists before, ch, rest'.
                 split; [reflexivity |].
                 split; [inversion Hall; assumption |].
                 split; [exact Hent' |].
                 unfold toggles in *. cbn [filter] in Hpar.
                 rewrite Htog in Hpar. exact Hpar.
Qed.

(** X27. [ui_dialog_confirm] returns 1 exactly when Enter or space
    is the first key that closes the dialog and the selection keys
    (left, right, tab) pressed before it are even in number, none
    included: Yes is selected to begin with, each of them flips the
    selection, any other key is ignored, and ESC never confirms. *)
Theorem confirm_iff_yes (keys : list Z) :
  ui_dialog_confirm keys = Some (Some tt) <->
  exists before ch rest,
    keys = before ++ ch :: rest /\
    Forall stays_open before /\
    is_enter ch = true /\
    Nat.even (toggles before) = true.
Proof.
  unfold ui_dialog_confirm.
  rewrite (confirm_from keys 0) by (left; reflexivity).
  reflexivity.
Qed.

Lemma list_inputs_spec (pressure : bool) (spns : list Z) (indices : list nat)
    (line : Z) (any : bool) :
  let n := Z.of_nat (length (filter (fun i => negb (nth i spns 0 =? 0)) indices)) in
  let r := list_inputs pressure spns indices line any in
  snd (fst r) = line + n /\
  snd r = (any || negb (n =? 0)) /\
  Forall (fun d => line <= fst (fst d) < line + n) (fst (fst r)).
Proof.
  revert line any.
  induction indices as [| i rest IH]; intros line any; cbn [list_inputs filter].
  - cbn. split; [lia |]. split; [destruct any; reflexivity | constructor].
  - destruct (negb (nth i spns 0 =? 0)).
    + specialize (IH (line + 1) true).
      destruct (list_inputs pressure spns rest (line + 1) true)
        as [[drawn line'] any'].
      cbn [fst snd length] in IH |- *.
      destruct IH as (Hline & Hany & Hrows).
      split; [lia |]. split.
      * rewrite Hany. cbn [orb].
        destruct (Z.eqb_spec (Z.of_nat (S (length (filter (fun i0 => negb (nth i0 spns 0 =? 0)) rest)))) 0);
          [lia |]. destruct any; reflexivity.
      * constructor; [cbn [fst]; lia |].
        eapply Forall_impl; [| exact Hrows].
        cbn beta. intros d Hd. lia.
    + apply IH.
Qed.

(** Filtering the indices of a list by the element they name counts
    the elements that pass. *)
Lemma filter_seq_nth (f : Z -> bool) (l : list Z) :
  length (filter (fun i => f (nth i l 0)) (seq 0 (length l))) =
  length (filter f l).
Proof.
  assert (H : forall (l0 l1 : list Z),
             length (filter (fun i => f (nth i (l0 ++ l1) 0))
                            (seq (length l0) (length l1))) =
             length (filter f l1)).
  { intros l0 l1. revert l0.
    induction l1 as [| x l1 IH]; intro l0; [reflexivity |].
    cbn [length seq filter].
    rewrite app_nth2 by lia. rewrite Nat.sub_diag. cbn [nth].
    specialize (IH (l0 ++ [x])).
    rewrite <- app_assoc in IH. cbn [app] in IH.
    rewrite length_app in IH. cbn [length] in IH.
    rewrite Nat.add_1_r in IH.
    destruct (f x); cbn [length]; rewrite IH; reflexivity. }
  apply (H [] l).
Qed.

Lemma list_inputs_table (pressure : bool) (spns : list Z) (k : nat) (line : Z) :
  length spns = k ->
  let r := list_inputs pressure spns (seq 0 k) line false in
  snd (fst r) = line + assigned spns /\
  snd r = negb (assigned spns =? 0) /\
  Forall (fun d => line <= fst (fst d) < line + assigned spns) (fst (fst r)).
Proof.
  intros <-.
  pose proof (list_inputs_spec pressure spns (seq 0 (length spns)) line false)
    as H.
  rewrite (filter_seq_nth (fun spn => negb (spn =? 0)) spns) in H.
  exact H.
Qed.

Lemma assigned_bounds (spns : list Z) :
  0 <= assigned spns <= Z.of_nat (length spns).
Proof.
  unfold assigned.
  pose proof (filter_length_le (fun spn => negb (spn =? 0)) spns). lia.
Qed.

Lemma assigned_all (spns : list Z) :
  Forall (fun spn => spn <> 0) spns -> assigned spns = Z.of_nat (length spns).
Proof.
  unfold assigned. induction 1 as [| x l Hx _ IH]; [reflexivity |].
  cbn [filter]. destruct (Z.eqb_spec x 0); [contradiction |].
  cbn [negb length]. lia.
Qed.

(** X28. [ui_dialog_spn_list] draws the EGT line and the BME280 line
    on rows 6 + T + P and 7 + T + P, where T and P are the lines the two
    tables take (one for each slot that is not 0, or the one "(none)").
    No line is drawn above row 2 or below the BME280 line or the prompt
    of row 20.  The BME280 row is 9 at least and 22 at most, and it is
    22, the height of the window, when all fifteen slots are assigned:
    then that row is outside the window of rows 0 to 21. *)
Theorem spn_list_rows (tempSpns presSpns : list Z) (egt bme : bool) :
  length tempSpns = 8%nat ->
  length presSpns = 7%nat ->
  let drawn := ui_dialog_spn_list tempSpns presSpns egt bme in
  let last := last_row tempSpns presSpns in
  In (last - 1, 3, LineEgt egt) drawn /\
  In (last, 3, LineBme280 bme) drawn /\
  Forall (fun d => 2 <= fst (fst d) <= Z.max 20 last) drawn /\
  9 <= last <= 22 /\
  (Forall (fun spn => spn <> 0) tempSpns ->
   Forall (fun spn => spn <> 0) presSpns ->
   last = SPN_LIST_HEIGHT).
Proof.
  intros Htemp Hpres drawn last. subst drawn last.
  unfold ui_dialog_spn_list, last_row, lines_of. cbv zeta.
  pose proof (assigned_bounds tempSpns) as Hbt. rewrite Htemp in Hbt.
  pose proof (assigned_bounds presSpns) as Hbp. rewrite Hpres in Hbp.
  pose proof (list_inputs_table false tempSpns 8 (2 + 1) Htemp) as Ht.
  cbv zeta in Ht.
  destruct (list_inputs false tempSpns (seq 0 8) (2 + 1) false)
    as [[temps line1] any1].
  cbn [fst snd] in Ht. destruct Ht as (-> & -> & Hrows1).
  rewrite negb_involutive.
  set (T := assigned tempSpns) in *.
  set (line2 := snd (if T =? 0 then ([(2 + 1 + T, 5, LineNone)], 2 + 1 + T + 1)
                     else ([], 2 + 1 + T))).
  assert (Hline2 : line2 = 3 + (if T =? 0 then 1 else T)).
  { unfold line2. destruct (Z.eqb_spec T 0); cbn [snd]; lia. }
  assert (Hnone1 :
            Forall (fun d : Drawn => 3 <= fst (fst d) < line2)
                   (fst (if T =? 0
                         then ([(2 + 1 + T, 5, LineNone)], 2 + 1 + T + 1)
                         else ([], 2 + 1 + T)))).
  { unfold line2. destruct (Z.eqb_spec T 0); cbn [fst snd];
      repeat constructor; cbn [fst]; lia. }
  fold line2 in Hnone1.
  destruct (if T =? 0 then ([(2 + 1 + T, 5, LineNone)], 2 + 1 + T + 1)
            else ([], 2 + 1 + T)) as [none1 l2] eqn:Hif1.
  cbn [snd] in line2. subst line2. cbn [fst] in Hnone1.
  pose proof (list_inputs_table true presSpns 7 (l2 + 1 + 1) Hpres) as Hp.
  cbv zeta in Hp.
  destruct (list_inputs true presSpns (seq 0 7) (l2 + 1 + 1) false)
    as [[press line3] any2].
  cbn [fst snd] in Hp. destruct Hp as (-> & -> & Hrows2).
  rewrite negb_involutive.
  set (P := assigned presSpns) in *.
  set (line4 := snd (if P =? 0
                     then ([(l2 + 1 + 1 + P, 5, LineNone)], l2 + 1 + 1 + P + 1)
                     else ([], l2 + 1 + 1 + P))).
  assert (Hline4 : line4 = l2 + 2 + (if P =? 0 then 1 else P)).
  { unfold line4. destruct (Z.eqb_spec P 0); cbn [snd]; lia. }
  assert (Hnone2 :
            Forall (fun d : Drawn => l2 + 2 <= fst (fst d) < line4)
                   (fst (if P =? 0
                         then ([(l2 + 1 + 1 + P, 5, LineNone)],
                               l2 + 1 + 1 + P + 1)
                         else ([], l2 + 1 + 1 + P)))).
  { unfold line4. destruct (Z.eqb_spec P 0); cbn [fst snd];
      repeat constructor; cbn [fst]; lia. }
  fold line4 in Hnone2.
  destruct (if P =? 0
            then ([(l2 + 1 + 1 + P, 5, LineNone)], l2 + 1 + 1 + P + 1)
            else ([], l2 + 1 + 1 + P)) as [none2 l4] eqn:Hif2.
  cbn [snd] in line4. subst line4. cbn [fst] in Hnone2.
  set (tl := if T =? 0 then 1 else T) in *.
  set (pl := if P =? 0 then 1 else P) in *.
  assert (Htl : 1 <= tl <= 8) by (unfold tl; destruct (Z.eqb_spec T 0); lia).
  assert (Hpl : 1 <= pl <= 7) by (unfold pl; destruct (Z.eqb_spec P 0); lia).
  assert (Hegt : l4 + 1 = 7 + tl + pl - 1) by lia.
  assert (Hbme : l4 + 1 + 1 = 7 + tl + pl) by lia.
  rewrite Hbme, Hegt.
  split; [| split; [| split; [| split]]].
  - rewrite !in_app_iff. cbn [In]. tauto.
  - rewrite !in_app_iff. cbn [In]. tauto.
  - rewrite !Forall_app.
    repeat split;
      try (repeat constructor; cbn [fst]; lia);
      match goal with
      | |- Forall _ ?l =>
          match goal with
          | H : Forall _ l |- _ =>
              eapply Forall_impl; [| exact H]; cbn beta; intros d Hd; lia
          end
      end.
  - lia.
  - intros Hallt Hallp.
    apply assigned_all in Hallt, Hallp. rewrite Htemp in Hallt.
    rewrite Hpres in Hallp. fold T in Hallt. fold P in Hallp.
    unfold tl, pl, SPN_LIST_HEIGHT.
    destruct (Z.eqb_spec T 0); destruct (Z.eqb_spec P 0); lia.
Qed.

Lemma spn_list_rows_witness :
  In (22, 3, LineBme280 true)
     (ui_dialog_spn_list [175; 110; 174; 105; 1131; 1132; 172; 441]
                         [100; 109; 94; 102; 106; 1127; 1128] true true) /\
  last_row [175; 110; 174; 105; 1131; 1132; 172; 441]
           [100; 109; 94; 102; 106; 1127; 1128] = SPN_LIST_HEIGHT.
Proof.
  destruct (spn_list_rows [175; 110; 174; 105; 1131; 1132; 172; 441]
                          [100; 109; 94; 102; 106; 1127; 1128] true true
                          eq_refl eq_refl)
    as (_ & Hbme & _ & _ & Hfull).
  split.
  - exact Hbme.
  - apply Hfull; repeat constructor; discriminate.
Defined.
